(** * remote-config-client: the orchestration core of [ConfigClient]

    A shallow embedding of [src/ConfigClient.ts] (constructor, [tryFetch],
    [getOverride], [getConfiguration], [refresh], [setPolling], [pause],
    [resume]) together with the error classes and the default providers
    it uses, followed by the properties of the endpoint walk, the
    pipeline, override mode and polling.

    - JavaScript values are the inductive type [JsValue]; truthiness is the
      function [truthy].  Numbers are restricted to the integers and [NaN]
      (only their truthiness matters to the client).
    - The providers handed to the constructor are fields of the record
      [ConfigClient]; they act on an abstract world [W] (network, storage,
      consumer state).  A provider that may reject ([fetch], [validator],
      [callback]) returns an [Outcome]; the providers whose contract is
      never to raise (cache, equality, transformer and the three reporting
      callbacks) are total.
    - The mutable fields of the class ([timeoutId], [loaded], [paused]), the
      timers of the JavaScript runtime and a call log live in [Machine];
      methods are computations in the state-and-exception monad [M].
    - Each public method and each timer callback runs to completion before
      the next one starts (no interleaving at [await]). *)

From Stdlib Require Import String List ZArith Bool Lia PArith.
Import ListNotations.
Open Scope string_scope.
Open Scope list_scope.

Set Implicit Arguments.

(* ------------------------------------------------------------------ *)
(** ** JavaScript values *)

#[warnings="-register-all"] Inductive JsValue : Type :=
| JUndefined
| JNull
| JBool (b : bool)
| JNumber (n : Z)
| JNaN
| JString (s : string)
| JObject (fields : list (string * JsValue)).

(** [if (v)], [v || w], [v ? a : b]: [undefined], [null], [false], [0],
    [NaN] and the empty string are falsy, everything else (every object,
    also the empty one) is truthy. *)
Definition truthy (v : JsValue) : bool :=
  match v with
  | JUndefined | JNull | JNaN => false
  | JBool b => b
  | JNumber n => negb (n =? 0)%Z
  | JString s => negb (s =? "")
  | JObject _ => true
  end.

(** [a || b] *)
Definition js_or (a b : JsValue) : JsValue := if truthy a then a else b.

(** [if (ep)] for [ep : string]: only the empty string is falsy. *)
Definition truthy_string (s : string) : bool := negb (s =? "").

(* ------------------------------------------------------------------ *)
(** ** Error classes *)

(** ConfigurationUndefinedError.ts *)
Record ConfigurationUndefinedError : Type :=
  { cue_endpoint : string }.

(** ConfigurationFailedError.ts *)
Record ConfigurationFailedError : Type :=
  { cfe_endpoints : list string }.

(** FetchError.ts: [new FetchError(error, endpoint)] *)
Record FetchError : Type :=
  { fe_error : JsValue; fe_endpoint : string }.

(* ------------------------------------------------------------------ *)
(** ** types.ts *)

Inductive ConfigurationEventStatus : Type :=
| status_error | status_loaded | status_updated | status_equal | status_cached.

(** An absent property and a property holding [undefined] are not told
    apart: [endpoint] is [None], [configuration] is [JUndefined]. *)
Record ConfigurationEvent : Type :=
  { status : ConfigurationEventStatus;
    endpoint : option string;
    configuration : JsValue;
    error : option ConfigurationFailedError }.

(** [{ ...ev, configuration }] *)
Definition with_configuration (ev : ConfigurationEvent) (cfg : JsValue)
  : ConfigurationEvent :=
  {| status := status ev; endpoint := endpoint ev;
     configuration := cfg; error := error ev |}.

(** What an awaited call does: it resolves with a value or it raises. *)
Inductive Outcome (A : Type) : Type :=
| Returned (a : A)
| Raised (e : JsValue).
Arguments Raised {A} e.

Record CacheProvider (W : Type) : Type :=
  { read : W -> JsValue * W;
    write : JsValue -> W -> W }.

(** The read-only fields of the class, as the constructor stores them. *)
Record ConfigClient (W : Type) : Type :=
  { override : JsValue;
    interval : option Z;
    endpoints : list string;
    cache : CacheProvider W;
    fetch : string -> W -> Outcome JsValue * W;
    equality : JsValue -> JsValue -> bool;
    transformer : JsValue -> JsValue;
    validator : JsValue -> W -> Outcome unit * W;
    callback : ConfigurationEvent -> W -> Outcome JsValue * W;
    onFetchError : FetchError -> W -> W;
    onValidationError : JsValue -> JsValue -> W -> W;
    onUndefinedError : ConfigurationUndefinedError -> W -> W }.

(* ------------------------------------------------------------------ *)
(** ** Default providers *)

(** defaultTransformer.ts *)
Definition defaultTransformer (config : JsValue) : JsValue :=
  if truthy config then config else JUndefined.

(** defaultValidator.ts: [Promise.resolve(...)], it never rejects and the
    client discards what it resolves with. *)
Definition defaultValidator {W : Type} (config : JsValue) (w : W)
  : Outcome unit * W :=
  (Returned tt, w).

(** DefaultCacheProvider.ts, on a world that is the single slot. *)
Definition DefaultCacheProvider : CacheProvider JsValue :=
  {| read := fun slot => (slot, slot);
     write := fun value _ => value |}.

(* ------------------------------------------------------------------ *)
(** ** The machine: mutable fields, runtime timers, call log *)

Definition TimerId : Type := positive.

(** One entry per call the client makes, in call order, with what the call
    was given and what it gave back. *)
Inductive Event : Type :=
| EvFetch (ep : string) (res : Outcome JsValue)
| EvOnFetchError (err : FetchError)
| EvOnUndefinedError (err : ConfigurationUndefinedError)
| EvValidator (data : JsValue) (res : Outcome unit)
| EvOnValidationError (err data : JsValue)
| EvCacheRead (res : JsValue)
| EvCacheWrite (value : JsValue)
| EvTransformer (data target : JsValue)
| EvEquality (source target : JsValue) (res : bool)
| EvCallback (ev : ConfigurationEvent) (res : Outcome JsValue)
| EvSetTimeout (id : TimerId) (ms : Z)
| EvClearTimeout (id : TimerId).

Record Machine (W : Type) : Type :=
  { world : W;
    timeoutId : option TimerId;
    loaded : bool;
    paused : bool;
    next_timer : TimerId;
    live_timers : list (TimerId * Z);
    trace : list Event }.

(** The state the constructor leaves: [loaded = false], [paused = false],
    no timer handle; the runtime has no timer of this client. *)
Definition init_machine {W : Type} (w : W) : Machine W :=
  {| world := w; timeoutId := None; loaded := false; paused := false;
     next_timer := 1%positive; live_timers := []; trace := [] |}.

Section Setters.
Context {W : Type}.

Definition set_world (w : W) (s : Machine W) : Machine W :=
  {| world := w; timeoutId := timeoutId s; loaded := loaded s;
     paused := paused s; next_timer := next_timer s;
     live_timers := live_timers s; trace := trace s |}.

Definition set_timeoutId (t : option TimerId) (s : Machine W) : Machine W :=
  {| world := world s; timeoutId := t; loaded := loaded s;
     paused := paused s; next_timer := next_timer s;
     live_timers := live_timers s; trace := trace s |}.

Definition set_loaded (b : bool) (s : Machine W) : Machine W :=
  {| world := world s; timeoutId := timeoutId s; loaded := b;
     paused := paused s; next_timer := next_timer s;
     live_timers := live_timers s; trace := trace s |}.

Definition set_paused (b : bool) (s : Machine W) : Machine W :=
  {| world := world s; timeoutId := timeoutId s; loaded := loaded s;
     paused := b; next_timer := next_timer s;
     live_timers := live_timers s; trace := trace s |}.

Definition log_event (e : Event) (s : Machine W) : Machine W :=
  {| world := world s; timeoutId := timeoutId s; loaded := loaded s;
     paused := paused s; next_timer := next_timer s;
     live_timers := live_timers s; trace := trace s ++ [e] |}.

(** [setTimeout(cb, ms)]: a fresh handle, live until it fires or is
    cleared.  Every timer of a client has the callback
    [() => this.refresh()], so only the handle and the delay are kept. *)
Definition setTimeout (ms : Z) (s : Machine W) : TimerId * Machine W :=
  let id := next_timer s in
  (id,
   {| world := world s; timeoutId := timeoutId s; loaded := loaded s;
      paused := paused s; next_timer := Pos.succ id;
      live_timers := live_timers s ++ [(id, ms)];
      trace := trace s ++ [EvSetTimeout id ms] |}).

(** [clearTimeout(id)]: the timer is no longer live; nothing happens for
    a handle that has fired or was cleared before. *)
Definition clearTimeout (id : TimerId) (s : Machine W) : Machine W :=
  {| world := world s; timeoutId := timeoutId s; loaded := loaded s;
     paused := paused s; next_timer := next_timer s;
     live_timers :=
       filter (fun t => negb (Pos.eqb (fst t) id)) (live_timers s);
     trace := trace s ++ [EvClearTimeout id] |}.
(** The runtime fires timer [id]: the handle is no longer live (the
    callback then runs, see [step]). *)
Definition timer_is_live (id : TimerId) (s : Machine W) : bool :=
  existsb (fun t => Pos.eqb (fst t) id) (live_timers s).

Definition expire (id : TimerId) (s : Machine W) : Machine W :=
  {| world := world s; timeoutId := timeoutId s; loaded := loaded s;
     paused := paused s; next_timer := next_timer s;
     live_timers :=
       filter (fun t => negb (Pos.eqb (fst t) id)) (live_timers s);
     trace := trace s |}.
End Setters.

(* ------------------------------------------------------------------ *)
(** ** The monad of method bodies *)

Definition M (W A : Type) : Type := Machine W -> Outcome A * Machine W.

Definition ret {W A : Type} (a : A) : M W A := fun s => (Returned a, s).

Definition bind {W A B : Type} (m : M W A) (k : A -> M W B) : M W B :=
  fun s =>
    match m s with
    | (Returned a, s') => k a s'
    | (Raised e, s') => (Raised e, s')
    end.

(** [try { m } catch (e) { h e }] *)
Definition try_catch {W A : Type} (m : M W A) (h : JsValue -> M W A) : M W A :=
  fun s =>
    match m s with
    | (Returned a, s') => (Returned a, s')
    | (Raised e, s') => h e s'
    end.

(** A statement that cannot raise. *)
Definition exec {W : Type} (f : Machine W -> Machine W) : M W unit :=
  fun s => (Returned tt, f s).

Definition get {W A : Type} (f : Machine W -> A) : M W A :=
  fun s => (Returned (f s), s).

Declare Scope client_scope.
Delimit Scope client_scope with client.
Notation "x <- m ;; k" := (bind m (fun x => k))
  (at level 100, m at next level, right associativity) : client_scope.
Notation "m ;; k" := (bind m (fun _ => k))
  (at level 100, right associativity) : client_scope.
Open Scope client_scope.

(* ------------------------------------------------------------------ *)
(** ** ConfigClient.ts: the methods *)

Section Methods.
Context {W : Type}.
Variable c : ConfigClient W.

(** *** Provider calls: run the provider on the world, log the call *)

(** [await this.fetch(ep)] *)
Definition call_fetch (ep : string) : M W JsValue :=
  fun s =>
    let (r, w) := fetch c ep (world s) in
    (r, log_event (EvFetch ep r) (set_world w s)).

(** [this.onFetchError(err)] *)
Definition call_onFetchError (err : FetchError) : M W unit :=
  exec (fun s =>
    log_event (EvOnFetchError err) (set_world (onFetchError c err (world s)) s)).

(** [this.onUndefinedError(error)] *)
Definition call_onUndefinedError (err : ConfigurationUndefinedError)
  : M W unit :=
  exec (fun s =>
    log_event (EvOnUndefinedError err)
      (set_world (onUndefinedError c err (world s)) s)).

(** [await this.validator(data)] *)
Definition call_validator (data : JsValue) : M W unit :=
  fun s =>
    let (r, w) := validator c data (world s) in
    (r, log_event (EvValidator data r) (set_world w s)).

(** [this.onValidationError(validationError, data)] *)
Definition call_onValidationError (err data : JsValue) : M W unit :=
  exec (fun s =>
    log_event (EvOnValidationError err data)
      (set_world (onValidationError c err data (world s)) s)).

(** [await this.cache.read()] *)
Definition call_cache_read : M W JsValue :=
  fun s =>
    let (v, w) := read (cache c) (world s) in
    (Returned v, log_event (EvCacheRead v) (set_world w s)).

(** [this.cache.write(configuration)]; the promise is not awaited. *)
Definition call_cache_write (value : JsValue) : M W unit :=
  exec (fun s =>
    log_event (EvCacheWrite value)
      (set_world (write (cache c) value (world s)) s)).

(** [this.transformer(data)] *)
Definition call_transformer (data : JsValue) : M W JsValue :=
  fun s =>
    let target := transformer c data in
    (Returned target, log_event (EvTransformer data target) s).

(** [this.equality(source, target)] *)
Definition call_equality (source target : JsValue) : M W bool :=
  fun s =>
    let r := equality c source target in
    (Returned r, log_event (EvEquality source target r) s).

(** [await this.callback(ev)] *)
Definition call_callback (ev : ConfigurationEvent) : M W JsValue :=
  fun s =>
    let (r, w) := callback c ev (world s) in
    (r, log_event (EvCallback ev r) (set_world w s)).

(** *** tryFetch *)

Record TryFetchResult : Type :=
  { tf_endpoint : option string;
    tf_configuration : JsValue;
    tf_error : option ConfigurationFailedError }.

(** The [while (cancel !== true)] loop.  [remaining] is the local copy
    [endpoints] that [shift()] consumes, [data] the local [data]; the
    result is the pair of the locals [ep] and [data] when the loop
    ends.  One iteration yields the new [data] and the new [cancel].
    Only the fetch can raise inside the [try] block (the reporting
    callback there is total), so the handler runs before [data] was
    assigned and leaves it as it was. *)
Fixpoint tryFetch_loop (remaining : list string) (data : JsValue)
  : M W (option string * JsValue) :=
  match remaining with
  | [] =>
      (* ep = undefined, so cancel = true *)
      ret (None, data)
  | ep :: rest =>
      if truthy_string ep then
        it <- try_catch
                (d <- call_fetch ep ;;
                 if truthy d then ret (d, true)
                 else
                   (call_onUndefinedError {| cue_endpoint := ep |} ;;
                    ret (d, false)))
                (fun error =>
                   call_onFetchError
                     {| fe_error := error; fe_endpoint := ep |} ;;
                   ret (data, false)) ;;
        if (snd it : bool) then ret (Some ep, fst it)
        else tryFetch_loop rest (fst it)
      else
        (* a falsy ep, so cancel = true *)
        ret (Some ep, data)
  end.

Definition tryFetch : M W TryFetchResult :=
  r <- tryFetch_loop (endpoints c) JUndefined ;;
  ret {| tf_endpoint := fst r;
         tf_configuration := snd r;
         tf_error :=
           if truthy (snd r) then None
           else Some {| cfe_endpoints := endpoints c |} |}.

(** *** getOverride *)

Definition getOverride : M W ConfigurationEvent :=
  let ev := {| status := status_cached; endpoint := None;
               configuration := override c; error := None |} in
  r <- call_callback ev ;;
  let configuration := js_or r (override c) in
  exec (set_loaded true) ;;
  ret (with_configuration ev configuration).

(** *** setPolling *)

Definition setPolling (start : bool) : M W unit :=
  fun s =>
    if start && match interval c with
                | Some n => (0 <? n)%Z
                | None => false
                end
    then
      let ms := match interval c with
                | Some n => (n * 1000)%Z
                | None => 0%Z
                end in
      let (id, s') := setTimeout ms s in
      (Returned tt, set_timeoutId (Some id) s')
    else
      match timeoutId s with
      | Some id => (Returned tt, clearTimeout id s)
      | None => (Returned tt, s)
      end.

(** *** refresh *)

Definition refresh : M W ConfigurationEvent :=
  if truthy (override c) then getOverride
  else
    setPolling false ;;
    tf <- tryFetch ;;
    let data := tf_configuration tf in
    let endpoint := tf_endpoint tf in
    match tf_error tf with
    | Some error =>
        ret {| status := status_error; endpoint := endpoint;
               configuration := JUndefined; error := Some error |}
    | None =>
        try_catch (call_validator data)
          (fun validationError =>
             call_onValidationError validationError data) ;;
        source <- call_cache_read ;;
        target <- call_transformer data ;;
        eq <- call_equality source target ;;
        let hasChanged := negb eq in
        isLoaded <- get (@loaded W) ;;
        let ev := {| status :=
                       if negb isLoaded then status_loaded
                       else if hasChanged then status_updated
                       else status_equal;
                     endpoint := endpoint;
                     configuration := target;
                     error := None |} in
        r <- call_callback ev ;;
        let configuration := js_or r target in
        call_cache_write configuration ;;
        exec (set_loaded true) ;;
        isPaused <- get (@paused W) ;;
        (if negb isPaused then setPolling true else ret tt) ;;
        ret (with_configuration ev configuration)
    end.

(** *** getConfiguration *)

Definition getConfiguration : M W ConfigurationEvent :=
  if truthy (override c) then getOverride
  else
    source <- call_cache_read ;;
    if truthy source then
      ret {| status := status_cached; endpoint := None;
             configuration := source; error := None |}
    else refresh.

(** *** pause, resume *)

Definition pause : M W unit :=
  exec (set_paused true) ;;
  setPolling false.

Definition resume : M W unit :=
  exec (set_paused false) ;;
  setPolling true.

(** *** Histories: what a caller and the runtime do to one client *)

Inductive Op : Type :=
| OpGetConfiguration
| OpRefresh
| OpPause
| OpResume
| OpTimer (id : TimerId).

(** One operation, run to completion.  A timer that is not live does not
    fire.  The callback of a timer is [() => this.refresh()]; the runtime
    drops what that call settles with, the history keeps it. *)
Definition step (o : Op) (s : Machine W)
  : option (Outcome ConfigurationEvent) * Machine W :=
  match o with
  | OpGetConfiguration => let (r, s') := getConfiguration s in (Some r, s')
  | OpRefresh => let (r, s') := refresh s in (Some r, s')
  | OpPause => (None, snd (pause s))
  | OpResume => (None, snd (resume s))
  | OpTimer id =>
      if timer_is_live id s then
        let (r, s') := refresh (expire id s) in (Some r, s')
      else (None, s)
  end.

(** A history from [s]: what each operation settled with, oldest first,
    and the machine it leaves. *)
Fixpoint run (ops : list Op) (s : Machine W)
  : list (option (Outcome ConfigurationEvent)) * Machine W :=
  match ops with
  | [] => ([], s)
  | o :: ops' =>
      let (r, s1) := step o s in
      let (rs, s2) := run ops' s1 in
      (r :: rs, s2)
  end.

End Methods.

(** A pipeline run that completed: the call resolved with an event whose
    status is [loaded], [updated] or [equal]. *)
Definition pipeline_completed (r : option (Outcome ConfigurationEvent)) : bool :=
  match r with
  | Some (Returned ev) =>
      match status ev with
      | status_loaded | status_updated | status_equal => true
      | status_error | status_cached => false
      end
  | _ => false
  end.

(* ------------------------------------------------------------------ *)
(** ** ConfigClient.ts: the constructor *)

(** What the logging provider may be handed by the client. *)
Inductive LogDatum : Type :=
| LogFetchError (err : FetchError)
| LogUndefinedError (err : ConfigurationUndefinedError)
| LogValue (v : JsValue).

(** [ConfigurationClientOptions<T>].  [endpoints] and [callback] are
    required by the type, and checked again at run time by the
    constructor, so both may be missing here. *)
Record ConfigurationClientOptions (W : Type) : Type :=
  { opt_endpoints : option (list string);
    opt_callback : option (ConfigurationEvent -> W -> Outcome JsValue * W);
    opt_override : JsValue;
    opt_interval : option Z;
    opt_log : option (list LogDatum -> W -> W);
    opt_cache : option (CacheProvider W);
    opt_fetch : option (string -> W -> Outcome JsValue * W);
    opt_transformer : option (JsValue -> JsValue);
    opt_equality : option (JsValue -> JsValue -> bool);
    opt_validator : option (JsValue -> W -> Outcome unit * W);
    opt_onConfigurationUndefined :
      option (ConfigurationUndefinedError -> W -> W);
    opt_onFetchError : option (FetchError -> W -> W);
    opt_onValidationError : option (JsValue -> JsValue -> W -> W);
    opt_initialize : bool }.

(** OptionsError.ts *)
Record OptionsError (W : Type) : Type :=
  { oe_message : string;
    oe_options : ConfigurationClientOptions W }.

Section Constructor.
Context {W : Type}.

(** What the defaults rest on outside the repository: [isEqual] of
    lodash, the [fetch] of the runtime followed by [response.json()], and
    the storage of a fresh [DefaultCacheProvider] inside the world. *)
Variable isEqual : JsValue -> JsValue -> bool.
Variable runtime_get_json : string -> W -> Outcome JsValue * W.
Variable new_DefaultCacheProvider : CacheProvider W.

(** defaultFetchProvider.ts *)
Definition defaultFetchProvider (url : string) : W -> Outcome JsValue * W :=
  runtime_get_json url.

(** [a || b] on an optional provider. *)
Definition or_default {A : Type} (a : option A) (b : A) : A :=
  match a with Some x => x | None => b end.

(** [new ConfigClient(options)] in the world [w]: the error it throws, or
    the client, the machine it leaves and the operations it has launched.
    With [initialize: true] the constructor calls [this.refresh()] and
    does not await it: it returns with that refresh in flight, and the
    refresh is the first operation of the client's history.  Before its
    first [await] that refresh assigns no field ([setPolling(false)] finds
    no [timeoutId]), so the machine is the one the assignments leave in
    either case. *)
Definition constructor (options : ConfigurationClientOptions W) (w : W)
  : OptionsError W + ConfigClient W * Machine W * list Op :=
  let log := or_default (opt_log options) (fun _ w => w) in
  let this_interval :=
    match opt_interval options with
    | Some n => if (n =? 0)%Z then None else Some n
    | None => None
    end in
  let this_endpoints := or_default (opt_endpoints options) [] in
  match this_endpoints with
  | [] => inl {| oe_message := "Missing endpoints"; oe_options := options |}
  | _ :: _ =>
      match opt_callback options with
      | None =>
          inl {| oe_message := "Missing callback method";
                 oe_options := options |}
      | Some cb =>
          let this :=
            {| override := opt_override options;
               interval := this_interval;
               endpoints := this_endpoints;
               cache := or_default (opt_cache options) new_DefaultCacheProvider;
               fetch := or_default (opt_fetch options) defaultFetchProvider;
               equality := or_default (opt_equality options) isEqual;
               transformer :=
                 or_default (opt_transformer options) defaultTransformer;
               validator := or_default (opt_validator options) defaultValidator;
               callback := cb;
               onFetchError :=
                 or_default (opt_onFetchError options)
                   (fun err => log [LogFetchError err]);
               onValidationError :=
                 or_default (opt_onValidationError options)
                   (fun err data => log [LogValue err; LogValue data]);
               onUndefinedError :=
                 or_default (opt_onConfigurationUndefined options)
                   (fun err => log [LogUndefinedError err]) |} in
          inr (this, init_machine w,
               if opt_initialize options then [OpRefresh] else [])
      end
  end.

End Constructor.

(* ------------------------------------------------------------------ *)
(** ** Reading runs: fetch outcomes, call logs, timers *)

Section FetchClasses.
Context {W : Type}.
Variable c : ConfigClient W.

(** The fetch of [ep] raises or resolves falsy, whenever it is called. *)
Definition fetch_fails (ep : string) : Prop :=
  forall w, match fst (fetch c ep w) with
            | Returned d => truthy d = false
            | Raised _ => True
            end.

(** The fetch of [ep] resolves truthy, whenever it is called. *)
Definition fetch_wins (ep : string) : Prop :=
  forall w, match fst (fetch c ep w) with
            | Returned d => truthy d = true
            | Raised _ => False
            end.
End FetchClasses.

(** The calls of a walk over endpoints that all fail: each endpoint is
    fetched once and reported once, through [onFetchError] when the fetch
    raised and through [onUndefinedError] when it resolved falsy. *)
Inductive failed_attempts : list string -> list Event -> Prop :=
| failed_nil : failed_attempts [] []
| failed_raised ep e rest t :
    failed_attempts rest t ->
    failed_attempts (ep :: rest)
      (EvFetch ep (Raised e)
       :: EvOnFetchError {| fe_error := e; fe_endpoint := ep |} :: t)
| failed_falsy ep d rest t :
    truthy d = false ->
    failed_attempts rest t ->
    failed_attempts (ep :: rest)
      (EvFetch ep (Returned d)
       :: EvOnUndefinedError {| cue_endpoint := ep |} :: t).

(** The local [data] after the calls [t], starting from [data]: the value
    of the last fetch that resolved. *)
Fixpoint last_resolved (t : list Event) (data : JsValue) : JsValue :=
  match t with
  | [] => data
  | EvFetch _ (Returned d) :: t' => last_resolved t' d
  | _ :: t' => last_resolved t' data
  end.

(** The calls [t] are fetches and reports of the endpoint walk only. *)
Definition only_fetches_and_reports (t : list Event) : Prop :=
  Forall (fun e => match e with
                   | EvFetch _ _ | EvOnFetchError _ | EvOnUndefinedError _ => True
                   | _ => False
                   end) t.

(** The mutable fields and the runtime timers are the same in [s] and [s']
    (the world and the log may differ). *)
Definition same_fields {W : Type} (s s' : Machine W) : Prop :=
  timeoutId s' = timeoutId s /\ loaded s' = loaded s /\
  paused s' = paused s /\ next_timer s' = next_timer s /\
  live_timers s' = live_timers s.

Definition is_cache_call (e : Event) : bool :=
  match e with EvCacheRead _ | EvCacheWrite _ => true | _ => false end.

Definition is_cache_write (e : Event) : bool :=
  match e with EvCacheWrite _ => true | _ => false end.

Definition is_validator_call (e : Event) : bool :=
  match e with EvValidator _ _ => true | _ => false end.

Definition is_validation_report (e : Event) : bool :=
  match e with EvOnValidationError _ _ => true | _ => false end.

Definition is_callback_call (e : Event) : bool :=
  match e with EvCallback _ _ => true | _ => false end.

Definition is_setTimeout (e : Event) : bool :=
  match e with EvSetTimeout _ _ => true | _ => false end.

Definition is_timer_call (e : Event) : bool :=
  match e with EvSetTimeout _ _ | EvClearTimeout _ => true | _ => false end.

(** The same client, constructed with another [override] option. *)
Definition with_override {W : Type} (ov : JsValue) (c : ConfigClient W)
  : ConfigClient W :=
  {| override := ov; interval := interval c; endpoints := endpoints c;
     cache := cache c; fetch := fetch c; equality := equality c;
     transformer := transformer c; validator := validator c;
     callback := callback c; onFetchError := onFetchError c;
     onValidationError := onValidationError c;
     onUndefinedError := onUndefinedError c |}.

(** At most one timer of the client is live, and the client holds its
    handle. *)
Definition one_timer_at_most {W : Type} (s : Machine W) : Prop :=
  live_timers s = [] \/
  exists id ms, timeoutId s = Some id /\ live_timers s = [(id, ms)].

Definition is_resume (o : Op) : bool :=
  match o with OpResume => true | _ => false end.

Definition is_transformer_call (e : Event) : bool :=
  match e with EvTransformer _ _ => true | _ => false end.

(** The configuration a pipeline call works on: the result of the
    transformer, the target of the comparison, the configuration of the
    event given to the callback, the value written to the cache. *)
Definition pipeline_value (e : Event) : option JsValue :=
  match e with
  | EvTransformer _ target => Some target
  | EvEquality _ target _ => Some target
  | EvCallback ev _ => Some (configuration ev)
  | EvCacheWrite value => Some value
  | _ => None
  end.

(** The calls of the validation step on [data]. *)
Definition validation_calls (data : JsValue) (vt : list Event) : Prop :=
  vt = [EvValidator data (Returned tt)] \/
  exists e, vt = [EvValidator data (Raised e); EvOnValidationError e data].

(** The event the pipeline builds for the callback. *)
Definition pipeline_event (isLoaded : bool) (hasChanged : bool)
  (ep : option string) (target : JsValue) : ConfigurationEvent :=
  {| status := if negb isLoaded then status_loaded
               else if hasChanged then status_updated
               else status_equal;
     endpoint := ep;
     configuration := target;
     error := None |}.

(* ------------------------------------------------------------------ *)
(** ** Example clients

    The world is the slot of the default in-memory cache; the reporting
    callbacks are the default [log], which does nothing. *)

(** A structural comparison, used as the Equality provider of the
    examples. *)
Fixpoint structural_equality (a b : JsValue) : bool :=
  match a, b with
  | JUndefined, JUndefined => true
  | JNull, JNull => true
  | JBool x, JBool y => Bool.eqb x y
  | JNumber x, JNumber y => (x =? y)%Z
  | JNaN, JNaN => true
  | JString x, JString y => (x =? y)%string
  | JObject fa, JObject fb =>
      (fix fields (l1 l2 : list (string * JsValue)) : bool :=
         match l1, l2 with
         | [], [] => true
         | (k1, v1) :: t1, (k2, v2) :: t2 =>
             (k1 =? k2)%string && structural_equality v1 v2 && fields t1 t2
         | _, _ => false
         end) fa fb
  | _, _ => false
  end.

Definition quiet {A : Type} (_ : A) (w : JsValue) : JsValue := w.

(** [e => Promise.resolve(e.configuration)] *)
Definition echo_callback (e : ConfigurationEvent) (w : JsValue)
  : Outcome JsValue * JsValue :=
  (Returned (configuration e), w).

(** [() => Promise.resolve(undefined)] *)
Definition silent_callback (e : ConfigurationEvent) (w : JsValue)
  : Outcome JsValue * JsValue :=
  (Returned JUndefined, w).

Definition example_client (ov : JsValue) (iv : option Z) (eps : list string)
  (f : string -> JsValue -> Outcome JsValue * JsValue)
  (t : JsValue -> JsValue)
  (v : JsValue -> JsValue -> Outcome unit * JsValue)
  (cb : ConfigurationEvent -> JsValue -> Outcome JsValue * JsValue)
  : ConfigClient JsValue :=
  {| override := ov; interval := iv; endpoints := eps;
     cache := DefaultCacheProvider; fetch := f;
     equality := structural_equality; transformer := t;
     validator := v; callback := cb;
     onFetchError := quiet;
     onValidationError := fun _ => quiet;
     onUndefinedError := quiet |}.

Definition testConfig : JsValue := JObject [("flag", JBool true)].
Definition alteredConfig : JsValue := JObject [("flag", JBool false)].

Definition test_endpoints : list string :=
  ["https://endpoint.com/abcd/1.0.0-beta.json";
   "https://endpoint.com/abcd/default.json";
   "https://endpoint.com/default.json"].

(** The first endpoint is not found, the second answers with an empty
    body, the third has the configuration. *)
Definition third_fetch (ep : string) (w : JsValue) : Outcome JsValue * JsValue :=
  if ep =? "https://endpoint.com/abcd/1.0.0-beta.json"
  then (Raised (JString "Not Found"), w)
  else if ep =? "https://endpoint.com/abcd/default.json"
  then (Returned (JString ""), w)
  else (Returned testConfig, w).

(** Every endpoint has the configuration. *)
Definition good_fetch (ep : string) (w : JsValue) : Outcome JsValue * JsValue :=
  (Returned testConfig, w).

(** No endpoint has a configuration: the last one answers with an empty
    body, the others are not found. *)
Definition bad_fetch (ep : string) (w : JsValue) : Outcome JsValue * JsValue :=
  if ep =? "https://endpoint.com/default.json"
  then (Returned (JString ""), w)
  else (Raised (JString "Not Found"), w).

(** [() => { throw new Error('Validation Error') }] *)
Definition rejecting_validator (data : JsValue) (w : JsValue)
  : Outcome unit * JsValue :=
  (Raised (JString "Validation Error"), w).

Definition polling_client : ConfigClient JsValue :=
  example_client JUndefined (Some 5%Z) test_endpoints third_fetch
    defaultTransformer defaultValidator echo_callback.

Definition failing_client : ConfigClient JsValue :=
  example_client JUndefined None test_endpoints bad_fetch
    defaultTransformer defaultValidator echo_callback.

Definition unvalidated_client : ConfigClient JsValue :=
  example_client JUndefined None test_endpoints good_fetch
    defaultTransformer rejecting_validator echo_callback.

Definition altering_client : ConfigClient JsValue :=
  example_client JUndefined None test_endpoints good_fetch
    defaultTransformer defaultValidator
    (fun _ w => (Returned alteredConfig, w)).

Definition override_client : ConfigClient JsValue :=
  example_client alteredConfig (Some 5%Z) test_endpoints good_fetch
    defaultTransformer defaultValidator silent_callback.

(** An override that is a falsy value of [T = number]. *)
Definition zero_override_client : ConfigClient JsValue :=
  example_client (JNumber 0) None test_endpoints good_fetch
    defaultTransformer defaultValidator echo_callback.

(** A caller-supplied transformer that maps every raw value to the
    number [0]. *)
Definition zero_transformer_client : ConfigClient JsValue :=
  example_client JUndefined None test_endpoints good_fetch
    (fun _ => JNumber 0) defaultValidator silent_callback.

(** An endpoint list whose first entry is the empty string. *)
Definition empty_first_client : ConfigClient JsValue :=
  example_client JUndefined None [""; "https://endpoint.com/default.json"]
    good_fetch defaultTransformer defaultValidator echo_callback.

(** The only endpoint is the empty string, and nothing is found there. *)
Definition empty_only_client : ConfigClient JsValue :=
  example_client JUndefined None [""] bad_fetch
    defaultTransformer defaultValidator echo_callback.

(** A single endpoint that answers with an empty body. *)
Definition empty_body_client : ConfigClient JsValue :=
  example_client JUndefined None ["https://endpoint.com/default.json"]
    (fun _ w => (Returned (JString ""), w))
    defaultTransformer defaultValidator echo_callback.

(** What every event a method resolves with looks like, by status: the
    error event has no configuration and carries the configured list; a
    cached event has a truthy configuration and no endpoint; an event of
    the pipeline names the endpoint that won, which is one of the
    configured, non-empty ones. *)
Definition well_formed_event {W : Type} (c : ConfigClient W)
  (ev : ConfigurationEvent) : Prop :=
  match status ev with
  | status_error =>
      configuration ev = JUndefined /\
      error ev = Some {| cfe_endpoints := endpoints c |}
  | status_cached =>
      endpoint ev = None /\ error ev = None /\ truthy (configuration ev) = true
  | status_loaded | status_updated | status_equal =>
      error ev = None /\
      exists ep, endpoint ev = Some ep /\ In ep (endpoints c) /\ ep <> ""
  end.

(** [this.interval && this.interval > 0] and [this.interval * 1000]. *)
Definition polls {W : Type} (c : ConfigClient W) : bool :=
  match interval c with
  | Some n => (0 <? n)%Z
  | None => false
  end.

Definition delay {W : Type} (c : ConfigClient W) : Z :=
  match interval c with
  | Some n => (n * 1000)%Z
  | None => 0%Z
  end.

(** A history in which [resume] is only called where no timer can be
    live: as the first operation after construction or directly after
    [pause].  [quiet] tells whether that holds at the start. *)
Fixpoint resumes_when_quiet (quiet : bool) (ops : list Op) : bool :=
  match ops with
  | [] => true
  | OpResume :: ops' => quiet && resumes_when_quiet false ops'
  | OpPause :: ops' => resumes_when_quiet true ops'
  | _ :: ops' => resumes_when_quiet false ops'
  end.

(** The operation resolved with an event of status [loaded]. *)
Definition reports_loaded (r : option (Outcome ConfigurationEvent)) : bool :=
  match r with
  | Some (Returned ev) =>
      match status ev with status_loaded => true | _ => false end
  | _ => false
  end.

(** The event of override mode, as given to the callback. *)
Definition override_event {W : Type} (c : ConfigClient W) : ConfigurationEvent :=
  {| status := status_cached; endpoint := None;
     configuration := override c; error := None |}.

(** What a cache read would give in the world [w]. *)
Definition cache_view {W : Type} (c : ConfigClient W) (w : W) : JsValue :=
  fst (read (cache c) w).

(** The cache gives back what was written to it last. *)
Definition cache_keeps_writes {W : Type} (c : ConfigClient W) : Prop :=
  forall v w, cache_view c (write (cache c) v w) = v.

(** The providers called between the start of [refresh] and its cache
    read (fetch, the reporting callbacks, the validator) leave the cache
    content alone. *)
Definition cache_stable {W : Type} (c : ConfigClient W) : Prop :=
  (forall ep w, cache_view c (snd (fetch c ep w)) = cache_view c w) /\
  (forall err w, cache_view c (onFetchError c err w) = cache_view c w) /\
  (forall err w, cache_view c (onUndefinedError c err w) = cache_view c w) /\
  (forall d w, cache_view c (snd (validator c d w)) = cache_view c w) /\
  (forall e d w, cache_view c (onValidationError c e d w) = cache_view c w).

(** The world after the validation step of [refresh] on [data]:
    [try { await this.validator(data) } catch (e) { this.onValidationError(e, data) }]. *)
Definition validated_world {W : Type} (c : ConfigClient W) (data : JsValue)
  (w : W) : W :=
  match validator c data w with
  | (Returned _, w') => w'
  | (Raised e, w') => onValidationError c e data w'
  end.

(** Options as an application would give them: endpoints, callback, a
    fetch provider and an interval; everything else is left to the
    defaults; [initialize] is set. *)
Definition test_options : ConfigurationClientOptions JsValue :=
  {| opt_endpoints := Some test_endpoints;
     opt_callback := Some echo_callback;
     opt_override := JUndefined;
     opt_interval := Some 5%Z;
     opt_log := None;
     opt_cache := None;
     opt_fetch := Some third_fetch;
     opt_transformer := None;
     opt_equality := None;
     opt_validator := None;
     opt_onConfigurationUndefined := None;
     opt_onFetchError := None;
     opt_onValidationError := None;
     opt_initialize := true |}.

(* ================================================================== *)
(** * Properties *)

Unset Implicit Arguments.

(** ** Construction *)

Section ConstructorFacts.
Context {W : Type}.
Variable isEqual : JsValue -> JsValue -> bool.
Variable runtime_get_json : string -> W -> Outcome JsValue * W.
Variable new_DefaultCacheProvider : CacheProvider W.

(** A constructed client has the override and the callback of its
    options and a non-empty endpoint list; it starts with [loaded = false],
    [paused = false] and no timer; with [initialize] it has launched a
    refresh. *)
Lemma constructor_built (options : ConfigurationClientOptions W) (w : W)
  (c : ConfigClient W) (s : Machine W) (launched : list Op) :
  constructor isEqual runtime_get_json new_DefaultCacheProvider options w
    = inr (c, s, launched) ->
  override c = opt_override options /\
  opt_endpoints options = Some (endpoints c) /\
  endpoints c <> [] /\
  opt_callback options = Some (callback c) /\
  s = init_machine w /\
  launched = (if opt_initialize options then [OpRefresh] else []).
Proof.
  unfold constructor.
  destruct (opt_endpoints options) as [[ | ep eps] | ]; cbn; try discriminate.
  destruct (opt_callback options) as [cb | ]; [ | discriminate ].
  intros H; injection H as <- <- <-; cbn.
  repeat split; discriminate.
Qed.

(** Without endpoints, or without callback, the constructor throws. *)
Lemma constructor_throws (options : ConfigurationClientOptions W) (w : W) :
  (opt_endpoints options = None \/ opt_endpoints options = Some []) \/
  opt_callback options = None ->
  exists err,
    constructor isEqual runtime_get_json new_DefaultCacheProvider options w
      = inl err /\
    oe_options err = options.
Proof.
  unfold constructor.
  intros [[-> | ->] | Hcb]; cbn; try (eexists; split; reflexivity).
  destruct (opt_endpoints options) as [[ | ep eps] | ]; cbn;
    try (eexists; split; reflexivity).
  rewrite Hcb. eexists; split; reflexivity.
Qed.

End ConstructorFacts.

(** ** The endpoint walk *)

Section TryFetchFacts.
Context {W : Type}.
Variable c : ConfigClient W.

(** One turn of the loop, with the provider calls spelled out. *)
Lemma tryFetch_loop_cons (ep : string) (rest : list string) (data : JsValue)
  (s : Machine W) :
  tryFetch_loop c (ep :: rest) data s =
  if truthy_string ep then
    match fetch c ep (world s) with
    | (Returned d, w) =>
        let s1 := log_event (EvFetch ep (Returned d)) (set_world w s) in
        if truthy d then (Returned (Some ep, d), s1)
        else
          let err := {| cue_endpoint := ep |} in
          tryFetch_loop c rest d
            (log_event (EvOnUndefinedError err)
               (set_world (onUndefinedError c err w) s1))
    | (Raised e, w) =>
        let s1 := log_event (EvFetch ep (Raised e)) (set_world w s) in
        let err := {| fe_error := e; fe_endpoint := ep |} in
        tryFetch_loop c rest data
          (log_event (EvOnFetchError err)
             (set_world (onFetchError c err w) s1))
    end
  else (Returned (Some ep, data), s).
Proof.
  cbn [tryFetch_loop].
  destruct (truthy_string ep); [ | reflexivity ].
  unfold bind at 1. unfold try_catch, bind at 1. unfold call_fetch.
  destruct (fetch c ep (world s)) as [[d | e] w].
  - destruct (truthy d); reflexivity.
  - reflexivity.
Qed.

Lemma same_fields_refl (s : Machine W) : same_fields s s.
Proof. repeat split. Qed.

Lemma same_fields_trans (s1 s2 s3 : Machine W) :
  same_fields s1 s2 -> same_fields s2 s3 -> same_fields s1 s3.
Proof.
  unfold same_fields. intros (A1 & A2 & A3 & A4 & A5) (B1 & B2 & B3 & B4 & B5).
  repeat split; congruence.
Qed.

(** The walk always returns; it touches neither the fields of the client
    nor the timers; it only fetches and reports; and the [data] it ends
    with is what the last resolved fetch gave. *)
Lemma tryFetch_loop_returns (eps : list string) :
  forall (data : JsValue) (s : Machine W),
  exists r s' t,
    tryFetch_loop c eps data s = (Returned r, s') /\
    same_fields s s' /\
    trace s' = trace s ++ t /\
    snd r = last_resolved t data /\
    only_fetches_and_reports t.
Proof.
  induction eps as [ | ep rest IH ]; intros data s.
  - exists (None, data), s, []. cbn. rewrite app_nil_r.
    repeat split; constructor.
  - rewrite tryFetch_loop_cons.
    destruct (truthy_string ep).
    + destruct (fetch c ep (world s)) as [[d | e] w]; cbn zeta.
      * destruct (truthy d) eqn:Hd.
        -- eexists (Some ep, d), _, [EvFetch ep (Returned d)].
           repeat split; repeat constructor.
        -- edestruct IH as (r & s' & t & Hrun & Hsame & Htr & Hdata & Hall).
           exists r, s', (EvFetch ep (Returned d)
                          :: EvOnUndefinedError {| cue_endpoint := ep |} :: t).
           split; [ exact Hrun | ].
           split; [ | split; [ | split ] ].
           ++ eapply same_fields_trans; [ | exact Hsame ]. repeat split.
           ++ rewrite Htr. cbn. rewrite <- !app_assoc. reflexivity.
           ++ exact Hdata.
           ++ repeat constructor. exact Hall.
      * edestruct IH as (r & s' & t & Hrun & Hsame & Htr & Hdata & Hall).
        exists r, s', (EvFetch ep (Raised e)
                       :: EvOnFetchError {| fe_error := e; fe_endpoint := ep |}
                       :: t).
        split; [ exact Hrun | ].
        split; [ | split; [ | split ] ].
        -- eapply same_fields_trans; [ | exact Hsame ]. repeat split.
        -- rewrite Htr. cbn. rewrite <- !app_assoc. reflexivity.
        -- exact Hdata.
        -- repeat constructor. exact Hall.
    + exists (Some ep, data), s, []. cbn. rewrite app_nil_r.
      repeat split; constructor.
Qed.

(** The walk over a prefix of failing endpoints followed by a winning
    one: each endpoint of the prefix is fetched and reported once, the
    winner is fetched, nothing after it is. *)
Lemma tryFetch_loop_first_truthy (pre : list string) (ep : string)
  (post : list string) :
  Forall (fun e => truthy_string e = true /\ fetch_fails c e) pre ->
  truthy_string ep = true ->
  fetch_wins c ep ->
  forall (data : JsValue) (s : Machine W),
  exists d t s',
    tryFetch_loop c (pre ++ ep :: post) data s = (Returned (Some ep, d), s') /\
    truthy d = true /\
    failed_attempts pre t /\
    trace s' = trace s ++ t ++ [EvFetch ep (Returned d)] /\
    same_fields s s'.
Proof.
  intros Hpre Hep Hwin.
  induction Hpre as [ | e pre [He Hfail] Hpre IH ]; intros data s.
  - cbn [app]. rewrite tryFetch_loop_cons, Hep.
    specialize (Hwin (world s)).
    destruct (fetch c ep (world s)) as [[d | x] w]; cbn in Hwin; [ | contradiction ].
    cbn zeta. rewrite Hwin.
    exists d, []. eexists. repeat split; [ exact Hwin | constructor ].
  - cbn [app]. rewrite tryFetch_loop_cons, He.
    specialize (Hfail (world s)).
    destruct (fetch c e (world s)) as [[d | x] w]; cbn in Hfail; cbn zeta.
    + rewrite Hfail.
      edestruct IH as (d' & t & s' & Hrun & Hd' & Hatt & Htr & Hsame).
      exists d', (EvFetch e (Returned d)
                  :: EvOnUndefinedError {| cue_endpoint := e |} :: t), s'.
      split; [ exact Hrun | ].
      split; [ exact Hd' | ].
      split; [ constructor; assumption | ].
      split.
      * rewrite Htr. cbn. rewrite <- !app_assoc. reflexivity.
      * eapply same_fields_trans; [ | exact Hsame ]. repeat split.
    + edestruct IH as (d' & t & s' & Hrun & Hd' & Hatt & Htr & Hsame).
      exists d', (EvFetch e (Raised x)
                  :: EvOnFetchError {| fe_error := x; fe_endpoint := e |} :: t), s'.
      split; [ exact Hrun | ].
      split; [ exact Hd' | ].
      split; [ constructor; assumption | ].
      split.
      * rewrite Htr. cbn. rewrite <- !app_assoc. reflexivity.
      * eapply same_fields_trans; [ | exact Hsame ]. repeat split.
Qed.

(** The walk over endpoints that all fail ends with a falsy [data]; when
    no endpoint is the empty string it visits all of them and ends with
    [ep = undefined]. *)
Lemma tryFetch_loop_all_fail (eps : list string) :
  Forall (fetch_fails c) eps ->
  forall (data : JsValue) (s : Machine W),
  truthy data = false ->
  exists r s' t,
    tryFetch_loop c eps data s = (Returned r, s') /\
    truthy (snd r) = false /\
    snd r = last_resolved t data /\
    trace s' = trace s ++ t /\
    same_fields s s' /\
    only_fetches_and_reports t /\
    (Forall (fun e => truthy_string e = true) eps ->
     fst r = None /\ failed_attempts eps t).
Proof.
  intros Hall.
  induction Hall as [ | ep rest Hfail Hall IH ]; intros data s Hdata.
  - exists (None, data), s, []. cbn. rewrite app_nil_r.
    repeat split; try assumption; constructor.
  - rewrite tryFetch_loop_cons.
    destruct (truthy_string ep) eqn:Hep.
    + specialize (Hfail (world s)).
      destruct (fetch c ep (world s)) as [[d | x] w]; cbn in Hfail; cbn zeta.
      * rewrite Hfail.
        edestruct (IH d) as (r & s' & t & Hrun & Hfalsy & Hlast & Htr & Hsame & Hev & Hne);
          [ exact Hfail | ].
        exists r, s', (EvFetch ep (Returned d)
                       :: EvOnUndefinedError {| cue_endpoint := ep |} :: t).
        split; [ exact Hrun | ].
        split; [ exact Hfalsy | ].
        split; [ exact Hlast | ].
        split; [ rewrite Htr; cbn; rewrite <- !app_assoc; reflexivity | ].
        split; [ eapply same_fields_trans; [ | exact Hsame ]; repeat split | ].
        split; [ repeat constructor; exact Hev | ].
        intros Hne'. inversion Hne' as [ | ? ? _ Hrest ]; subst.
        destruct (Hne Hrest) as [Hr Hatt].
        split; [ exact Hr | constructor; assumption ].
      * edestruct (IH data) as (r & s' & t & Hrun & Hfalsy & Hlast & Htr & Hsame & Hev & Hne);
          [ exact Hdata | ].
        exists r, s', (EvFetch ep (Raised x)
                       :: EvOnFetchError {| fe_error := x; fe_endpoint := ep |}
                       :: t).
        split; [ exact Hrun | ].
        split; [ exact Hfalsy | ].
        split; [ exact Hlast | ].
        split; [ rewrite Htr; cbn; rewrite <- !app_assoc; reflexivity | ].
        split; [ eapply same_fields_trans; [ | exact Hsame ]; repeat split | ].
        split; [ repeat constructor; exact Hev | ].
        intros Hne'. inversion Hne' as [ | ? ? _ Hrest ]; subst.
        destruct (Hne Hrest) as [Hr Hatt].
        split; [ exact Hr | constructor; assumption ].
    + exists (Some ep, data), s, []. cbn [snd last_resolved].
      split; [ reflexivity | ].
      split; [ exact Hdata | ].
      split; [ reflexivity | ].
      split; [ symmetry; apply app_nil_r | ].
      split; [ apply same_fields_refl | ].
      split; [ constructor | ].
      intros Hne. inversion Hne; subst. congruence.
Qed.

End TryFetchFacts.

(** ** The pipeline, with the provider calls spelled out *)

Section PipelineFacts.
Context {W : Type}.
Variable c : ConfigClient W.

(** [tryFetch] always returns; the error is there exactly when the data
    is falsy, and it carries the configured list. *)
Lemma tryFetch_returns (s : Machine W) :
  exists tf s1 t,
    tryFetch c s = (Returned tf, s1) /\
    same_fields s s1 /\
    trace s1 = trace s ++ t /\
    only_fetches_and_reports t /\
    tf_configuration tf = last_resolved t JUndefined /\
    tf_error tf =
      (if truthy (tf_configuration tf) then None
       else Some {| cfe_endpoints := endpoints c |}).
Proof.
  destruct (tryFetch_loop_returns c (endpoints c) JUndefined s)
    as (r & s1 & t & Hrun & Hsame & Htr & Hdata & Hall).
  unfold tryFetch, bind. rewrite Hrun. cbn.
  eexists _, s1, t. cbn.
  split; [ reflexivity | ].
  split; [ exact Hsame | ].
  split; [ exact Htr | ].
  split; [ exact Hall | ].
  split; [ exact Hdata | reflexivity ].
Qed.

Lemma setPolling_false (s : Machine W) :
  setPolling c false s =
  (Returned tt,
   match timeoutId s with
   | Some id => clearTimeout id s
   | None => s
   end).
Proof. unfold setPolling. cbn. destruct (timeoutId s); reflexivity. Qed.

Lemma setPolling_returns (start : bool) (s : Machine W) :
  setPolling c start s = (Returned tt, snd (setPolling c start s)).
Proof.
  unfold setPolling.
  destruct (start && _); [ reflexivity | ].
  destruct (timeoutId s); reflexivity.
Qed.

(** [refresh] of a client without override, call by call. *)
Lemma refresh_unfold (s : Machine W) :
  truthy (override c) = false ->
  refresh c s =
  let s0 := snd (setPolling c false s) in
  match tryFetch c s0 with
  | (Raised e, s1) => (Raised e, s1)
  | (Returned tf, s1) =>
      match tf_error tf with
      | Some err =>
          (Returned {| status := status_error; endpoint := tf_endpoint tf;
                       configuration := JUndefined; error := Some err |}, s1)
      | None =>
          let data := tf_configuration tf in
          let s2 :=
            match validator c data (world s1) with
            | (Returned u, w) =>
                log_event (EvValidator data (Returned u)) (set_world w s1)
            | (Raised e, w) =>
                log_event (EvOnValidationError e data)
                  (set_world (onValidationError c e data w)
                     (log_event (EvValidator data (Raised e)) (set_world w s1)))
            end in
          let (source, w3) := read (cache c) (world s2) in
          let target := transformer c data in
          let eq := equality c source target in
          let s3 :=
            log_event (EvEquality source target eq)
              (log_event (EvTransformer data target)
                 (log_event (EvCacheRead source) (set_world w3 s2))) in
          let ev :=
            {| status := if negb (loaded s3) then status_loaded
                         else if negb eq then status_updated
                         else status_equal;
               endpoint := tf_endpoint tf;
               configuration := target;
               error := None |} in
          match callback c ev w3 with
          | (Raised e, w4) =>
              (Raised e, log_event (EvCallback ev (Raised e)) (set_world w4 s3))
          | (Returned r, w4) =>
              let cfg := js_or r target in
              let s4 := log_event (EvCallback ev (Returned r)) (set_world w4 s3) in
              let s5 :=
                set_loaded true
                  (log_event (EvCacheWrite cfg)
                     (set_world (write (cache c) cfg w4) s4)) in
              (Returned (with_configuration ev cfg),
               if negb (paused s5) then snd (setPolling c true s5) else s5)
          end
      end
  end.
Proof.
  intros Hov. unfold refresh. rewrite Hov.
  unfold bind at 1. rewrite setPolling_false. cbn [snd].
  unfold bind at 1.
  destruct (tryFetch c _) as [[tf | e] s1]; [ | reflexivity ].
  destruct (tf_error tf) as [err | ]; [ reflexivity | ].
  unfold bind at 1. unfold try_catch, call_validator, call_onValidationError, exec.
  destruct (validator c (tf_configuration tf) (world s1)) as [[u | e] w].
  - unfold bind at 1. unfold call_cache_read. cbn [world log_event set_world].
    destruct (read (cache c) w) as [source w3].
    unfold bind, call_transformer, call_equality, get, call_callback,
      call_cache_write, exec, ret.
    cbn [world log_event set_world loaded].
    destruct (callback c _ w3) as [[r | e] w4]; [ | reflexivity ].
    cbn [paused set_loaded log_event set_world].
    destruct (paused s1); cbn [negb]; [ reflexivity | ].
    rewrite setPolling_returns. reflexivity.
  - unfold bind at 1. unfold call_cache_read. cbn [world log_event set_world].
    destruct (read (cache c) _) as [source w3].
    unfold bind, call_transformer, call_equality, get, call_callback,
      call_cache_write, exec, ret.
    cbn [world log_event set_world loaded].
    destruct (callback c _ w3) as [[r | e'] w4]; [ | reflexivity ].
    cbn [paused set_loaded log_event set_world].
    destruct (paused s1); cbn [negb]; [ reflexivity | ].
    rewrite setPolling_returns. reflexivity.
Qed.

End PipelineFacts.

(** ** Reading the call log *)

Lemma filter_nothing {A : Type} (f : A -> bool) (l : list A) :
  Forall (fun x => f x = false) l -> filter f l = [].
Proof.
  induction 1 as [ | x l Hx _ IH ]; cbn; [ reflexivity | ].
  rewrite Hx. exact IH.
Qed.

Lemma walk_calls_filtered (f : Event -> bool) (t : list Event) :
  (forall ep r, f (EvFetch ep r) = false) ->
  (forall err, f (EvOnFetchError err) = false) ->
  (forall err, f (EvOnUndefinedError err) = false) ->
  only_fetches_and_reports t ->
  filter f t = [].
Proof.
  intros H1 H2 H3 Ht. apply filter_nothing.
  eapply Forall_impl; [ | exact Ht ].
  intros [ | | | | | | | | | | | ]; cbn; intros; try contradiction; auto.
Qed.

Lemma timer_calls_filtered (f : Event -> bool) (t : list Event) :
  (forall id ms, f (EvSetTimeout id ms) = false) ->
  (forall id, f (EvClearTimeout id) = false) ->
  forallb is_timer_call t = true ->
  filter f t = [].
Proof.
  intros H1 H2 Ht. apply filter_nothing.
  rewrite forallb_forall in Ht. rewrite Forall_forall.
  intros e He. specialize (Ht e He).
  destruct e; cbn in Ht; try discriminate; auto.
Qed.

Section PollingFacts.
Context {W : Type}.
Variable c : ConfigClient W.

(** [setPolling] touches the timers only. *)
Lemma setPolling_frame (start : bool) (s : Machine W) :
  exists pt,
    trace (snd (setPolling c start s)) = trace s ++ pt /\
    forallb is_timer_call pt = true /\
    (start = false -> filter is_setTimeout pt = []) /\
    world (snd (setPolling c start s)) = world s /\
    loaded (snd (setPolling c start s)) = loaded s /\
    paused (snd (setPolling c start s)) = paused s.
Proof.
  unfold setPolling.
  destruct (start && _) eqn:Hstart.
  - eexists [_]. cbn. repeat split.
    intros ->. discriminate.
  - destruct (timeoutId s) as [id | ].
    + exists [EvClearTimeout id]. cbn. repeat split.
    + exists []. cbn. rewrite app_nil_r. repeat split.
Qed.

End PollingFacts.

(** ** Every run of [refresh] without override *)

Section RefreshFacts.
Context {W : Type}.
Variable c : ConfigClient W.

(** The three ways a run of [refresh] ends, with the calls it makes: all
    endpoints failed (an error event), the callback raised (its error
    leaves [refresh]), or the pipeline completed. *)
Lemma refresh_cases (s : Machine W) :
  truthy (override c) = false ->
  exists ct tf s1 ft,
    forallb is_timer_call ct = true /\
    filter is_setTimeout ct = [] /\
    only_fetches_and_reports ft /\
    tryFetch c (snd (setPolling c false s)) = (Returned tf, s1) /\
    trace s1 = trace s ++ ct ++ ft /\
    loaded s1 = loaded s /\
    tf_configuration tf = last_resolved ft JUndefined /\
    let data := tf_configuration tf in
    let target := transformer c data in
    if truthy data then
      tf_error tf = None /\
      exists vt source ro pt,
        let ev0 :=
          {| status := if negb (loaded s) then status_loaded
                       else if negb (equality c source target)
                            then status_updated
                            else status_equal;
             endpoint := tf_endpoint tf;
             configuration := target;
             error := None |} in
        ((exists w, validator c data (world s1) = (Returned tt, w) /\
                    vt = [EvValidator data (Returned tt)]) \/
         (exists e w, validator c data (world s1) = (Raised e, w) /\
                      vt = [EvValidator data (Raised e);
                            EvOnValidationError e data])) /\
        fst (refresh c s) =
          match ro with
          | Returned r => Returned (with_configuration ev0 (js_or r target))
          | Raised e => Raised e
          end /\
        trace (snd (refresh c s)) =
          trace s1 ++ vt
          ++ [EvCacheRead source; EvTransformer data target;
              EvEquality source target (equality c source target);
              EvCallback ev0 ro]
          ++ match ro with
             | Returned r => EvCacheWrite (js_or r target) :: pt
             | Raised _ => []
             end /\
        forallb is_timer_call pt = true /\
        loaded (snd (refresh c s)) =
          match ro with Returned _ => true | Raised _ => loaded s end
    else
      refresh c s =
        (Returned {| status := status_error; endpoint := tf_endpoint tf;
                     configuration := JUndefined;
                     error := Some {| cfe_endpoints := endpoints c |} |}, s1).
Proof.
  intros Hov.
  destruct (setPolling_frame c false s) as (ct & Hct & Hct1 & Hct2 & _ & Hl0 & _).
  destruct (tryFetch_returns c (snd (setPolling c false s)))
    as (tf & s1 & ft & Hrun & Hsame & Hft & Hwalk & Hdata & Herr).
  exists ct, tf, s1, ft.
  assert (Hl1 : loaded s1 = loaded s).
  { destruct Hsame as (_ & Hl & _). congruence. }
  split; [ exact Hct1 | ].
  split; [ apply Hct2; reflexivity | ].
  split; [ exact Hwalk | ].
  split; [ exact Hrun | ].
  split; [ rewrite Hft, Hct, app_assoc; reflexivity | ].
  split; [ exact Hl1 | ].
  split; [ exact Hdata | ].
  cbv zeta.
  rewrite (refresh_unfold c s Hov). cbv zeta. rewrite Hrun, Herr.
  destruct (truthy (tf_configuration tf)); [ | reflexivity ].
  split; [ reflexivity | ].
  destruct (validator c (tf_configuration tf) (world s1)) as [[[] | e] w] eqn:Hval.
  - cbn [world log_event set_world].
    destruct (read (cache c) w) as [source w3].
    cbn [loaded log_event set_world]. rewrite Hl1.
    destruct (callback c _ w3) as [[r | e] w4].
    + cbn [paused set_loaded log_event set_world].
      destruct (paused s1); cbn [negb].
      * eexists [_], source, (Returned r), [].
        split; [ left; eexists; split; reflexivity | ].
        cbn. rewrite <- !app_assoc. repeat split; exact Hl1.
      * match goal with
        | |- context [setPolling c true ?m] =>
            destruct (setPolling_frame c true m)
              as (pt & Hpt & Hpt1 & _ & _ & Hpl & _)
        end.
        eexists [_], source, (Returned r), pt.
        split; [ left; eexists; split; reflexivity | ].
        cbn [fst snd]. split; [ reflexivity | ].
        split; [ | split; [ exact Hpt1 | ] ].
        -- rewrite Hpt. cbn. rewrite <- !app_assoc. reflexivity.
        -- rewrite Hpl. reflexivity.
    + eexists [_], source, (Raised e), [].
      split; [ left; eexists; split; reflexivity | ].
      cbn. rewrite <- !app_assoc. repeat split; exact Hl1.
  - cbn [world log_event set_world].
    destruct (read (cache c) _) as [source w3].
    cbn [loaded log_event set_world]. rewrite Hl1.
    destruct (callback c _ w3) as [[r | e'] w4].
    + cbn [paused set_loaded log_event set_world].
      destruct (paused s1); cbn [negb].
      * eexists [_; _], source, (Returned r), [].
        split; [ right; eexists _, _; split; reflexivity | ].
        cbn. rewrite <- !app_assoc. repeat split; exact Hl1.
      * match goal with
        | |- context [setPolling c true ?m] =>
            destruct (setPolling_frame c true m)
              as (pt & Hpt & Hpt1 & _ & _ & Hpl & _)
        end.
        eexists [_; _], source, (Returned r), pt.
        split; [ right; eexists _, _; split; reflexivity | ].
        cbn [fst snd]. split; [ reflexivity | ].
        split; [ | split; [ exact Hpt1 | ] ].
        -- rewrite Hpt. cbn. rewrite <- !app_assoc. reflexivity.
        -- rewrite Hpl. reflexivity.
    + eexists [_; _], source, (Raised e'), [].
      split; [ right; eexists _, _; split; reflexivity | ].
      cbn. rewrite <- !app_assoc. repeat split; exact Hl1.
Qed.

End RefreshFacts.

(** ** The endpoint walk as a whole *)

Section ResolverFacts.
Context {W : Type}.
Variable c : ConfigClient W.

(** When endpoint [ep] is the first that wins and neither it nor an
    endpoint before it is the empty string, [tryFetch] returns [ep] and
    the value its fetch resolved with; each endpoint before it was fetched
    once and reported once; no endpoint after it was fetched. *)
Lemma tryFetch_first_truthy (pre : list string) (ep : string)
  (post : list string) (s : Machine W) :
  endpoints c = pre ++ ep :: post ->
  Forall (fun e => truthy_string e = true /\ fetch_fails c e) pre ->
  truthy_string ep = true ->
  fetch_wins c ep ->
  exists d t s',
    tryFetch c s =
      (Returned {| tf_endpoint := Some ep; tf_configuration := d;
                   tf_error := None |}, s') /\
    truthy d = true /\
    failed_attempts pre t /\
    trace s' = trace s ++ t ++ [EvFetch ep (Returned d)] /\
    same_fields s s'.
Proof.
  intros Heps Hpre Hep Hwin.
  destruct (tryFetch_loop_first_truthy c pre ep post Hpre Hep Hwin JUndefined s)
    as (d & t & s' & Hrun & Hd & Hatt & Htr & Hsame).
  exists d, t, s'.
  unfold tryFetch, bind. rewrite Heps, Hrun. cbn. rewrite Hd.
  split; [ reflexivity | ].
  split; [ reflexivity | ].
  split; [ exact Hatt | ].
  split; [ exact Htr | exact Hsame ].
Qed.

(** When every endpoint fails, [tryFetch] returns the error with the
    configured list and the local [data] as it stands: the value of the
    last fetch that resolved, a falsy one, or [undefined] when none did. *)
Lemma tryFetch_exhausted (s : Machine W) :
  Forall (fetch_fails c) (endpoints c) ->
  exists ep cfg s' t,
    tryFetch c s =
      (Returned {| tf_endpoint := ep; tf_configuration := cfg;
                   tf_error := Some {| cfe_endpoints := endpoints c |} |}, s') /\
    truthy cfg = false /\
    cfg = last_resolved t JUndefined /\
    trace s' = trace s ++ t /\
    only_fetches_and_reports t /\
    same_fields s s' /\
    (Forall (fun e => truthy_string e = true) (endpoints c) ->
     ep = None /\ failed_attempts (endpoints c) t).
Proof.
  intros Hall.
  destruct (tryFetch_loop_all_fail c (endpoints c) Hall JUndefined s eq_refl)
    as ([ep cfg] & s' & t & Hrun & Hfalsy & Hlast & Htr & Hsame & Hev & Hne).
  exists ep, cfg, s', t.
  unfold tryFetch, bind. rewrite Hrun. cbn in *. rewrite Hfalsy.
  split; [ reflexivity | ].
  split; [ reflexivity | ].
  split; [ exact Hlast | ].
  split; [ exact Htr | ].
  split; [ exact Hev | ].
  split; [ exact Hsame | exact Hne ].
Qed.

End ResolverFacts.

(** C2: when the fetch of every configured endpoint raises or resolves
    falsy, [refresh] of a client without override returns, without
    raising, the event with status [error], configuration [undefined] and
    a [ConfigurationFailedError] carrying the whole configured list; the
    run calls neither the cache (no read, no write) nor the validator nor
    the consumer callback, and it starts no timer. *)
Theorem refresh_all_endpoints_fail {W : Type} (c : ConfigClient W)
  (s : Machine W) :
  truthy (override c) = false ->
  Forall (fetch_fails c) (endpoints c) ->
  exists ep s' t,
    refresh c s =
      (Returned {| status := status_error; endpoint := ep;
                   configuration := JUndefined;
                   error := Some {| cfe_endpoints := endpoints c |} |}, s') /\
    trace s' = trace s ++ t /\
    filter is_cache_call t = [] /\
    filter is_validator_call t = [] /\
    filter is_callback_call t = [] /\
    filter is_setTimeout t = [] /\
    loaded s' = loaded s.
Proof.
  intros Hov Hall.
  destruct (refresh_cases c s Hov)
    as (ct & tf & s1 & ft & Hct & Hct' & Hft & Hrun & Htr & Hl & _ & Hcase).
  destruct (tryFetch_exhausted c (snd (setPolling c false s)) Hall)
    as (ep & cfg & s1' & t' & Hrun' & Hfalsy & _).
  rewrite Hrun in Hrun'. injection Hrun' as -> _.
  cbn [tf_configuration tf_endpoint] in Hcase. rewrite Hfalsy in Hcase.
  exists ep, s1, (ct ++ ft).
  split; [ exact Hcase | ].
  split; [ exact Htr | ].
  rewrite !filter_app.
  rewrite (timer_calls_filtered is_cache_call ct), (walk_calls_filtered is_cache_call ft),
    (timer_calls_filtered is_validator_call ct), (walk_calls_filtered is_validator_call ft),
    (timer_calls_filtered is_callback_call ct), (walk_calls_filtered is_callback_call ft),
    Hct', (walk_calls_filtered is_setTimeout ft); auto.
Qed.

Lemma refresh_all_endpoints_fail_witness :
  exists ep s' t,
    refresh failing_client (init_machine JUndefined) =
      (Returned {| status := status_error; endpoint := ep;
                   configuration := JUndefined;
                   error := Some {| cfe_endpoints := test_endpoints |} |}, s') /\
    trace s' = [] ++ t /\
    filter is_cache_call t = [] /\
    filter is_validator_call t = [] /\
    filter is_callback_call t = [] /\
    filter is_setTimeout t = [] /\
    loaded s' = false.
Proof.
  apply (refresh_all_endpoints_fail failing_client (init_machine JUndefined)).
  - reflexivity.
  - repeat (apply Forall_cons || apply Forall_nil); intro w; vm_compute; auto.
Defined.

Lemma last_resolved_none (t : list Event) (data : JsValue) :
  (forall ep d, ~ In (EvFetch ep (Returned d)) t) ->
  last_resolved t data = data.
Proof.
  induction t as [ | e t IH ]; intros Hnone; [ reflexivity | ].
  assert (Ht : forall ep d, ~ In (EvFetch ep (Returned d)) t).
  { intros ep d Hin. apply (Hnone ep d). right. exact Hin. }
  destruct e as [ ep [ d | x ] | | | | | | | | | | | ]; cbn; auto.
  exfalso. apply (Hnone ep d). left. reflexivity.
Qed.

(** C1: an endpoint that is the empty string ends the walk: with the list
    [""; "https://endpoint.com/default.json"] and a fetch provider that
    resolves truthy at every endpoint, [tryFetch] fetches nothing, reports
    nothing and returns the error of an exhausted list. *)
Theorem tryFetch_stops_at_empty_endpoint :
  endpoints empty_first_client = [""; "https://endpoint.com/default.json"] /\
  fetch_wins empty_first_client "" /\
  fetch_wins empty_first_client "https://endpoint.com/default.json" /\
  tryFetch empty_first_client (init_machine JUndefined) =
    (Returned {| tf_endpoint := Some "";
                 tf_configuration := JUndefined;
                 tf_error :=
                   Some {| cfe_endpoints :=
                             [""; "https://endpoint.com/default.json"] |} |},
     init_machine JUndefined) /\
  trace (snd (tryFetch empty_first_client (init_machine JUndefined))) = [].
Proof.
  split; [ reflexivity | ].
  split; [ intro w; vm_compute; reflexivity | ].
  split; [ intro w; vm_compute; reflexivity | ].
  split; reflexivity.
Qed.

(** C9, as stated, fails: a single endpoint whose fetch resolves with the
    empty string yields no truthy value, and [tryFetch] returns the empty
    string, not [undefined], as the configuration.  (And when the only
    endpoint is the empty string, whose fetch would raise, the returned
    endpoint is the empty string, not [undefined].) *)
Lemma tryFetch_exhausted_keeps_falsy_data :
  Forall (fetch_fails empty_body_client) (endpoints empty_body_client) /\
  fst (tryFetch empty_body_client (init_machine JUndefined)) =
    Returned {| tf_endpoint := None;
                tf_configuration := JString "";
                tf_error :=
                  Some {| cfe_endpoints :=
                            ["https://endpoint.com/default.json"] |} |} /\
  JString "" <> JUndefined /\
  Forall (fetch_fails empty_only_client) (endpoints empty_only_client) /\
  fst (tryFetch empty_only_client (init_machine JUndefined)) =
    Returned {| tf_endpoint := Some "";
                tf_configuration := JUndefined;
                tf_error := Some {| cfe_endpoints := [""] |} |}.
Proof.
  split.
  { repeat (apply Forall_cons || apply Forall_nil); intro w; vm_compute; auto. }
  split; [ reflexivity | ].
  split; [ discriminate | ].
  split; [ | reflexivity ].
  repeat (apply Forall_cons || apply Forall_nil); intro w; vm_compute; auto.
Qed.

(** C9, amended: when no endpoint yields a truthy value, [tryFetch]
    returns [error = ConfigurationFailedError] carrying all endpoints and
    a falsy configuration: the value of the last fetch that resolved, or
    [undefined] when no fetch resolved; the returned endpoint is
    [undefined] when no configured endpoint is the empty string, and then
    every endpoint was fetched once and reported once. *)
Theorem tryFetch_all_endpoints_fail {W : Type} (c : ConfigClient W)
  (s : Machine W) :
  Forall (fetch_fails c) (endpoints c) ->
  exists ep cfg s' t,
    tryFetch c s =
      (Returned {| tf_endpoint := ep; tf_configuration := cfg;
                   tf_error := Some {| cfe_endpoints := endpoints c |} |}, s') /\
    trace s' = trace s ++ t /\
    truthy cfg = false /\
    cfg = last_resolved t JUndefined /\
    ((forall e d, ~ In (EvFetch e (Returned d)) t) -> cfg = JUndefined) /\
    (Forall (fun e => truthy_string e = true) (endpoints c) ->
     ep = None /\ failed_attempts (endpoints c) t).
Proof.
  intros Hall.
  destruct (tryFetch_exhausted c s Hall)
    as (ep & cfg & s' & t & Hrun & Hfalsy & Hlast & Htr & _ & _ & Hne).
  exists ep, cfg, s', t.
  split; [ exact Hrun | ].
  split; [ exact Htr | ].
  split; [ exact Hfalsy | ].
  split; [ exact Hlast | ].
  split; [ | exact Hne ].
  intros Hnone. rewrite Hlast. apply last_resolved_none. exact Hnone.
Qed.

Lemma tryFetch_all_endpoints_fail_witness :
  exists ep cfg s' t,
    tryFetch failing_client (init_machine JUndefined) =
      (Returned {| tf_endpoint := ep; tf_configuration := cfg;
                   tf_error := Some {| cfe_endpoints := test_endpoints |} |}, s') /\
    trace s' = [] ++ t /\
    truthy cfg = false /\
    cfg = last_resolved t JUndefined /\
    ((forall e d, ~ In (EvFetch e (Returned d)) t) -> cfg = JUndefined) /\
    (Forall (fun e => truthy_string e = true) test_endpoints ->
     ep = None /\ failed_attempts test_endpoints t).
Proof.
  apply (tryFetch_all_endpoints_fail failing_client (init_machine JUndefined)).
  repeat (apply Forall_cons || apply Forall_nil); intro w; vm_compute; auto.
Defined.

(** ** The shape of the endpoint walk *)

Lemma truthy_string_nonempty (ep : string) :
  truthy_string ep = true <-> ep <> "".
Proof.
  unfold truthy_string. rewrite negb_true_iff. apply String.eqb_neq.
Qed.

Lemma truthy_string_empty (ep : string) :
  truthy_string ep = false -> ep = "".
Proof.
  unfold truthy_string. rewrite negb_false_iff. apply String.eqb_eq.
Qed.

Section WalkShape.
Context {W : Type}.
Variable c : ConfigClient W.

(** The loop visits a prefix [pre] of the list, each endpoint of it once,
    and stops at the end of the list, at an empty string, or at the first
    fetch that resolves truthy. *)
Lemma tryFetch_loop_shape (eps : list string) :
  forall (data : JsValue) (s : Machine W),
  truthy data = false ->
  exists pre rest t r s',
    tryFetch_loop c eps data s = (Returned r, s') /\
    eps = pre ++ rest /\
    Forall (fun e => e <> "") pre /\
    failed_attempts pre t /\
    ((rest = [] /\ fst r = None /\ truthy (snd r) = false /\
      trace s' = trace s ++ t) \/
     (exists post, rest = "" :: post /\ fst r = Some "" /\
                   truthy (snd r) = false /\ trace s' = trace s ++ t) \/
     (exists ep post, rest = ep :: post /\ ep <> "" /\ fst r = Some ep /\
                      truthy (snd r) = true /\
                      trace s' = trace s ++ t ++ [EvFetch ep (Returned (snd r))])).
Proof.
  induction eps as [ | ep eps IH ]; intros data s Hdata.
  - exists [], [], [], (None, data), s. cbn.
    split; [ reflexivity | ]. split; [ reflexivity | ].
    split; [ constructor | ]. split; [ constructor | ].
    left. rewrite app_nil_r. repeat split. exact Hdata.
  - rewrite tryFetch_loop_cons.
    destruct (truthy_string ep) eqn:Hep.
    + assert (Hne : ep <> "") by (apply truthy_string_nonempty; exact Hep).
      destruct (fetch c ep (world s)) as [[d | x] w]; cbn zeta.
      * destruct (truthy d) eqn:Hd.
        -- eexists [], (ep :: eps), [], (Some ep, d), _.
           split; [ reflexivity | ]. split; [ reflexivity | ].
           split; [ constructor | ]. split; [ constructor | ].
           right. right. exists ep, eps. cbn. repeat split; assumption.
        -- edestruct (IH d) as (pre & rest & t & r & s' & Hrun & Heq & Hpre & Hatt & Hend);
             [ exact Hd | ].
           exists (ep :: pre), rest,
             (EvFetch ep (Returned d)
              :: EvOnUndefinedError {| cue_endpoint := ep |} :: t), r, s'.
           split; [ exact Hrun | ].
           split; [ cbn; rewrite Heq; reflexivity | ].
           split; [ constructor; assumption | ].
           split; [ constructor; assumption | ].
           cbn [trace log_event set_world] in Hend.
           destruct Hend as [(H1 & H2 & H3 & H4) | [(post & H1 & H2 & H3 & H4)
                                                   | (e & post & H1 & H2 & H3 & H4 & H5)]].
           ++ left. repeat split; try assumption.
              rewrite H4, <- !app_assoc. reflexivity.
           ++ right. left. exists post. repeat split; try assumption.
              rewrite H4, <- !app_assoc. reflexivity.
           ++ right. right. exists e, post. repeat split; try assumption.
              rewrite H5, <- !app_assoc. reflexivity.
      * edestruct (IH data) as (pre & rest & t & r & s' & Hrun & Heq & Hpre & Hatt & Hend);
          [ exact Hdata | ].
        exists (ep :: pre), rest,
          (EvFetch ep (Raised x)
           :: EvOnFetchError {| fe_error := x; fe_endpoint := ep |} :: t), r, s'.
        split; [ exact Hrun | ].
        split; [ cbn; rewrite Heq; reflexivity | ].
        split; [ constructor; assumption | ].
        split; [ constructor; assumption | ].
        cbn [trace log_event set_world] in Hend.
        destruct Hend as [(H1 & H2 & H3 & H4) | [(post & H1 & H2 & H3 & H4)
                                                | (e & post & H1 & H2 & H3 & H4 & H5)]].
        -- left. repeat split; try assumption.
           rewrite H4, <- !app_assoc. reflexivity.
        -- right. left. exists post. repeat split; try assumption.
           rewrite H4, <- !app_assoc. reflexivity.
        -- right. right. exists e, post. repeat split; try assumption.
           rewrite H5, <- !app_assoc. reflexivity.
    + apply truthy_string_empty in Hep. subst ep.
      exists [], ("" :: eps), [], (Some "", data), s.
      split; [ reflexivity | ]. split; [ reflexivity | ].
      split; [ constructor | ]. split; [ constructor | ].
      right. left. exists eps. cbn. rewrite app_nil_r. repeat split. exact Hdata.
Qed.

(** The same for [tryFetch]. *)
Lemma tryFetch_shape (s : Machine W) :
  exists pre rest t tf s',
    tryFetch c s = (Returned tf, s') /\
    endpoints c = pre ++ rest /\
    Forall (fun e => e <> "") pre /\
    failed_attempts pre t /\
    ((rest = [] /\ tf_endpoint tf = None /\
      truthy (tf_configuration tf) = false /\
      tf_error tf = Some {| cfe_endpoints := endpoints c |} /\
      trace s' = trace s ++ t) \/
     (exists post, rest = "" :: post /\ tf_endpoint tf = Some "" /\
                   truthy (tf_configuration tf) = false /\
                   tf_error tf = Some {| cfe_endpoints := endpoints c |} /\
                   trace s' = trace s ++ t) \/
     (exists ep post, rest = ep :: post /\ ep <> "" /\
                      tf_endpoint tf = Some ep /\
                      truthy (tf_configuration tf) = true /\
                      tf_error tf = None /\
                      trace s' =
                        trace s ++ t
                        ++ [EvFetch ep (Returned (tf_configuration tf))])).
Proof.
  destruct (tryFetch_loop_shape (endpoints c) JUndefined s eq_refl)
    as (pre & rest & t & r & s' & Hrun & Heq & Hpre & Hatt & Hend).
  unfold tryFetch, bind. rewrite Hrun. cbn [ret].
  eexists pre, rest, t, _, s'.
  split; [ reflexivity | ].
  split; [ exact Heq | ]. split; [ exact Hpre | ]. split; [ exact Hatt | ].
  cbn [tf_endpoint tf_configuration tf_error].
  destruct Hend as [(H1 & H2 & H3 & H4) | [(post & H1 & H2 & H3 & H4)
                                          | (e & post & H1 & H2 & H3 & H4 & H5)]].
  - left. rewrite H3. repeat split; assumption.
  - right. left. exists post. rewrite H3. repeat split; assumption.
  - right. right. exists e, post. rewrite H4. repeat split; assumption.
Qed.

End WalkShape.

(** ** Override mode *)

(** C6: with a truthy override, [getConfiguration] and [refresh] both
    return the event with status [cached] whose configuration is what the
    callback resolved with when that is truthy and the override itself
    otherwise; the run is one call of the callback and nothing else (no
    fetch, no cache read or write, no timer), and it sets [loaded]. *)
Theorem override_short_circuit {W : Type} (c : ConfigClient W)
  (s : Machine W) (r : JsValue) (w' : W) :
  truthy (override c) = true ->
  callback c {| status := status_cached; endpoint := None;
                configuration := override c; error := None |} (world s)
    = (Returned r, w') ->
  exists s',
    getConfiguration c s =
      (Returned {| status := status_cached; endpoint := None;
                   configuration := if truthy r then r else override c;
                   error := None |}, s') /\
    refresh c s = getConfiguration c s /\
    trace s' =
      trace s ++ [EvCallback {| status := status_cached; endpoint := None;
                                configuration := override c; error := None |}
                    (Returned r)] /\
    loaded s' = true /\
    world s' = w' /\
    live_timers s' = live_timers s /\
    timeoutId s' = timeoutId s /\
    next_timer s' = next_timer s.
Proof.
  intros Hov Hcb.
  unfold getConfiguration, refresh. rewrite Hov.
  unfold getOverride, bind, call_callback. rewrite Hcb.
  eexists. split; [ reflexivity | ]. cbn. repeat split.
Qed.

Lemma override_short_circuit_witness :
  exists s',
    getConfiguration override_client (init_machine JUndefined) =
      (Returned {| status := status_cached; endpoint := None;
                   configuration := alteredConfig; error := None |}, s') /\
    refresh override_client (init_machine JUndefined) =
      getConfiguration override_client (init_machine JUndefined) /\
    trace s' =
      [] ++ [EvCallback {| status := status_cached; endpoint := None;
                           configuration := alteredConfig; error := None |}
               (Returned JUndefined)] /\
    loaded s' = true /\
    world s' = JUndefined /\
    live_timers s' = [] /\
    timeoutId s' = None /\
    next_timer s' = 1%positive.
Proof.
  apply (override_short_circuit override_client (init_machine JUndefined)
           JUndefined JUndefined); reflexivity.
Defined.

(** No call of the callback in a run of [refresh] without override is
    given an event with status [cached]. *)
Lemma refresh_callback_not_cached {W : Type} (c : ConfigClient W)
  (s : Machine W) :
  truthy (override c) = false ->
  exists t,
    trace (snd (refresh c s)) = trace s ++ t /\
    forall ev ro, In (EvCallback ev ro) t -> status ev <> status_cached.
Proof.
  intros Hov.
  destruct (refresh_cases c s Hov)
    as (ct & tf & s1 & ft & Hct & _ & Hft & _ & Htr & _ & _ & Hcase).
  cbv zeta in Hcase.
  assert (Hpre : forall ev ro, ~ In (EvCallback ev ro) (ct ++ ft)).
  { intros ev ro Hin. apply in_app_or in Hin. destruct Hin as [Hin | Hin].
    - rewrite forallb_forall in Hct. specialize (Hct _ Hin). discriminate.
    - unfold only_fetches_and_reports in Hft. rewrite Forall_forall in Hft.
      exact (Hft _ Hin). }
  destruct (truthy (tf_configuration tf)).
  - destruct Hcase as (_ & vt & source & ro & pt & Hvt & _ & Htr' & Hpt & _).
    eexists. split.
    + rewrite Htr', Htr, <- !app_assoc. reflexivity.
    + intros ev ro' Hin.
      apply in_app_or in Hin. destruct Hin as [Hin | Hin];
        [ exfalso; apply (Hpre ev ro'); apply in_or_app; left; exact Hin | ].
      apply in_app_or in Hin. destruct Hin as [Hin | Hin];
        [ exfalso; apply (Hpre ev ro'); apply in_or_app; right; exact Hin | ].
      apply in_app_or in Hin. destruct Hin as [Hin | Hin].
      { destruct Hvt as [(w & _ & ->) | (e & w & _ & ->)]; cbn in Hin;
          intuition discriminate. }
      cbn in Hin.
      destruct Hin as [Hin | [Hin | [Hin | [Hin | Hin]]]]; try discriminate.
      * injection Hin as <- _. cbn.
        destruct (negb (loaded s)); [ discriminate | ].
        destruct (negb _); discriminate.
      * destruct ro as [r | e]; [ | contradiction ].
        destruct Hin as [Hin | Hin]; [ discriminate | ].
        rewrite forallb_forall in Hpt. specialize (Hpt _ Hin). discriminate.
  - exists (ct ++ ft). rewrite Hcase. cbn [snd]. split; [ exact Htr | ].
    intros ev ro Hin. exfalso. exact (Hpre ev ro Hin).
Qed.

(** C10: with a falsy override ([0], the empty string, [false], ...) the
    short-circuit is not taken.  [getConfiguration] reads the cache, returns
    a truthy cached value and otherwise goes on to [refresh]; both methods
    do what they do for the client constructed without override; no
    callback call of [refresh] carries the status [cached] of override
    mode; and [refresh] fetches the endpoints and runs the whole pipeline.
    It cancels the timer it holds and starts none; it fetches the
    endpoints in order, each failing one once, reported once; when the
    list is over or an empty endpoint is met it returns the error event;
    otherwise the next endpoint's fetch resolved truthy, and it validates
    that value, reads the cache, transforms, compares, calls the callback
    with the event built from these and, when the callback resolves,
    writes the cache. *)
Theorem falsy_override_not_short_circuited {W : Type} (c : ConfigClient W)
  (s : Machine W) :
  truthy (override c) = false ->
  getConfiguration c s = getConfiguration (with_override JUndefined c) s /\
  refresh c s = refresh (with_override JUndefined c) s /\
  getConfiguration c s =
    (let (source, w) := read (cache c) (world s) in
     let s1 := log_event (EvCacheRead source) (set_world w s) in
     if truthy source
     then (Returned {| status := status_cached; endpoint := None;
                       configuration := source; error := None |}, s1)
     else refresh c s1) /\
  (exists t,
     trace (snd (refresh c s)) = trace s ++ t /\
     forall ev ro, In (EvCallback ev ro) t -> status ev <> status_cached) /\
  exists ct tf s1 pre rest t0,
    forallb is_timer_call ct = true /\
    filter is_setTimeout ct = [] /\
    trace (snd (setPolling c false s)) = trace s ++ ct /\
    tryFetch c (snd (setPolling c false s)) = (Returned tf, s1) /\
    endpoints c = pre ++ rest /\
    Forall (fun e => e <> "") pre /\
    failed_attempts pre t0 /\
    match tf_error tf with
    | Some err =>
        (rest = [] \/ exists post, rest = "" :: post) /\
        trace s1 = trace s ++ ct ++ t0 /\
        refresh c s =
          (Returned {| status := status_error; endpoint := tf_endpoint tf;
                       configuration := JUndefined; error := Some err |}, s1)
    | None =>
        (exists ep post,
           rest = ep :: post /\ ep <> "" /\ tf_endpoint tf = Some ep /\
           trace s1 =
             trace s ++ ct ++ t0
             ++ [EvFetch ep (Returned (tf_configuration tf))]) /\
        truthy (tf_configuration tf) = true /\
        exists vt source ro pt,
          validation_calls (tf_configuration tf) vt /\
          forallb is_timer_call pt = true /\
          fst (refresh c s) =
            match ro with
            | Returned r =>
                Returned
                  (with_configuration
                     (pipeline_event (loaded s)
                        (negb (equality c source
                                 (transformer c (tf_configuration tf))))
                        (tf_endpoint tf)
                        (transformer c (tf_configuration tf)))
                     (js_or r (transformer c (tf_configuration tf))))
            | Raised e => Raised e
            end /\
          trace (snd (refresh c s)) =
            trace s1 ++ vt
            ++ [EvCacheRead source;
                EvTransformer (tf_configuration tf)
                  (transformer c (tf_configuration tf));
                EvEquality source (transformer c (tf_configuration tf))
                  (equality c source (transformer c (tf_configuration tf)));
                EvCallback
                  (pipeline_event (loaded s)
                     (negb (equality c source
                              (transformer c (tf_configuration tf))))
                     (tf_endpoint tf)
                     (transformer c (tf_configuration tf)))
                  ro]
            ++ match ro with
               | Returned r =>
                   EvCacheWrite
                     (js_or r (transformer c (tf_configuration tf))) :: pt
               | Raised _ => []
               end
    end.
Proof.
  intros Hov.
  assert (Hrefresh : refresh c s = refresh (with_override JUndefined c) s).
  { unfold refresh. cbn [override with_override truthy]. rewrite Hov.
    reflexivity. }
  split; [ | split; [ exact Hrefresh | split; [ | split ] ] ].
  - unfold getConfiguration. cbn [override with_override truthy]. rewrite Hov.
    unfold bind, call_cache_read. cbn [cache with_override].
    destruct (read (cache c) (world s)) as [source w].
    destruct (truthy source); [ reflexivity | ].
    unfold refresh. cbn [override with_override truthy]. rewrite Hov.
    reflexivity.
  - unfold getConfiguration. rewrite Hov.
    unfold bind, call_cache_read.
    destruct (read (cache c) (world s)) as [source w].
    destruct (truthy source); reflexivity.
  - apply refresh_callback_not_cached. exact Hov.
  - destruct (setPolling_frame c false s) as (ct & Htr0 & Hct & Hset & _).
    destruct (tryFetch_shape c (snd (setPolling c false s)))
      as (pre & rest & t0 & tf & s1 & Hrun & Heps & Hpre & Hatt & Hend).
    destruct (refresh_cases c s Hov)
      as (ct' & tf' & s1' & ft' & _ & _ & _ & Hrun' & _ & _ & _ & Hcase).
    rewrite Hrun in Hrun'. injection Hrun' as <- <-.
    cbv zeta in Hcase.
    exists ct, tf, s1, pre, rest, t0.
    split; [ exact Hct | ].
    split; [ apply Hset; reflexivity | ].
    split; [ exact Htr0 | ].
    split; [ exact Hrun | ].
    split; [ exact Heps | ].
    split; [ exact Hpre | ].
    split; [ exact Hatt | ].
    destruct Hend as [(Hr & _ & Hd & Herr & Htr)
                     | [(post & Hr & _ & Hd & Herr & Htr)
                       | (ep & post & Hr & Hne & Hep & Hd & Herr & Htr)]];
      rewrite Herr; rewrite Hd in Hcase.
    + split; [ left; exact Hr | ].
      split; [ rewrite Htr, Htr0, <- app_assoc; reflexivity | exact Hcase ].
    + split; [ right; exists post; exact Hr | ].
      split; [ rewrite Htr, Htr0, <- app_assoc; reflexivity | exact Hcase ].
    + split.
      { exists ep, post.
        split; [ exact Hr | ]. split; [ exact Hne | ].
        split; [ exact Hep | ].
        rewrite Htr, Htr0, <- app_assoc. reflexivity. }
      split; [ exact Hd | ].
      destruct Hcase as (_ & vt & source & ro & pt & Hvt & Hfst & Htr' & Hpt & _).
      exists vt, source, ro, pt.
      split.
      { destruct Hvt as [(w & _ & ->) | (e & w & _ & ->)];
          [ left; reflexivity | right; exists e; reflexivity ]. }
      split; [ exact Hpt | ].
      split; [ exact Hfst | exact Htr' ].
Qed.

Lemma falsy_override_not_short_circuited_witness :
  getConfiguration zero_override_client (init_machine JUndefined) = getConfiguration (with_override JUndefined zero_override_client) (init_machine JUndefined) /\
  refresh zero_override_client (init_machine JUndefined) = refresh (with_override JUndefined zero_override_client) (init_machine JUndefined) /\
  getConfiguration zero_override_client (init_machine JUndefined) =
    (let (source, w) := read (cache zero_override_client) (world (init_machine JUndefined)) in
     let s1 := log_event (EvCacheRead source) (set_world w (init_machine JUndefined)) in
     if truthy source
     then (Returned {| status := status_cached; endpoint := None;
                       configuration := source; error := None |}, s1)
     else refresh zero_override_client s1) /\
  (exists t,
     trace (snd (refresh zero_override_client (init_machine JUndefined))) = trace (init_machine JUndefined) ++ t /\
     forall ev ro, In (EvCallback ev ro) t -> status ev <> status_cached) /\
  exists ct tf s1 pre rest t0,
    forallb is_timer_call ct = true /\
    filter is_setTimeout ct = [] /\
    trace (snd (setPolling zero_override_client false (init_machine JUndefined))) = trace (init_machine JUndefined) ++ ct /\
    tryFetch zero_override_client (snd (setPolling zero_override_client false (init_machine JUndefined))) = (Returned tf, s1) /\
    endpoints zero_override_client = pre ++ rest /\
    Forall (fun e => e <> "") pre /\
    failed_attempts pre t0 /\
    match tf_error tf with
    | Some err =>
        (rest = [] \/ exists post, rest = "" :: post) /\
        trace s1 = trace (init_machine JUndefined) ++ ct ++ t0 /\
        refresh zero_override_client (init_machine JUndefined) =
          (Returned {| status := status_error; endpoint := tf_endpoint tf;
                       configuration := JUndefined; error := Some err |}, s1)
    | None =>
        (exists ep post,
           rest = ep :: post /\ ep <> "" /\ tf_endpoint tf = Some ep /\
           trace s1 =
             trace (init_machine JUndefined) ++ ct ++ t0
             ++ [EvFetch ep (Returned (tf_configuration tf))]) /\
        truthy (tf_configuration tf) = true /\
        exists vt source ro pt,
          validation_calls (tf_configuration tf) vt /\
          forallb is_timer_call pt = true /\
          fst (refresh zero_override_client (init_machine JUndefined)) =
            match ro with
            | Returned r =>
                Returned
                  (with_configuration
                     (pipeline_event (loaded (init_machine JUndefined))
                        (negb (equality zero_override_client source
                                 (transformer zero_override_client (tf_configuration tf))))
                        (tf_endpoint tf)
                        (transformer zero_override_client (tf_configuration tf)))
                     (js_or r (transformer zero_override_client (tf_configuration tf))))
            | Raised e => Raised e
            end /\
          trace (snd (refresh zero_override_client (init_machine JUndefined))) =
            trace s1 ++ vt
            ++ [EvCacheRead source;
                EvTransformer (tf_configuration tf)
                  (transformer zero_override_client (tf_configuration tf));
                EvEquality source (transformer zero_override_client (tf_configuration tf))
                  (equality zero_override_client source (transformer zero_override_client (tf_configuration tf)));
                EvCallback
                  (pipeline_event (loaded (init_machine JUndefined))
                     (negb (equality zero_override_client source
                              (transformer zero_override_client (tf_configuration tf))))
                     (tf_endpoint tf)
                     (transformer zero_override_client (tf_configuration tf)))
                  ro]
            ++ match ro with
               | Returned r =>
                   EvCacheWrite
                     (js_or r (transformer zero_override_client (tf_configuration tf))) :: pt
               | Raised _ => []
               end
    end.
Proof.
  apply (falsy_override_not_short_circuited zero_override_client
           (init_machine JUndefined)).
  reflexivity.
Defined.

(** ** Polling *)

Section TimerFacts.
Context {W : Type}.
Variable c : ConfigClient W.

(** [setPolling(false)] leaves no live timer when at most one was live. *)
Lemma setPolling_false_clears (s : Machine W) :
  one_timer_at_most s ->
  live_timers (snd (setPolling c false s)) = [] /\
  timeoutId (snd (setPolling c false s)) = timeoutId s.
Proof.
  intros Hone. rewrite setPolling_false. cbn [snd]. split.
  - destruct Hone as [Hnil | (id & ms & Hid & Hlive)].
    + destruct (timeoutId s); cbn; rewrite Hnil; reflexivity.
    + rewrite Hid. cbn. rewrite Hlive. cbn. rewrite Pos.eqb_refl. reflexivity.
  - destruct (timeoutId s) eqn:Hid; cbn; [ exact Hid | exact Hid ].
Qed.

(** Started from a machine without live timer, [setPolling] leaves at
    most one. *)
Lemma setPolling_from_none (start : bool) (s : Machine W) :
  live_timers s = [] ->
  one_timer_at_most (snd (setPolling c start s)).
Proof.
  intros Hnil. unfold setPolling.
  destruct (start && _).
  - right. cbn. rewrite Hnil. eexists _, _. split; reflexivity.
  - left. destruct (timeoutId s); cbn; rewrite Hnil; reflexivity.
Qed.

(** [refresh] cancels before it starts a timer: it keeps at most one. *)
Lemma refresh_one_timer (s : Machine W) :
  one_timer_at_most s -> one_timer_at_most (snd (refresh c s)).
Proof.
  intros Hone.
  destruct (truthy (override c)) eqn:Hov.
  - unfold refresh. rewrite Hov.
    unfold getOverride, bind, call_callback.
    destruct (callback c _ (world s)) as [[r | e] w]; exact Hone.
  - rewrite (refresh_unfold c s Hov). cbv zeta.
    destruct (setPolling_false_clears s Hone) as [Hnil _].
    destruct (tryFetch_returns c (snd (setPolling c false s)))
      as (tf & s1 & ft & Hrun & Hsame & _).
    rewrite Hrun.
    assert (Hnil1 : live_timers s1 = []).
    { destruct Hsame as (_ & _ & _ & _ & Hl). congruence. }
    destruct (tf_error tf); [ left; exact Hnil1 | ].
    destruct (validator c (tf_configuration tf) (world s1)) as [[u | e] w];
      cbn [world log_event set_world];
      destruct (read (cache c) _) as [source w3];
      destruct (callback c _ w3) as [[r | e'] w4];
      cbn [snd paused set_loaded log_event set_world];
      try (left; exact Hnil1);
      destruct (negb (paused s1));
      try (left; exact Hnil1);
      apply setPolling_from_none; exact Hnil1.
Qed.

Lemma getConfiguration_one_timer (s : Machine W) :
  one_timer_at_most s -> one_timer_at_most (snd (getConfiguration c s)).
Proof.
  intros Hone. unfold getConfiguration.
  destruct (truthy (override c)) eqn:Hov.
  - unfold getOverride, bind, call_callback.
    destruct (callback c _ (world s)) as [[r | e] w]; exact Hone.
  - unfold bind at 1. unfold call_cache_read.
    destruct (read (cache c) (world s)) as [source w].
    destruct (truthy source); [ exact Hone | ].
    apply refresh_one_timer. exact Hone.
Qed.

Lemma pause_one_timer (s : Machine W) :
  one_timer_at_most s -> one_timer_at_most (snd (pause c s)).
Proof.
  intros Hone. unfold pause, bind, exec.
  change (one_timer_at_most (snd (setPolling c false (set_paused true s)))).
  left. apply (setPolling_false_clears (set_paused true s)). exact Hone.
Qed.

Lemma expire_one_timer (id : TimerId) (s : Machine W) :
  one_timer_at_most s -> one_timer_at_most (expire id s).
Proof.
  intros [Hnil | (id' & ms & Hid & Hlive)].
  - left. cbn. rewrite Hnil. reflexivity.
  - unfold one_timer_at_most. cbn. rewrite Hlive. cbn.
    destruct (Pos.eqb id' id); cbn; [ left; reflexivity | ].
    right. exists id', ms. split; [ exact Hid | reflexivity ].
Qed.

(** Every history without [resume] keeps at most one live timer. *)
Lemma history_without_resume_one_timer (ops : list Op) :
  forall s : Machine W,
  forallb (fun o => negb (is_resume o)) ops = true ->
  one_timer_at_most s ->
  one_timer_at_most (snd (run c ops s)).
Proof.
  induction ops as [ | o ops IH ]; intros s Hops Hone; [ exact Hone | ].
  cbn in Hops. apply andb_true_iff in Hops. destruct Hops as [Ho Hops].
  cbn [run].
  destruct (step c o s) as [r s1] eqn:Hstep.
  specialize (IH s1 Hops).
  destruct (run c ops s1) as [rs s2]. cbn [snd] in *.
  apply IH.
  destruct o; cbn in Hstep; try discriminate.
  - pose proof (getConfiguration_one_timer s Hone) as H.
    destruct (getConfiguration c s). injection Hstep as _ <-. exact H.
  - pose proof (refresh_one_timer s Hone) as H.
    destruct (refresh c s). injection Hstep as _ <-. exact H.
  - injection Hstep as _ <-. apply pause_one_timer. exact Hone.
  - destruct (timer_is_live id s).
    + pose proof (refresh_one_timer (expire id s) (expire_one_timer id s Hone)) as H.
      destruct (refresh c (expire id s)). injection Hstep as _ <-. exact H.
    + injection Hstep as _ <-. exact Hone.
Qed.

(** [resume] starts a timer and cancels none. *)
Lemma resume_starts_without_cancelling (n : Z) (s : Machine W) :
  interval c = Some n ->
  (0 < n)%Z ->
  live_timers (snd (resume c s)) = live_timers s ++ [(next_timer s, (n * 1000)%Z)] /\
  trace (snd (resume c s)) = trace s ++ [EvSetTimeout (next_timer s) (n * 1000)%Z].
Proof.
  intros Hint Hpos. unfold resume, bind, exec, setPolling. rewrite Hint.
  apply Z.ltb_lt in Hpos. rewrite Hpos. cbn. split; reflexivity.
Qed.

End TimerFacts.

(** C4: [resume] starts a timer without cancelling the one that is live.
    After a refresh that scheduled polling, one [resume] leaves two live
    timers and a second one three; no [clearTimeout] is called; a later
    [pause] cancels only the last handle, the others stay live. *)
Theorem resume_leaks_live_timers :
  live_timers
    (snd (run polling_client [OpRefresh] (init_machine JUndefined)))
    = [(1%positive, 5000%Z)] /\
  live_timers
    (snd (run polling_client [OpRefresh; OpResume] (init_machine JUndefined)))
    = [(1%positive, 5000%Z); (2%positive, 5000%Z)] /\
  live_timers
    (snd (run polling_client [OpRefresh; OpResume; OpResume]
            (init_machine JUndefined)))
    = [(1%positive, 5000%Z); (2%positive, 5000%Z); (3%positive, 5000%Z)] /\
  filter is_timer_call
    (trace (snd (run polling_client [OpRefresh; OpResume; OpResume]
                   (init_machine JUndefined))))
    = [EvSetTimeout 1%positive 5000%Z; EvSetTimeout 2%positive 5000%Z;
       EvSetTimeout 3%positive 5000%Z] /\
  live_timers
    (snd (run polling_client [OpRefresh; OpResume; OpResume; OpPause]
            (init_machine JUndefined)))
    = [(1%positive, 5000%Z); (2%positive, 5000%Z)] /\
  one_timer_at_most
    (snd (run polling_client [OpRefresh] (init_machine JUndefined))) /\
  ~ one_timer_at_most
      (snd (run polling_client [OpRefresh; OpResume] (init_machine JUndefined))).
Proof.
  split; [ vm_compute; reflexivity | ].
  split; [ vm_compute; reflexivity | ].
  split; [ vm_compute; reflexivity | ].
  split; [ vm_compute; reflexivity | ].
  split; [ vm_compute; reflexivity | ].
  split.
  - right. exists 1%positive, 5000%Z. split; vm_compute; reflexivity.
  - intros [Hnil | (id & ms & _ & Hlive)];
      vm_compute in Hnil || vm_compute in Hlive; discriminate.
Qed.

(** ** Completed pipeline runs *)

Section CompletedRuns.
Context {W : Type}.
Variable c : ConfigClient W.

(** The calls of a run of [refresh] that resolved with an event other
    than the error event, in order: timer cancellation, the endpoint walk
    up to the winner, validation, then cache read, transform, comparison,
    callback, cache write, and rescheduling. *)
Lemma refresh_completed_inv (s : Machine W) (ev : ConfigurationEvent)
  (s' : Machine W) :
  truthy (override c) = false ->
  refresh c s = (Returned ev, s') ->
  status ev <> status_error ->
  exists ct ft vt data source r pt,
    let target := transformer c data in
    let ev0 := pipeline_event (loaded s) (negb (equality c source target))
                 (endpoint ev) target in
    forallb is_timer_call ct = true /\
    filter is_setTimeout ct = [] /\
    only_fetches_and_reports ft /\
    validation_calls data vt /\
    forallb is_timer_call pt = true /\
    truthy data = true /\
    data = last_resolved ft JUndefined /\
    trace s' =
      trace s ++ ct ++ ft ++ vt
      ++ [EvCacheRead source; EvTransformer data target;
          EvEquality source target (equality c source target);
          EvCallback ev0 (Returned r);
          EvCacheWrite (js_or r target)]
      ++ pt /\
    ev = with_configuration ev0 (js_or r target) /\
    loaded s' = true.
Proof.
  intros Hov Hrun Hstatus.
  destruct (refresh_cases c s Hov)
    as (ct & tf & s1 & ft & Hct & Hct' & Hft & _ & Htr & _ & Hdata & Hcase).
  cbv zeta in Hcase.
  destruct (truthy (tf_configuration tf)) eqn:Htruthy.
  - destruct Hcase as (_ & vt & source & ro & pt & Hvt & Hfst & Htr' & Hpt & Hl).
    rewrite Hrun in Hfst, Htr', Hl. cbn [fst snd] in Hfst, Htr', Hl.
    destruct ro as [r | e]; [ | discriminate ].
    injection Hfst as ->.
    exists ct, ft, vt, (tf_configuration tf), source, r, pt. cbv zeta.
    split; [ exact Hct | ].
    split; [ exact Hct' | ].
    split; [ exact Hft | ].
    split.
    { destruct Hvt as [(w & _ & ->) | (e & w & _ & ->)];
        [ left; reflexivity | right; exists e; reflexivity ]. }
    split; [ exact Hpt | ].
    split; [ exact Htruthy | ].
    split; [ exact Hdata | ].
    split; [ | split; [ reflexivity | exact Hl ] ].
    rewrite Htr', Htr, <- !app_assoc. reflexivity.
  - rewrite Hrun in Hcase. injection Hcase as -> _.
    exfalso. apply Hstatus. reflexivity.
Qed.

(** What a run of [refresh] does to the [loaded] flag: it is set by a
    completed pipeline run and by nothing else, and it is never reset. *)
Lemma refresh_loaded (s : Machine W) :
  truthy (override c) = false ->
  loaded (snd (refresh c s)) =
    loaded s || pipeline_completed (Some (fst (refresh c s))).
Proof.
  intros Hov.
  destruct (refresh_cases c s Hov)
    as (ct & tf & s1 & ft & _ & _ & _ & _ & _ & Hl1 & _ & Hcase).
  cbv zeta in Hcase.
  destruct (truthy (tf_configuration tf)).
  - destruct Hcase as (_ & vt & source & ro & pt & _ & Hfst & _ & _ & Hl).
    rewrite Hfst, Hl.
    destruct ro as [r | e]; cbn.
    + destruct (negb (loaded s)); [ apply eq_sym, orb_true_r | ].
      destruct (negb _); apply eq_sym, orb_true_r.
    + apply eq_sym, orb_false_r.
  - rewrite Hcase. cbn. rewrite Hl1. apply eq_sym, orb_false_r.
Qed.

(** [getConfiguration] of a client without override. *)
Lemma getConfiguration_unfold (s : Machine W) :
  truthy (override c) = false ->
  getConfiguration c s =
    (let (source, w) := read (cache c) (world s) in
     let s1 := log_event (EvCacheRead source) (set_world w s) in
     if truthy source
     then (Returned {| status := status_cached; endpoint := None;
                       configuration := source; error := None |}, s1)
     else refresh c s1).
Proof.
  intros Hov. unfold getConfiguration. rewrite Hov.
  unfold bind, call_cache_read.
  destruct (read (cache c) (world s)) as [source w].
  destruct (truthy source); reflexivity.
Qed.

Lemma step_loaded (o : Op) (s : Machine W) :
  truthy (override c) = false ->
  loaded (snd (step c o s)) =
    loaded s || pipeline_completed (fst (step c o s)).
Proof.
  intros Hov. destruct o; cbn [step].
  - rewrite (getConfiguration_unfold s Hov).
    destruct (read (cache c) (world s)) as [source w]. cbv zeta.
    destruct (truthy source).
    + cbn. apply eq_sym, orb_false_r.
    + pose proof (refresh_loaded (log_event (EvCacheRead source) (set_world w s)) Hov) as H.
      destruct (refresh c _) as [r s']. exact H.
  - pose proof (refresh_loaded s Hov) as H.
    destruct (refresh c s) as [r s']. exact H.
  - cbn [fst snd pipeline_completed]. rewrite orb_false_r.
    unfold pause, bind, exec.
    destruct (setPolling_frame c false (set_paused true s)) as (pt & _ & _ & _ & _ & Hl & _).
    rewrite (setPolling_returns c false (set_paused true s)). exact Hl.
  - cbn [fst snd pipeline_completed]. rewrite orb_false_r.
    unfold resume, bind, exec.
    destruct (setPolling_frame c true (set_paused false s)) as (pt & _ & _ & _ & _ & Hl & _).
    rewrite (setPolling_returns c true (set_paused false s)). exact Hl.
  - destruct (timer_is_live id s).
    + pose proof (refresh_loaded (expire id s) Hov) as H.
      destruct (refresh c (expire id s)) as [r s']. exact H.
    + cbn. apply eq_sym, orb_false_r.
Qed.

(** After a history, [loaded] holds exactly when it held before or some
    operation of the history completed a pipeline run. *)
Lemma run_loaded (ops : list Op) :
  forall s : Machine W,
  truthy (override c) = false ->
  loaded (snd (run c ops s)) =
    loaded s || existsb pipeline_completed (fst (run c ops s)).
Proof.
  induction ops as [ | o ops IH ]; intros s Hov.
  - cbn. apply eq_sym, orb_false_r.
  - cbn [run].
    pose proof (step_loaded o s Hov) as Hstep.
    destruct (step c o s) as [r s1]. cbn [fst snd] in Hstep.
    specialize (IH s1 Hov).
    destruct (run c ops s1) as [rs s2]. cbn [fst snd existsb] in *.
    rewrite IH, Hstep, orb_assoc. reflexivity.
Qed.

End CompletedRuns.

(** A completed run of [refresh], read from its event: the calls from the
    cache read on, and the status in terms of the [loaded] flag and of the
    comparison of the cached prior value with the transformed candidate. *)
Lemma completed_run_status {W : Type} (c : ConfigClient W) (s : Machine W)
  (ev : ConfigurationEvent) (s' : Machine W) :
  truthy (override c) = false ->
  refresh c s = (Returned ev, s') ->
  pipeline_completed (Some (Returned ev)) = true ->
  exists t0 data source r pt,
    trace s' =
      trace s ++ t0
      ++ [EvCacheRead source;
          EvTransformer data (transformer c data);
          EvEquality source (transformer c data)
            (equality c source (transformer c data));
          EvCallback (with_configuration ev (transformer c data)) (Returned r);
          EvCacheWrite (configuration ev)]
      ++ pt /\
    forallb is_timer_call pt = true /\
    status ev =
      (if negb (loaded s) then status_loaded
       else if negb (equality c source (transformer c data))
            then status_updated
            else status_equal).
Proof.
  intros Hov Hrun Hdone.
  assert (Hstatus : status ev <> status_error).
  { intros Heq. cbn in Hdone. rewrite Heq in Hdone. discriminate. }
  destruct (refresh_completed_inv c s ev s' Hov Hrun Hstatus)
    as (ct & ft & vt & data & source & r & pt & _ & _ & _ & _ & Hpt & _ & _
        & Htr & Hev & _).
  cbv zeta in Htr, Hev.
  exists (ct ++ ft ++ vt), data, source, r, pt.
  destruct ev as [st ep cfg er].
  unfold with_configuration, pipeline_event in Hev, Htr |- *.
  cbn [status endpoint configuration error] in Hev, Htr |- *.
  injection Hev as Hst Hcfg Her. subst st cfg er.
  split; [ | split; [ exact Hpt | reflexivity ] ].
  rewrite Htr, <- !app_assoc. reflexivity.
Qed.

(** C3: take any history of a client without override, from the state
    the constructor leaves, and let the next operation complete a pipeline
    run with event [ev] (a call of [refresh], a call of [getConfiguration]
    that misses the cache, or a timer firing).  The [loaded] flag at that
    point tells whether an earlier operation completed a pipeline run;
    the status of [ev] is [loaded] if none did, and otherwise [updated] if
    the Equality provider tells the cached prior value and the transformed
    candidate apart and [equal] if it does not. *)
Theorem refresh_status_derivation {W : Type} (c : ConfigClient W) (w0 : W)
  (ops : list Op) (results : list (option (Outcome ConfigurationEvent)))
  (s : Machine W) (o : Op) (ev : ConfigurationEvent) (s' : Machine W) :
  truthy (override c) = false ->
  run c ops (init_machine w0) = (results, s) ->
  step c o s = (Some (Returned ev), s') ->
  pipeline_completed (Some (Returned ev)) = true ->
  loaded s = existsb pipeline_completed results /\
  exists t0 data source r pt,
    trace s' =
      trace s ++ t0
      ++ [EvCacheRead source;
          EvTransformer data (transformer c data);
          EvEquality source (transformer c data)
            (equality c source (transformer c data));
          EvCallback (with_configuration ev (transformer c data)) (Returned r);
          EvCacheWrite (configuration ev)]
      ++ pt /\
    forallb is_timer_call pt = true /\
    status ev =
      (if negb (existsb pipeline_completed results) then status_loaded
       else if negb (equality c source (transformer c data))
            then status_updated
            else status_equal).
Proof.
  intros Hov Hhist Hstep Hdone.
  assert (Hloaded : loaded s = existsb pipeline_completed results).
  { pose proof (run_loaded c ops (init_machine w0) Hov) as H.
    rewrite Hhist in H. exact H. }
  split; [ exact Hloaded | ].
  rewrite <- Hloaded.
  destruct o; cbn [step] in Hstep.
  - rewrite (getConfiguration_unfold c s Hov) in Hstep.
    destruct (read (cache c) (world s)) as [source0 w]. cbv zeta in Hstep.
    destruct (truthy source0).
    + injection Hstep as <- _. discriminate.
    + destruct (refresh c _) as [r1 s1] eqn:Hrun.
      injection Hstep as -> ->.
      destruct (completed_run_status c _ ev s' Hov Hrun Hdone)
        as (t0 & data & source & r & pt & Htr & Hpt & Hst).
      exists (EvCacheRead source0 :: t0), data, source, r, pt.
      split; [ | split; [ exact Hpt | exact Hst ] ].
      rewrite Htr. cbn [trace log_event set_world].
      rewrite <- !app_assoc. reflexivity.
  - destruct (refresh c s) as [r1 s1] eqn:Hrun.
    injection Hstep as -> ->.
    exact (completed_run_status c s ev s' Hov Hrun Hdone).
  - discriminate.
  - discriminate.
  - destruct (timer_is_live id s); [ | discriminate ].
    destruct (refresh c (expire id s)) as [r1 s1] eqn:Hrun.
    injection Hstep as -> ->.
    exact (completed_run_status c (expire id s) ev s' Hov Hrun Hdone).
Qed.

Lemma refresh_status_derivation_witness :
  loaded (snd (run polling_client [OpRefresh] (init_machine JUndefined))) =
    existsb pipeline_completed
      (fst (run polling_client [OpRefresh] (init_machine JUndefined))) /\
  exists t0 data source r pt,
    trace (snd (run polling_client [OpRefresh; OpTimer 1%positive]
                  (init_machine JUndefined))) =
      trace (snd (run polling_client [OpRefresh] (init_machine JUndefined)))
      ++ t0
      ++ [EvCacheRead source;
          EvTransformer data (transformer polling_client data);
          EvEquality source (transformer polling_client data)
            (equality polling_client source (transformer polling_client data));
          EvCallback
            (with_configuration
               {| status := status_equal;
                  endpoint := Some "https://endpoint.com/default.json";
                  configuration := testConfig; error := None |}
               (transformer polling_client data)) (Returned r);
          EvCacheWrite testConfig]
      ++ pt /\
    forallb is_timer_call pt = true /\
    status_equal =
      (if negb (existsb pipeline_completed
                  (fst (run polling_client [OpRefresh] (init_machine JUndefined))))
       then status_loaded
       else if negb (equality polling_client source
                       (transformer polling_client data))
            then status_updated
            else status_equal).
Proof.
  apply (refresh_status_derivation polling_client JUndefined [OpRefresh]
           (fst (run polling_client [OpRefresh] (init_machine JUndefined)))
           (snd (run polling_client [OpRefresh] (init_machine JUndefined)))
           (OpTimer 1%positive)
           {| status := status_equal;
              endpoint := Some "https://endpoint.com/default.json";
              configuration := testConfig; error := None |}
           (snd (run polling_client [OpRefresh; OpTimer 1%positive]
                   (init_machine JUndefined))));
    vm_compute; reflexivity.
Defined.

(** ** Callback, validation and transformation in the pipeline *)

(** C5: in a run of [refresh] that completes the pipeline, the callback
    is called once, with the transformed candidate; when it resolves with
    a truthy value, that value is the one written to the cache and the
    configuration of the returned event; when it resolves with a falsy
    value, the transformed candidate is written and returned.  The cache
    is written once. *)
Theorem callback_value_replaces_candidate {W : Type} (c : ConfigClient W)
  (s : Machine W) (ev : ConfigurationEvent) (s' : Machine W) :
  truthy (override c) = false ->
  refresh c s = (Returned ev, s') ->
  status ev <> status_error ->
  exists t data ev0 r,
    trace s' = trace s ++ t /\
    filter is_transformer_call t = [EvTransformer data (transformer c data)] /\
    filter is_callback_call t = [EvCallback ev0 (Returned r)] /\
    configuration ev0 = transformer c data /\
    filter is_cache_write t = [EvCacheWrite (configuration ev)] /\
    configuration ev = (if truthy r then r else transformer c data) /\
    ev = with_configuration ev0 (configuration ev).
Proof.
  intros Hov Hrun Hstatus.
  destruct (refresh_completed_inv c s ev s' Hov Hrun Hstatus)
    as (ct & ft & vt & data & source & r & pt & Hct & _ & Hft & Hvt & Hpt & _ & _
        & Htr & Hev & _).
  cbv zeta in Htr, Hev.
  destruct ev as [st ep cfg er].
  unfold with_configuration, pipeline_event in Hev, Htr |- *.
  cbn [status endpoint configuration error] in Hev, Htr |- *.
  injection Hev as Hst Hcfg Her.
  eexists _, data,
    {| status := st; endpoint := ep; configuration := transformer c data;
       error := er |}, r.
  split; [ rewrite Htr; reflexivity | ].
  rewrite !filter_app.
  rewrite (timer_calls_filtered is_transformer_call ct),
    (timer_calls_filtered is_callback_call ct),
    (timer_calls_filtered is_cache_write ct),
    (walk_calls_filtered is_transformer_call ft),
    (walk_calls_filtered is_callback_call ft),
    (walk_calls_filtered is_cache_write ft),
    (timer_calls_filtered is_transformer_call pt),
    (timer_calls_filtered is_callback_call pt),
    (timer_calls_filtered is_cache_write pt); auto.
  subst st cfg er.
  destruct Hvt as [-> | (e & ->)];
    cbn [filter is_transformer_call is_callback_call is_cache_write app
         configuration];
    repeat split.
Qed.

Lemma callback_value_replaces_candidate_witness :
  exists t data ev0 r,
    trace (snd (refresh altering_client (init_machine JUndefined)))
      = trace (init_machine JUndefined) ++ t /\
    filter is_transformer_call t
      = [EvTransformer data (transformer altering_client data)] /\
    filter is_callback_call t = [EvCallback ev0 (Returned r)] /\
    configuration ev0 = transformer altering_client data /\
    filter is_cache_write t = [EvCacheWrite alteredConfig] /\
    alteredConfig = (if truthy r then r else transformer altering_client data) /\
    {| status := status_loaded;
       endpoint := Some "https://endpoint.com/abcd/1.0.0-beta.json";
       configuration := alteredConfig; error := None |}
      = with_configuration ev0 alteredConfig.
Proof.
  apply (callback_value_replaces_candidate altering_client
           (init_machine JUndefined)
           {| status := status_loaded;
              endpoint := Some "https://endpoint.com/abcd/1.0.0-beta.json";
              configuration := alteredConfig; error := None |}
           (snd (refresh altering_client (init_machine JUndefined)))).
  - reflexivity.
  - vm_compute. reflexivity.
  - discriminate.
Defined.

(** C7: when the validator raises on the winning raw value, the error is
    reported once through [onValidationError], with the raw value, and
    the run goes on as it does after a validation that passes: cache read,
    transform, comparison, callback with the transformed value and, when
    the callback resolves, cache write.  The status of the event depends
    on the [loaded] flag and the comparison only, and [refresh] raises
    only what the callback raises. *)
Theorem validation_failure_is_advisory {W : Type} (c : ConfigClient W)
  (s : Machine W) (tf : TryFetchResult) (s1 : Machine W)
  (verr : JsValue) (w2 : W) :
  truthy (override c) = false ->
  tryFetch c (snd (setPolling c false s)) = (Returned tf, s1) ->
  tf_error tf = None ->
  validator c (tf_configuration tf) (world s1) = (Raised verr, w2) ->
  exists source ro pt t,
    fst (refresh c s) =
      match ro with
      | Returned r =>
          Returned
            (with_configuration
               (pipeline_event (loaded s)
                  (negb (equality c source (transformer c (tf_configuration tf))))
                  (tf_endpoint tf) (transformer c (tf_configuration tf)))
               (js_or r (transformer c (tf_configuration tf))))
      | Raised e => Raised e
      end /\
    trace (snd (refresh c s)) =
      trace s1
      ++ [EvValidator (tf_configuration tf) (Raised verr);
          EvOnValidationError verr (tf_configuration tf);
          EvCacheRead source;
          EvTransformer (tf_configuration tf) (transformer c (tf_configuration tf));
          EvEquality source (transformer c (tf_configuration tf))
            (equality c source (transformer c (tf_configuration tf)));
          EvCallback
            (pipeline_event (loaded s)
               (negb (equality c source (transformer c (tf_configuration tf))))
               (tf_endpoint tf) (transformer c (tf_configuration tf)))
            ro]
      ++ match ro with
         | Returned r =>
             EvCacheWrite (js_or r (transformer c (tf_configuration tf))) :: pt
         | Raised _ => []
         end /\
    forallb is_timer_call pt = true /\
    trace (snd (refresh c s)) = trace s ++ t /\
    filter is_validation_report t =
      [EvOnValidationError verr (tf_configuration tf)].
Proof.
  intros Hov Hrun Herr Hval.
  destruct (refresh_cases c s Hov)
    as (ct & tf' & s1' & ft & Hct & _ & Hft & Hrun' & Htr & _ & _ & Hcase).
  rewrite Hrun in Hrun'. injection Hrun' as <- <-.
  destruct (tryFetch_returns c (snd (setPolling c false s)))
    as (tf' & s1' & ft' & Hrun' & _ & _ & _ & _ & Herr').
  rewrite Hrun in Hrun'. injection Hrun' as <- <-.
  cbv zeta in Hcase.
  destruct (truthy (tf_configuration tf)); [ | congruence ].
  destruct Hcase as (_ & vt & source & ro & pt & Hvt & Hfst & Htr' & Hpt & _).
  destruct Hvt as [(w & Hval' & _) | (e & w & Hval' & ->)]; [ congruence | ].
  rewrite Hval in Hval'. injection Hval' as <- <-.
  eexists source, ro, pt, _.
  split; [ exact Hfst | ].
  split; [ exact Htr' | ].
  split; [ exact Hpt | ].
  split; [ rewrite Htr', Htr, <- !app_assoc; reflexivity | ].
  rewrite !filter_app.
  rewrite (timer_calls_filtered is_validation_report ct),
    (walk_calls_filtered is_validation_report ft); auto.
  destruct ro as [r | e]; cbn; [ | reflexivity ].
  rewrite (timer_calls_filtered is_validation_report pt); auto.
Qed.

Lemma validation_failure_is_advisory_witness :
  exists source ro pt t,
    fst (refresh unvalidated_client (init_machine JUndefined)) =
      match ro with
      | Returned r =>
          Returned
            (with_configuration
               (pipeline_event false
                  (negb (structural_equality source (defaultTransformer testConfig)))
                  (Some "https://endpoint.com/abcd/1.0.0-beta.json")
                  (defaultTransformer testConfig))
               (js_or r (defaultTransformer testConfig)))
      | Raised e => Raised e
      end /\
    trace (snd (refresh unvalidated_client (init_machine JUndefined))) =
      [EvFetch "https://endpoint.com/abcd/1.0.0-beta.json" (Returned testConfig)]
      ++ [EvValidator testConfig (Raised (JString "Validation Error"));
          EvOnValidationError (JString "Validation Error") testConfig;
          EvCacheRead source;
          EvTransformer testConfig (defaultTransformer testConfig);
          EvEquality source (defaultTransformer testConfig)
            (structural_equality source (defaultTransformer testConfig));
          EvCallback
            (pipeline_event false
               (negb (structural_equality source (defaultTransformer testConfig)))
               (Some "https://endpoint.com/abcd/1.0.0-beta.json")
               (defaultTransformer testConfig))
            ro]
      ++ match ro with
         | Returned r => EvCacheWrite (js_or r (defaultTransformer testConfig)) :: pt
         | Raised _ => []
         end /\
    forallb is_timer_call pt = true /\
    trace (snd (refresh unvalidated_client (init_machine JUndefined))) = [] ++ t /\
    filter is_validation_report t =
      [EvOnValidationError (JString "Validation Error") testConfig].
Proof.
  apply (validation_failure_is_advisory unvalidated_client
           (init_machine JUndefined)
           {| tf_endpoint := Some "https://endpoint.com/abcd/1.0.0-beta.json";
              tf_configuration := testConfig; tf_error := None |}
           (log_event
              (EvFetch "https://endpoint.com/abcd/1.0.0-beta.json"
                 (Returned testConfig))
              (init_machine JUndefined))
           (JString "Validation Error") JUndefined);
    reflexivity.
Defined.

(** C8, as stated, fails: the pipeline takes the result of a
    caller-supplied transformer as it is.  With a transformer that returns
    [0], the comparison, the callback and the cache write all get [0],
    which is falsy and is not [undefined]. *)
Lemma transformer_result_not_normalized :
  fst (refresh zero_transformer_client (init_machine JUndefined)) =
    Returned {| status := status_loaded;
                endpoint := Some "https://endpoint.com/abcd/1.0.0-beta.json";
                configuration := JNumber 0; error := None |} /\
  In (EvEquality JUndefined (JNumber 0) false)
     (trace (snd (refresh zero_transformer_client (init_machine JUndefined)))) /\
  In (EvCallback
        {| status := status_loaded;
           endpoint := Some "https://endpoint.com/abcd/1.0.0-beta.json";
           configuration := JNumber 0; error := None |}
        (Returned JUndefined))
     (trace (snd (refresh zero_transformer_client (init_machine JUndefined)))) /\
  In (EvCacheWrite (JNumber 0))
     (trace (snd (refresh zero_transformer_client (init_machine JUndefined)))) /\
  truthy (JNumber 0) = false /\
  JNumber 0 <> JUndefined.
Proof.
  split; [ reflexivity | ].
  split; [ vm_compute; tauto | ].
  split; [ vm_compute; tauto | ].
  split; [ vm_compute; tauto | ].
  split; [ reflexivity | discriminate ].
Qed.

Lemma last_resolved_in (t : list Event) :
  forall d0 : JsValue,
  last_resolved t d0 = d0 \/
  exists ep, In (EvFetch ep (Returned (last_resolved t d0))) t.
Proof.
  induction t as [ | e t IH ]; intros d0; [ left; reflexivity | ].
  destruct e as [ ep [ d | x ] | | | | | | | | | | | ]; cbn [last_resolved];
    try (destruct (IH d0) as [Heq | (ep' & Hin)];
         [ left; exact Heq | right; exists ep'; right; exact Hin ]).
  destruct (IH d) as [Heq | (ep' & Hin)].
  - right. exists ep. left. rewrite Heq. reflexivity.
  - right. exists ep'. right. exact Hin.
Qed.

(** C8, amended: the pipeline uses the result of the Transform provider
    as it is, whatever provider it is; normalization lives in the default
    provider only.  In a run of [refresh] with winning raw value [data]
    (the truthy value a fetch of the run resolved with), the transformer
    is called on [data], and the candidate handed on (as the target of
    the equality comparison and as the configuration of the event given
    to the callback) is [transformer(data)], unchanged; the value written
    to the cache is [r || transformer(data)] for the value [r] the callback
    resolved with.  The default Transform provider maps a falsy raw value
    to [undefined] and returns a truthy one as it is, so with it the
    candidate and the value written are always truthy. *)
Theorem pipeline_uses_transformer_result {W : Type} (c : ConfigClient W)
  (s : Machine W) :
  truthy (override c) = false ->
  (forall v, truthy v = false -> defaultTransformer v = JUndefined) /\
  (forall v, truthy v = true -> defaultTransformer v = v) /\
  exists t data,
    trace (snd (refresh c s)) = trace s ++ t /\
    (forall e v, In e t -> pipeline_value e = Some v ->
       truthy data = true /\
       (exists ep, In (EvFetch ep (Returned data)) t) /\
       In (EvTransformer data (transformer c data)) t /\
       (v = transformer c data \/
        exists ev0 r,
          e = EvCacheWrite v /\
          In (EvCallback ev0 (Returned r)) t /\
          v = js_or r (transformer c data))) /\
    (forall d target, In (EvTransformer d target) t -> d = data) /\
    (transformer c = defaultTransformer ->
     forall e v, In e t -> pipeline_value e = Some v -> truthy v = true).
Proof.
  intros Hov.
  split; [ intros v Hv; unfold defaultTransformer; rewrite Hv; reflexivity | ].
  split; [ intros v Hv; unfold defaultTransformer; rewrite Hv; reflexivity | ].
  destruct (refresh_cases c s Hov)
    as (ct & tf & s1 & ft & Hct & _ & Hft & _ & Htr & _ & Hlast & Hcase).
  cbv zeta in Hcase.
  assert (Hpre : forall e, In e (ct ++ ft) ->
                           pipeline_value e = None /\
                           forall d target, e <> EvTransformer d target).
  { intros e Hin. apply in_app_or in Hin. destruct Hin as [Hin | Hin].
    - rewrite forallb_forall in Hct. specialize (Hct _ Hin).
      destruct e; cbn in Hct; try discriminate; split; try reflexivity;
        intros; discriminate.
    - unfold only_fetches_and_reports in Hft. rewrite Forall_forall in Hft.
      specialize (Hft _ Hin).
      destruct e; try contradiction; split; try reflexivity; intros; discriminate. }
  destruct (truthy (tf_configuration tf)) eqn:Hdata.
  - destruct Hcase as (_ & vt & source & ro & pt & Hvt & _ & Htr' & Hpt & _).
    assert (Hvt' : forall e, In e vt ->
                             pipeline_value e = None /\
                             forall d target, e <> EvTransformer d target).
    { intros e Hin.
      destruct Hvt as [(w & _ & ->) | (x & w & _ & ->)]; cbn in Hin;
        repeat (destruct Hin as [<- | Hin];
                [ split; [ reflexivity | intros; discriminate ] | ]);
        contradiction. }
    assert (Hfetch : exists ep, In (EvFetch ep (Returned (tf_configuration tf))) ft).
    { destruct (last_resolved_in ft JUndefined) as [Heq | (ep & Hin)].
      - rewrite <- Hlast in Heq. rewrite Heq in Hdata. discriminate.
      - exists ep. rewrite Hlast. exact Hin. }
    destruct Hfetch as (ep & Hfetch).
    eexists _, (tf_configuration tf).
    split; [ rewrite Htr', Htr, <- !app_assoc; reflexivity | ].
    assert (Hsplit : forall (e : Event) (P : Prop),
      In e (ct ++ ft ++ vt
            ++ [EvCacheRead source;
                EvTransformer (tf_configuration tf)
                  (transformer c (tf_configuration tf));
                EvEquality source (transformer c (tf_configuration tf))
                  (equality c source (transformer c (tf_configuration tf)));
                EvCallback
                  {| status :=
                       if negb (loaded s) then status_loaded
                       else if negb (equality c source
                                       (transformer c (tf_configuration tf)))
                            then status_updated else status_equal;
                     endpoint := tf_endpoint tf;
                     configuration := transformer c (tf_configuration tf);
                     error := None |} ro]
            ++ match ro with
               | Returned r =>
                   EvCacheWrite (js_or r (transformer c (tf_configuration tf)))
                   :: pt
               | Raised _ => []
               end) ->
      (In e (ct ++ ft) -> P) -> (In e vt -> P) ->
      (e = EvCacheRead source -> P) ->
      (e = EvTransformer (tf_configuration tf)
             (transformer c (tf_configuration tf)) -> P) ->
      (e = EvEquality source (transformer c (tf_configuration tf))
             (equality c source (transformer c (tf_configuration tf))) -> P) ->
      (forall ev0, e = EvCallback ev0 ro ->
                   configuration ev0 = transformer c (tf_configuration tf) -> P) ->
      (forall r, ro = Returned r ->
                 e = EvCacheWrite (js_or r (transformer c (tf_configuration tf))) -> P) ->
      (In e pt -> P) -> P).
    { intros e P Hin H1 H2 H3 H4 H5 H6 H7 H8.
      apply in_app_or in Hin. destruct Hin as [Hin | Hin];
        [ apply H1; apply in_or_app; left; exact Hin | ].
      apply in_app_or in Hin. destruct Hin as [Hin | Hin];
        [ apply H1; apply in_or_app; right; exact Hin | ].
      apply in_app_or in Hin. destruct Hin as [Hin | Hin]; [ exact (H2 Hin) | ].
      apply in_app_or in Hin. destruct Hin as [Hin | Hin].
      - cbn in Hin.
        destruct Hin as [Hin | [Hin | [Hin | [Hin | []]]]]; symmetry in Hin.
        + exact (H3 Hin).
        + exact (H4 Hin).
        + exact (H5 Hin).
        + exact (H6 _ Hin eq_refl).
      - destruct ro as [r | x]; [ | contradiction ].
        destruct Hin as [Hin | Hin]; [ symmetry in Hin; exact (H7 r eq_refl Hin) | ].
        exact (H8 Hin). }
    assert (Hpt' : forall e, In e pt ->
                             pipeline_value e = None /\
                             forall d target, e <> EvTransformer d target).
    { intros e Hin. rewrite forallb_forall in Hpt. specialize (Hpt _ Hin).
      destruct e; cbn in Hpt; try discriminate; split; try reflexivity;
        intros; discriminate. }
    assert (Hin_fetch : forall tail,
              In (EvFetch ep (Returned (tf_configuration tf)))
                 (ct ++ ft ++ tail)).
    { intros tail. apply in_or_app. right. apply in_or_app. left. exact Hfetch. }
    assert (Hin_tr : forall tail,
              In (EvTransformer (tf_configuration tf)
                    (transformer c (tf_configuration tf)))
                 (ct ++ ft ++ vt
                  ++ [EvCacheRead source;
                      EvTransformer (tf_configuration tf)
                        (transformer c (tf_configuration tf));
                      EvEquality source (transformer c (tf_configuration tf))
                        (equality c source (transformer c (tf_configuration tf)));
                      EvCallback
                        {| status :=
                             if negb (loaded s) then status_loaded
                             else if negb (equality c source
                                             (transformer c (tf_configuration tf)))
                                  then status_updated else status_equal;
                           endpoint := tf_endpoint tf;
                           configuration := transformer c (tf_configuration tf);
                           error := None |} ro]
                  ++ tail)).
    { intros tail. apply in_or_app. right. apply in_or_app. right.
      apply in_or_app. right. apply in_or_app. left. right. left. reflexivity. }
    split; [ | split ].
    + intros e v Hin Hv.
      split; [ exact Hdata | ].
      split; [ exists ep; apply Hin_fetch | ].
      split; [ apply Hin_tr | ].
      apply (Hsplit e _ Hin).
      * intros H. destruct (Hpre e H) as [Hn _]. congruence.
      * intros H. destruct (Hvt' e H) as [Hn _]. congruence.
      * intros ->. discriminate.
      * intros ->. cbn in Hv. injection Hv as <-. left. reflexivity.
      * intros ->. cbn in Hv. injection Hv as <-. left. reflexivity.
      * intros ev0 -> Hcfg. cbn in Hv. injection Hv as <-. left. exact Hcfg.
      * intros r -> ->. cbn in Hv. injection Hv as <-. right.
        eexists _, r. split; [ reflexivity | ]. split; [ | reflexivity ].
        apply in_or_app. right. apply in_or_app. right.
        apply in_or_app. right. apply in_or_app. left.
        right. right. right. left. reflexivity.
      * intros H. destruct (Hpt' e H) as [Hn _]. congruence.
    + intros d target Hin.
      apply (Hsplit _ _ Hin).
      * intros H. destruct (Hpre _ H) as [_ Hn]. exfalso. exact (Hn d target eq_refl).
      * intros H. destruct (Hvt' _ H) as [_ Hn]. exfalso. exact (Hn d target eq_refl).
      * discriminate.
      * intros H. injection H as -> _. reflexivity.
      * discriminate.
      * discriminate.
      * discriminate.
      * intros H. destruct (Hpt' _ H) as [_ Hn]. exfalso. exact (Hn d target eq_refl).
    + intros Hdef e v Hin Hv.
      assert (Htarget : transformer c (tf_configuration tf) = tf_configuration tf).
      { rewrite Hdef. unfold defaultTransformer. rewrite Hdata. reflexivity. }
      apply (Hsplit e _ Hin).
      * intros H. destruct (Hpre e H) as [Hn _]. congruence.
      * intros H. destruct (Hvt' e H) as [Hn _]. congruence.
      * intros ->. discriminate.
      * intros ->. cbn in Hv. injection Hv as <-. rewrite Htarget. exact Hdata.
      * intros ->. cbn in Hv. injection Hv as <-. rewrite Htarget. exact Hdata.
      * intros ev0 -> Hcfg. cbn in Hv. injection Hv as <-.
        rewrite Hcfg, Htarget. exact Hdata.
      * intros r -> ->. cbn in Hv. injection Hv as <-.
        unfold js_or. destruct (truthy r) eqn:Hr; [ exact Hr | ].
        rewrite Htarget. exact Hdata.
      * intros H. destruct (Hpt' e H) as [Hn _]. congruence.
  - exists (ct ++ ft), JUndefined. rewrite Hcase. cbn [snd].
    split; [ exact Htr | ]. split; [ | split ].
    + intros e v Hin Hv. destruct (Hpre e Hin) as [Hn _]. congruence.
    + intros d target Hin. destruct (Hpre _ Hin) as [_ Hn].
      exfalso. exact (Hn d target eq_refl).
    + intros _ e v Hin Hv. destruct (Hpre e Hin) as [Hn _]. congruence.
Qed.

Lemma pipeline_uses_transformer_result_witness :
  (forall v, truthy v = false -> defaultTransformer v = JUndefined) /\
  (forall v, truthy v = true -> defaultTransformer v = v) /\
  exists t data,
    trace (snd (refresh zero_transformer_client (init_machine JUndefined)))
      = [] ++ t /\
    (forall e v, In e t -> pipeline_value e = Some v ->
       truthy data = true /\
       (exists ep, In (EvFetch ep (Returned data)) t) /\
       In (EvTransformer data (transformer zero_transformer_client data)) t /\
       (v = transformer zero_transformer_client data \/
        exists ev0 r,
          e = EvCacheWrite v /\
          In (EvCallback ev0 (Returned r)) t /\
          v = js_or r (transformer zero_transformer_client data))) /\
    (forall d target, In (EvTransformer d target) t -> d = data) /\
    (transformer zero_transformer_client = defaultTransformer ->
     forall e v, In e t -> pipeline_value e = Some v -> truthy v = true).
Proof.
  apply (pipeline_uses_transformer_result zero_transformer_client
           (init_machine JUndefined)).
  reflexivity.
Defined.

(* ================================================================== *)
(** * Further properties of the code *)

(** ** The endpoint walk, whatever the fetch provider does *)

(** X1: when endpoint [ep] is the first whose fetch resolves truthy and
    neither it nor an endpoint before it is the empty string, [tryFetch]
    returns [ep] with the value its fetch resolved with and no error;
    every endpoint before it was fetched once and reported once (through
    [onFetchError] when its fetch raised, through [onUndefinedError] when
    it resolved falsy), in list order; no endpoint after it was fetched. *)
Theorem tryFetch_returns_first_winner {W : Type} (c : ConfigClient W)
  (pre : list string) (ep : string) (post : list string) (s : Machine W) :
  endpoints c = pre ++ ep :: post ->
  Forall (fun e => e <> "" /\ fetch_fails c e) pre ->
  ep <> "" ->
  fetch_wins c ep ->
  exists d t s',
    tryFetch c s =
      (Returned {| tf_endpoint := Some ep; tf_configuration := d;
                   tf_error := None |}, s') /\
    truthy d = true /\
    failed_attempts pre t /\
    trace s' = trace s ++ t ++ [EvFetch ep (Returned d)].
Proof.
  intros Heps Hpre Hep Hwin.
  destruct (tryFetch_first_truthy c pre ep post s Heps) as (d & t & s' & H1 & H2 & H3 & H4 & _).
  - eapply Forall_impl; [ | exact Hpre ].
    intros e [He Hf]. split; [ apply truthy_string_nonempty; exact He | exact Hf ].
  - apply truthy_string_nonempty. exact Hep.
  - exact Hwin.
  - exists d, t, s'. repeat split; assumption.
Qed.

Lemma tryFetch_returns_first_winner_witness :
  exists d t s',
    tryFetch polling_client (init_machine JUndefined) =
      (Returned {| tf_endpoint := Some "https://endpoint.com/default.json";
                   tf_configuration := d; tf_error := None |}, s') /\
    truthy d = true /\
    failed_attempts ["https://endpoint.com/abcd/1.0.0-beta.json";
                     "https://endpoint.com/abcd/default.json"] t /\
    trace s' =
      [] ++ t ++ [EvFetch "https://endpoint.com/default.json" (Returned d)].
Proof.
  apply (tryFetch_returns_first_winner polling_client
           ["https://endpoint.com/abcd/1.0.0-beta.json";
            "https://endpoint.com/abcd/default.json"]
           "https://endpoint.com/default.json" []
           (init_machine JUndefined)).
  - reflexivity.
  - repeat (apply Forall_cons || apply Forall_nil);
      (split; [ discriminate | intro w; vm_compute; auto ]).
  - discriminate.
  - intro w. vm_compute. reflexivity.
Defined.

(** X2: whatever the fetch provider does at each call (resolve truthy,
    resolve falsy or raise), and with reporting callbacks that return, as
    their contract demands, the walk of [tryFetch] has one of three
    shapes.  It visits a prefix of the configured list in order, fetching
    each endpoint of it once and reporting it once; then either the list
    is over (error, endpoint [undefined]), or the next endpoint is the
    empty string (error, endpoint [""], nothing fetched there), or the
    next endpoint is fetched, resolves truthy and is returned with that
    value and no error.  Nothing beyond is fetched.  A fetch that raises
    is caught and reported; it never leaves [tryFetch]. *)
Theorem tryFetch_walk_shape {W : Type} (c : ConfigClient W) (s : Machine W) :
  exists pre rest t tf s',
    tryFetch c s = (Returned tf, s') /\
    endpoints c = pre ++ rest /\
    Forall (fun e => e <> "") pre /\
    failed_attempts pre t /\
    ((rest = [] /\ tf_endpoint tf = None /\
      truthy (tf_configuration tf) = false /\
      tf_error tf = Some {| cfe_endpoints := endpoints c |} /\
      trace s' = trace s ++ t) \/
     (exists post, rest = "" :: post /\ tf_endpoint tf = Some "" /\
                   truthy (tf_configuration tf) = false /\
                   tf_error tf = Some {| cfe_endpoints := endpoints c |} /\
                   trace s' = trace s ++ t) \/
     (exists ep post, rest = ep :: post /\ ep <> "" /\
                      tf_endpoint tf = Some ep /\
                      truthy (tf_configuration tf) = true /\
                      tf_error tf = None /\
                      trace s' =
                        trace s ++ t
                        ++ [EvFetch ep (Returned (tf_configuration tf))])).
Proof. exact (tryFetch_shape c s). Qed.

(** ** The events the methods resolve with *)

Section EventShape.
Context {W : Type}.
Variable c : ConfigClient W.

Lemma js_or_truthy (a b : JsValue) :
  truthy b = true -> truthy (js_or a b) = true.
Proof.
  intros Hb. unfold js_or. destruct (truthy a) eqn:Ha; [ exact Ha | exact Hb ].
Qed.

Lemma getOverride_event (s : Machine W) (ev : ConfigurationEvent)
  (s' : Machine W) :
  truthy (override c) = true ->
  getOverride c s = (Returned ev, s') ->
  well_formed_event c ev /\ status ev = status_cached.
Proof.
  intros Hov. unfold getOverride, bind, call_callback.
  destruct (callback c _ (world s)) as [[r | e] w]; [ | discriminate ].
  cbn. intros H. injection H as <- _.
  unfold well_formed_event. cbn.
  repeat split. apply js_or_truthy. exact Hov.
Qed.

Lemma refresh_event (s : Machine W) (ev : ConfigurationEvent) (s' : Machine W) :
  truthy (override c) = false ->
  refresh c s = (Returned ev, s') ->
  well_formed_event c ev /\ status ev <> status_cached.
Proof.
  intros Hov Hrun.
  destruct (refresh_cases c s Hov)
    as (ct & tf & s1 & ft & _ & _ & _ & Htf & _ & _ & _ & Hcase).
  cbv zeta in Hcase.
  destruct (tryFetch_shape c (snd (setPolling c false s)))
    as (pre & rest & t & tf' & s1' & Htf' & Heps & _ & _ & Hend).
  rewrite Htf in Htf'. injection Htf' as <- <-.
  destruct (truthy (tf_configuration tf)) eqn:Hdata.
  - destruct Hcase as (_ & vt & source & ro & pt & _ & Hfst & _).
    rewrite Hrun in Hfst. cbn [fst] in Hfst.
    destruct ro as [r | e]; [ | discriminate ].
    injection Hfst as ->.
    destruct Hend as [(_ & _ & H & _) | [(post & _ & _ & H & _)
                                        | (ep & post & Hrest & Hne & Hep & _)]];
      try congruence.
    unfold well_formed_event. cbn.
    assert (Hin : In ep (endpoints c)).
    { rewrite Heps, Hrest. apply in_or_app. right. left. reflexivity. }
    destruct (negb (loaded s)); [ | destruct (negb _) ];
      (split; [ split; [ reflexivity | exists ep; repeat split; assumption ]
              | discriminate ]).
  - rewrite Hrun in Hcase. injection Hcase as -> _.
    unfold well_formed_event. cbn. repeat split. discriminate.
Qed.

End EventShape.

(** X3: every event [refresh] or [getConfiguration] resolves with is well
    formed for its status.  With status [error] the configuration is
    [undefined] and the error is the [ConfigurationFailedError] of the
    configured list; with status [cached] there is no endpoint, no error
    and the configuration is truthy; with status [loaded], [updated] or
    [equal] there is no error and the endpoint is one of the configured
    ones and is not the empty string.  [refresh] resolves with [cached]
    exactly in override mode. *)
Theorem resolved_events_well_formed {W : Type} (c : ConfigClient W)
  (s : Machine W) (ev : ConfigurationEvent) (s' : Machine W) :
  refresh c s = (Returned ev, s') \/ getConfiguration c s = (Returned ev, s') ->
  well_formed_event c ev /\
  (refresh c s = (Returned ev, s') ->
   (status ev = status_cached <-> truthy (override c) = true)).
Proof.
  intros Hrun.
  destruct (truthy (override c)) eqn:Hov.
  - assert (Hget : getOverride c s = (Returned ev, s')).
    { destruct Hrun as [Hrun | Hrun];
        [ unfold refresh in Hrun | unfold getConfiguration in Hrun ];
        rewrite Hov in Hrun; exact Hrun. }
    destruct (getOverride_event c s ev s' Hov Hget) as [Hwf Hst].
    split; [ exact Hwf | ]. intros _. split; [ reflexivity | intros _; exact Hst ].
  - destruct Hrun as [Hrun | Hrun].
    + destruct (refresh_event c s ev s' Hov Hrun) as [Hwf Hst].
      split; [ exact Hwf | ]. intros _. split; [ contradiction | discriminate ].
    + rewrite (getConfiguration_unfold c s Hov) in Hrun.
      destruct (read (cache c) (world s)) as [source w]. cbv zeta in Hrun.
      destruct (truthy source) eqn:Hsrc.
      * injection Hrun as <- _.
        split.
        -- unfold well_formed_event. cbn. repeat split. exact Hsrc.
        -- intros Href.
           destruct (refresh_event c s _ s' Hov Href) as [_ Hst].
           exfalso. apply Hst. reflexivity.
      * destruct (refresh_event c _ ev s' Hov Hrun) as [Hwf Hst].
        split; [ exact Hwf | ]. intros _. split; [ contradiction | discriminate ].
Qed.

Lemma resolved_events_well_formed_witness :
  well_formed_event polling_client
    {| status := status_loaded;
       endpoint := Some "https://endpoint.com/default.json";
       configuration := testConfig; error := None |} /\
  (refresh polling_client (init_machine JUndefined) =
     (Returned {| status := status_loaded;
                  endpoint := Some "https://endpoint.com/default.json";
                  configuration := testConfig; error := None |},
      snd (refresh polling_client (init_machine JUndefined))) ->
   (status_loaded = status_cached <-> truthy (override polling_client) = true)).
Proof.
  apply (resolved_events_well_formed polling_client (init_machine JUndefined)
           {| status := status_loaded;
              endpoint := Some "https://endpoint.com/default.json";
              configuration := testConfig; error := None |}
           (snd (refresh polling_client (init_machine JUndefined)))).
  left. vm_compute. reflexivity.
Defined.

(** ** What a run of [refresh] does to the timers *)

Section Scheduling.
Context {W : Type}.
Variable c : ConfigClient W.

Lemma setPolling_true (s : Machine W) :
  snd (setPolling c true s) =
  if polls c
  then set_timeoutId (Some (next_timer s)) (snd (setTimeout (delay c) s))
  else match timeoutId s with
       | Some id => clearTimeout id s
       | None => s
       end.
Proof.
  unfold setPolling, polls, delay. cbn [andb].
  destruct (match interval c with Some n => (0 <? n)%Z | None => false end);
    [ reflexivity | ].
  destruct (timeoutId s); reflexivity.
Qed.

(** The start of [refresh]: [setPolling(false)]. *)
Lemma cancel_first (s : Machine W) :
  exists ct,
    trace (snd (setPolling c false s)) = trace s ++ ct /\
    forallb is_timer_call ct = true /\
    filter is_setTimeout ct = [] /\
    next_timer (snd (setPolling c false s)) = next_timer s /\
    paused (snd (setPolling c false s)) = paused s /\
    timeoutId (snd (setPolling c false s)) = timeoutId s /\
    (one_timer_at_most s -> live_timers (snd (setPolling c false s)) = []).
Proof.
  destruct (setPolling_frame c false s) as (ct & Htr & Hct & Hset & _ & _ & Hp).
  exists ct.
  split; [ exact Htr | ]. split; [ exact Hct | ].
  split; [ apply Hset; reflexivity | ].
  split; [ | split; [ exact Hp | split ] ].
  - rewrite setPolling_false. cbn. destruct (timeoutId s); reflexivity.
  - rewrite setPolling_false. cbn. destruct (timeoutId s) eqn:Hid; cbn; exact Hid.
  - intros Hone. apply (setPolling_false_clears c s Hone).
Qed.

(** A run of [refresh] without override calls [setTimeout] once, for
    [interval * 1000] ms, when the pipeline completes, the client is not
    paused and the interval is positive, and never otherwise; started with
    at most one live timer, it leaves that new timer as the only live one,
    or none. *)
Lemma refresh_schedule (s : Machine W) :
  truthy (override c) = false ->
  exists t,
    trace (snd (refresh c s)) = trace s ++ t /\
    (if pipeline_completed (Some (fst (refresh c s)))
        && negb (paused s) && polls c
     then filter is_setTimeout t = [EvSetTimeout (next_timer s) (delay c)]
     else filter is_setTimeout t = []) /\
    (one_timer_at_most s ->
     if pipeline_completed (Some (fst (refresh c s)))
        && negb (paused s) && polls c
     then live_timers (snd (refresh c s)) = [(next_timer s, delay c)] /\
          timeoutId (snd (refresh c s)) = Some (next_timer s)
     else live_timers (snd (refresh c s)) = []).
Proof.
  intros Hov.
  destruct (cancel_first s) as (ct & Htr0 & Hct & Hset0 & Hn0 & Hp0 & Hid0 & Hlive0).
  destruct (tryFetch_returns c (snd (setPolling c false s)))
    as (tf & s1 & ft & Hrun & (Hid1 & _ & Hp1 & Hn1 & Hlive1) & Htr1 & Hft & _ & _).
  assert (Htr : trace s1 = trace s ++ ct ++ ft).
  { rewrite Htr1, Htr0, app_assoc. reflexivity. }
  assert (Hn : next_timer s1 = next_timer s) by congruence.
  assert (Hp : paused s1 = paused s) by congruence.
  assert (Hlive : one_timer_at_most s -> live_timers s1 = []).
  { intros Hone. rewrite Hlive1. exact (Hlive0 Hone). }
  assert (Hw : filter is_setTimeout (ct ++ ft) = []).
  { rewrite filter_app, Hset0, (walk_calls_filtered is_setTimeout ft); auto. }
  rewrite (refresh_unfold c s Hov). cbv zeta. rewrite Hrun.
  destruct (tf_error tf) as [err | ].
  { exists (ct ++ ft). cbn. split; [ exact Htr | ]. split; [ exact Hw | exact Hlive ]. }
  set (s2 := match validator c (tf_configuration tf) (world s1) with
             | (Returned u, w) =>
                 log_event (EvValidator (tf_configuration tf) (Returned u))
                   (set_world w s1)
             | (Raised e, w) =>
                 log_event (EvOnValidationError e (tf_configuration tf))
                   (set_world (onValidationError c e (tf_configuration tf) w)
                      (log_event (EvValidator (tf_configuration tf) (Raised e))
                         (set_world w s1)))
             end).
  assert (Hs2 : exists vt, trace s2 = trace s1 ++ vt /\
                           filter is_setTimeout vt = [] /\
                           next_timer s2 = next_timer s1 /\
                           paused s2 = paused s1 /\
                           live_timers s2 = live_timers s1 /\
                           loaded s2 = loaded s1).
  { subst s2.
    destruct (validator c (tf_configuration tf) (world s1)) as [[u | e] w].
    - eexists [_]. cbn. repeat split.
    - eexists [_; _]. cbn. rewrite <- app_assoc. repeat split. }
  destruct Hs2 as (vt & Htr2 & Hvt & Hn2 & Hp2 & Hlive2 & Hl2).
  clearbody s2.
  destruct (read (cache c) (world s2)) as [source w3].
  cbn [loaded log_event set_world].
  destruct (callback c _ w3) as [[r | e] w4].
  - cbn [fst snd paused set_loaded log_event set_world].
    assert (Hdone :
      pipeline_completed
        (Some (Returned
          (with_configuration
             {| status := if negb (loaded s2) then status_loaded
                          else if negb (equality c source
                                          (transformer c (tf_configuration tf)))
                               then status_updated else status_equal;
                endpoint := tf_endpoint tf;
                configuration := transformer c (tf_configuration tf);
                error := None |}
             (js_or r (transformer c (tf_configuration tf)))))) = true).
    { cbn. destruct (negb (loaded s2)); [ reflexivity | ].
      destruct (negb _); reflexivity. }
    rewrite Hdone, Hp2, Hp. cbn [andb].
    destruct (negb (paused s)); cbn [andb].
    + rewrite setPolling_true.
      destruct (polls c).
      * eexists. cbn [trace set_timeoutId setTimeout snd set_loaded log_event
                      set_world next_timer live_timers timeoutId].
        split; [ rewrite Htr2, Htr, <- !app_assoc; reflexivity | ].
        rewrite Hn2, Hn, Hlive2.
        split.
        -- rewrite !filter_app, Hset0, (walk_calls_filtered is_setTimeout ft), Hvt;
             auto.
        -- intros Hone. rewrite (Hlive Hone). split; reflexivity.
      * cbn [timeoutId set_loaded log_event set_world].
        destruct (timeoutId s2) as [id | ].
        -- eexists. cbn [trace clearTimeout set_loaded log_event set_world live_timers].
           split; [ rewrite Htr2, Htr, <- !app_assoc; reflexivity | ].
           split.
           ++ rewrite !filter_app, Hset0, (walk_calls_filtered is_setTimeout ft), Hvt;
                auto.
           ++ intros Hone. rewrite Hlive2, (Hlive Hone). reflexivity.
        -- eexists. cbn [trace set_loaded log_event set_world live_timers].
           split; [ rewrite Htr2, Htr, <- !app_assoc; reflexivity | ].
           split.
           ++ rewrite !filter_app, Hset0, (walk_calls_filtered is_setTimeout ft), Hvt;
                auto.
           ++ intros Hone. rewrite Hlive2, (Hlive Hone). reflexivity.
    + eexists. cbn [trace set_loaded log_event set_world live_timers].
      split; [ rewrite Htr2, Htr, <- !app_assoc; reflexivity | ].
      split.
      * rewrite !filter_app, Hset0, (walk_calls_filtered is_setTimeout ft), Hvt;
          auto.
      * intros Hone. rewrite Hlive2, (Hlive Hone). reflexivity.
  - cbn [fst snd pipeline_completed andb].
    eexists. cbn [trace log_event set_world live_timers].
    split; [ rewrite Htr2, Htr, <- !app_assoc; reflexivity | ].
    split.
    + rewrite !filter_app, Hset0, (walk_calls_filtered is_setTimeout ft), Hvt;
        auto.
    + intros Hone. rewrite Hlive2, (Hlive Hone). reflexivity.
Qed.

End Scheduling.

Lemma completed_status (ev : ConfigurationEvent) :
  status ev <> status_error ->
  status ev <> status_cached ->
  pipeline_completed (Some (Returned ev)) = true.
Proof.
  intros He Hc. cbn. destruct (status ev); try reflexivity; contradiction.
Qed.

(** The timer a completed run leaves. *)
Lemma refresh_completed_timer {W : Type} (c : ConfigClient W)
  (s : Machine W) (ev : ConfigurationEvent) (s' : Machine W) (n : Z) :
  truthy (override c) = false ->
  interval c = Some n ->
  (0 < n)%Z ->
  paused s = false ->
  one_timer_at_most s ->
  refresh c s = (Returned ev, s') ->
  status ev <> status_error ->
  exists t,
    trace s' = trace s ++ t /\
    filter is_setTimeout t = [EvSetTimeout (next_timer s) (n * 1000)%Z] /\
    live_timers s' = [(next_timer s, (n * 1000)%Z)] /\
    timeoutId s' = Some (next_timer s).
Proof.
  intros Hov Hint Hpos Hpaused Hone Hrun Hstatus.
  destruct (refresh_schedule c s Hov) as (t & Htr & Hset & Hlive).
  specialize (Hlive Hone).
  destruct (refresh_event c s ev s' Hov Hrun) as [_ Hnc].
  rewrite Hrun in Htr, Hset, Hlive. cbn [fst snd] in Htr, Hset, Hlive.
  rewrite (completed_status ev Hstatus Hnc), Hpaused in Hset, Hlive.
  assert (Hpolls : polls c = true).
  { unfold polls. rewrite Hint. apply Z.ltb_lt. exact Hpos. }
  assert (Hdelay : delay c = (n * 1000)%Z).
  { unfold delay. rewrite Hint. reflexivity. }
  rewrite Hpolls, Hdelay in Hset, Hlive. cbn [andb negb] in Hset, Hlive.
  exists t. destruct Hlive as [Hl Hid]. repeat split; assumption.
Qed.

(** X4: a run of [refresh] (no override) that completes the pipeline on a
    client that is not paused and has a positive interval calls
    [setTimeout] exactly once, with [interval * 1000] ms, and keeps the
    handle; if at most one timer was live before, the new timer is the only
    live one afterwards. *)
Theorem completed_refresh_schedules_one_timer {W : Type} (c : ConfigClient W)
  (s : Machine W) (ev : ConfigurationEvent) (s' : Machine W) (n : Z) :
  truthy (override c) = false ->
  interval c = Some n ->
  (0 < n)%Z ->
  paused s = false ->
  one_timer_at_most s ->
  refresh c s = (Returned ev, s') ->
  status ev <> status_error ->
  exists t,
    trace s' = trace s ++ t /\
    filter is_setTimeout t = [EvSetTimeout (next_timer s) (n * 1000)%Z] /\
    live_timers s' = [(next_timer s, (n * 1000)%Z)] /\
    timeoutId s' = Some (next_timer s).
Proof. exact (refresh_completed_timer c s ev s' n). Qed.

Lemma completed_refresh_schedules_one_timer_witness :
  exists t,
    trace (snd (refresh polling_client (init_machine JUndefined))) = [] ++ t /\
    filter is_setTimeout t = [EvSetTimeout 1%positive (5 * 1000)%Z] /\
    live_timers (snd (refresh polling_client (init_machine JUndefined)))
      = [(1%positive, (5 * 1000)%Z)] /\
    timeoutId (snd (refresh polling_client (init_machine JUndefined)))
      = Some 1%positive.
Proof.
  apply (completed_refresh_schedules_one_timer polling_client
           (init_machine JUndefined)
           {| status := status_loaded;
              endpoint := Some "https://endpoint.com/default.json";
              configuration := testConfig; error := None |}
           (snd (refresh polling_client (init_machine JUndefined))) 5%Z).
  - reflexivity.
  - reflexivity.
  - lia.
  - reflexivity.
  - left. reflexivity.
  - vm_compute. reflexivity.
  - discriminate.
Defined.

(** X5: a run of [refresh] (no override) never calls [setTimeout] when the
    client is paused, or has no positive interval, or the run does not
    complete the pipeline (every endpoint failed, or the callback raised);
    and since the run cancels the timer it holds first, no timer is live
    afterwards if at most one was live before: polling stops. *)
Theorem refresh_without_rescheduling {W : Type} (c : ConfigClient W)
  (s : Machine W) :
  truthy (override c) = false ->
  paused s = true \/ polls c = false \/
  pipeline_completed (Some (fst (refresh c s))) = false ->
  exists t,
    trace (snd (refresh c s)) = trace s ++ t /\
    filter is_setTimeout t = [] /\
    (one_timer_at_most s -> live_timers (snd (refresh c s)) = []).
Proof.
  intros Hov Hwhy.
  destruct (refresh_schedule c s Hov) as (t & Htr & Hset & Hlive).
  assert (Hcond : pipeline_completed (Some (fst (refresh c s)))
                  && negb (paused s) && polls c = false).
  { destruct Hwhy as [-> | [-> | ->]]; cbn.
    - rewrite andb_false_r. reflexivity.
    - apply andb_false_r.
    - reflexivity. }
  rewrite Hcond in Hset, Hlive.
  exists t. repeat split; assumption.
Qed.

Lemma refresh_without_rescheduling_witness :
  exists t,
    trace (snd (refresh polling_client
                  (snd (run polling_client [OpRefresh; OpPause]
                          (init_machine JUndefined)))))
      = trace (snd (run polling_client [OpRefresh; OpPause]
                      (init_machine JUndefined))) ++ t /\
    filter is_setTimeout t = [] /\
    (one_timer_at_most
       (snd (run polling_client [OpRefresh; OpPause] (init_machine JUndefined))) ->
     live_timers
       (snd (refresh polling_client
               (snd (run polling_client [OpRefresh; OpPause]
                       (init_machine JUndefined)))))
       = []).
Proof.
  apply (refresh_without_rescheduling polling_client
           (snd (run polling_client [OpRefresh; OpPause]
                   (init_machine JUndefined)))).
  - reflexivity.
  - left. vm_compute. reflexivity.
Defined.

(** X6: what the fetch provider or the validator raises never leaves
    [refresh]: both are caught inside.  With the other providers within
    their contract (cache, Equality and Transform providers and reporting
    callbacks do not raise), a run of [refresh], in override mode or not,
    that raises [e] ends with the callback call that raised [e]; before
    it the run wrote nothing to the cache, called the callback at no other
    time and started no timer; and the [loaded] flag is as it was. *)
Theorem refresh_raises_what_callback_raised {W : Type} (c : ConfigClient W)
  (s : Machine W) (e : JsValue) (s' : Machine W) :
  refresh c s = (Raised e, s') ->
  exists t ev,
    trace s' = trace s ++ t ++ [EvCallback ev (Raised e)] /\
    filter is_cache_write t = [] /\
    filter is_callback_call t = [] /\
    filter is_setTimeout t = [] /\
    loaded s' = loaded s.
Proof.
  intros Hrun.
  destruct (truthy (override c)) eqn:Hov.
  - unfold refresh in Hrun. rewrite Hov in Hrun.
    unfold getOverride, bind, call_callback in Hrun.
    destruct (callback c _ (world s)) as [[r | x] w]; [ discriminate | ].
    injection Hrun as <- <-.
    eexists [], _. cbn. repeat split.
  - destruct (refresh_cases c s Hov)
      as (ct & tf & s1 & ft & Hct & Hset & Hft & _ & Htr & _ & _ & Hcase).
    cbv zeta in Hcase. rewrite Hrun in Hcase. cbn [fst snd] in Hcase.
    destruct (truthy (tf_configuration tf)); [ | discriminate ].
    destruct Hcase as (_ & vt & source & ro & pt & Hvt & Hfst & Htr' & _ & Hl).
    destruct ro as [r | x]; [ discriminate | ].
    injection Hfst as <-.
    eexists (ct ++ ft ++ vt ++ [_; _; _]), _.
    split; [ rewrite Htr', Htr, <- !app_assoc; cbn; reflexivity | ].
    rewrite !filter_app.
    rewrite (timer_calls_filtered is_cache_write ct),
      (timer_calls_filtered is_callback_call ct),
      (walk_calls_filtered is_cache_write ft),
      (walk_calls_filtered is_callback_call ft),
      (walk_calls_filtered is_setTimeout ft), Hset; auto.
    destruct Hvt as [(w & _ & ->) | (x & w & _ & ->)]; cbn; repeat split; exact Hl.
Qed.

Lemma refresh_raises_what_callback_raised_witness :
  exists t ev,
    trace (snd (refresh
                  (example_client JUndefined None test_endpoints good_fetch
                     defaultTransformer defaultValidator
                     (fun _ w => (Raised (JString "broken callback"), w)))
                  (init_machine JUndefined)))
      = [] ++ t ++ [EvCallback ev (Raised (JString "broken callback"))] /\
    filter is_cache_write t = [] /\
    filter is_callback_call t = [] /\
    filter is_setTimeout t = [] /\
    loaded (snd (refresh
                   (example_client JUndefined None test_endpoints good_fetch
                      defaultTransformer defaultValidator
                      (fun _ w => (Raised (JString "broken callback"), w)))
                   (init_machine JUndefined))) = false.
Proof.
  apply (refresh_raises_what_callback_raised
           (example_client JUndefined None test_endpoints good_fetch
              defaultTransformer defaultValidator
              (fun _ w => (Raised (JString "broken callback"), w)))
           (init_machine JUndefined) (JString "broken callback")).
  vm_compute. reflexivity.
Defined.

(** ** Histories and timers *)

Section HistoryTimers.
Context {W : Type}.
Variable c : ConfigClient W.

Lemma resume_from_none (s : Machine W) :
  live_timers s = [] -> one_timer_at_most (snd (resume c s)).
Proof.
  intros Hnil. unfold resume, bind, exec.
  change (one_timer_at_most (snd (setPolling c true (set_paused false s)))).
  apply setPolling_from_none. exact Hnil.
Qed.

Lemma pause_clears (s : Machine W) :
  one_timer_at_most s -> live_timers (snd (pause c s)) = [].
Proof.
  intros Hone. unfold pause, bind, exec.
  change (live_timers (snd (setPolling c false (set_paused true s))) = []).
  apply (setPolling_false_clears c (set_paused true s)). exact Hone.
Qed.

Lemma step_one_timer (o : Op) (s : Machine W) :
  is_resume o = false ->
  one_timer_at_most s -> one_timer_at_most (snd (step c o s)).
Proof.
  intros Ho Hone.
  pose proof (history_without_resume_one_timer c [o] s) as H.
  cbn [run forallb] in H. rewrite Ho in H.
  destruct (step c o s) as [r s1]. apply H; [ reflexivity | exact Hone ].
Qed.

Lemma disciplined_history (ops : list Op) :
  forall (quiet : bool) (s : Machine W),
  resumes_when_quiet quiet ops = true ->
  one_timer_at_most s ->
  (quiet = true -> live_timers s = []) ->
  one_timer_at_most (snd (run c ops s)).
Proof.
  induction ops as [ | o ops IH ]; intros quiet s Hops Hone Hquiet;
    [ exact Hone | ].
  cbn [run].
  destruct (step c o s) as [r s1] eqn:Hstep.
  assert (Hs1 : s1 = snd (step c o s)) by (rewrite Hstep; reflexivity).
  destruct (run c ops s1) as [rs s2] eqn:Hrun. cbn [snd].
  assert (Hgoal : forall q, resumes_when_quiet q ops = true ->
                            one_timer_at_most s1 ->
                            (q = true -> live_timers s1 = []) ->
                            one_timer_at_most s2).
  { intros q H1 H2 H3. specialize (IH q s1 H1 H2 H3).
    rewrite Hrun in IH. exact IH. }
  destruct o; cbn [resumes_when_quiet] in Hops.
  - apply (Hgoal false Hops); [ | discriminate ].
    rewrite Hs1. apply step_one_timer; [ reflexivity | exact Hone ].
  - apply (Hgoal false Hops); [ | discriminate ].
    rewrite Hs1. apply step_one_timer; [ reflexivity | exact Hone ].
  - apply (Hgoal true Hops).
    + rewrite Hs1. apply step_one_timer; [ reflexivity | exact Hone ].
    + intros _. rewrite Hs1. cbn [step snd]. apply pause_clears. exact Hone.
  - apply andb_true_iff in Hops. destruct Hops as [-> Hops].
    apply (Hgoal false Hops); [ | discriminate ].
    rewrite Hs1. cbn [step snd]. apply resume_from_none. apply Hquiet. reflexivity.
  - apply (Hgoal false Hops); [ | discriminate ].
    rewrite Hs1. apply step_one_timer; [ reflexivity | exact Hone ].
Qed.

End HistoryTimers.

Section ConstructedHistories.
Context {W : Type}.
Variable isEqual : JsValue -> JsValue -> bool.
Variable runtime_get_json : string -> W -> Outcome JsValue * W.
Variable new_DefaultCacheProvider : CacheProvider W.

(** X7: take a client the constructor has just returned, and a history of
    operations that run one at a time, each call awaited before the next
    call or timer firing; for a client constructed with [initialize], the
    refresh the constructor launched is the first operation of the
    history.  If [resume] is only called as the very first operation or
    directly after [pause] (so never directly after the launched refresh),
    at most one timer is live at the end, and the client holds its handle
    (so [pause] and [refresh] can cancel it).  Calls that overlap are
    outside this statement. *)
Theorem disciplined_history_one_timer
  (options : ConfigurationClientOptions W) (w : W) (c : ConfigClient W)
  (s0 : Machine W) (launched ops : list Op) :
  constructor isEqual runtime_get_json new_DefaultCacheProvider options w
    = inr (c, s0, launched) ->
  resumes_when_quiet true (launched ++ ops) = true ->
  one_timer_at_most (snd (run c (launched ++ ops) s0)).
Proof.
  intros Hnew Hops.
  destruct (constructor_built isEqual runtime_get_json new_DefaultCacheProvider
              options w c s0 launched Hnew) as (_ & _ & _ & _ & Hs0 & _).
  subst s0.
  apply (disciplined_history c (launched ++ ops) true (init_machine w) Hops).
  - left. reflexivity.
  - intros _. reflexivity.
Qed.

End ConstructedHistories.

Lemma disciplined_history_one_timer_witness :
  one_timer_at_most
    (snd (run
            (example_client JUndefined (Some 5%Z) test_endpoints third_fetch
               defaultTransformer defaultValidator echo_callback)
            ([OpRefresh]
             ++ [OpPause; OpResume; OpTimer 2%positive; OpGetConfiguration;
                 OpRefresh; OpPause; OpResume])
            (init_machine JUndefined))).
Proof.
  apply (disciplined_history_one_timer structural_equality good_fetch
           DefaultCacheProvider test_options JUndefined
           (example_client JUndefined (Some 5%Z) test_endpoints third_fetch
              defaultTransformer defaultValidator echo_callback)
           (init_machine JUndefined) [OpRefresh]
           [OpPause; OpResume; OpTimer 2%positive; OpGetConfiguration;
            OpRefresh; OpPause; OpResume]).
  - reflexivity.
  - reflexivity.
Defined.

(** X8: [pause] then [resume], on a client with a positive interval and at
    most one live timer: [pause] leaves no live timer and sets [paused];
    [resume] then clears [paused] and starts exactly one timer, for the
    full [interval * 1000] ms; neither fetches, touches the cache nor
    calls the callback (the log only grows by timer calls). *)
Theorem pause_then_resume {W : Type} (c : ConfigClient W) (s : Machine W)
  (n : Z) :
  interval c = Some n ->
  (0 < n)%Z ->
  one_timer_at_most s ->
  live_timers (snd (pause c s)) = [] /\
  paused (snd (pause c s)) = true /\
  live_timers (snd (resume c (snd (pause c s)))) =
    [(next_timer s, (n * 1000)%Z)] /\
  timeoutId (snd (resume c (snd (pause c s)))) = Some (next_timer s) /\
  paused (snd (resume c (snd (pause c s)))) = false /\
  world (snd (resume c (snd (pause c s)))) = world s /\
  exists t,
    trace (snd (resume c (snd (pause c s)))) = trace s ++ t /\
    forallb is_timer_call t = true /\
    filter is_setTimeout t = [EvSetTimeout (next_timer s) (n * 1000)%Z].
Proof.
  intros Hint Hpos Hone.
  assert (Hpolls : (0 <? n)%Z = true) by (apply Z.ltb_lt; exact Hpos).
  unfold pause, resume, bind, exec.
  cbn [fst snd].
  rewrite (setPolling_returns c false (set_paused true s)). cbn [fst snd].
  rewrite setPolling_false. cbn [snd timeoutId set_paused].
  destruct Hone as [Hnil | (id & ms & Hid & Hlive)].
  - destruct (timeoutId s) as [id | ]; unfold setPolling; cbn [andb];
      rewrite Hint, Hpolls; cbn; rewrite Hnil; cbn;
      repeat split; eexists; (split; [ rewrite <- ?app_assoc; reflexivity | ]);
      cbn; split; reflexivity.
  - rewrite Hid. unfold setPolling; cbn [andb].
    rewrite Hint, Hpolls. cbn. rewrite Hlive. cbn. rewrite Pos.eqb_refl. cbn.
    repeat split. eexists. split; [ rewrite <- app_assoc; reflexivity | ].
    cbn. split; reflexivity.
Qed.

Lemma pause_then_resume_witness :
  live_timers (snd (pause polling_client
                      (snd (refresh polling_client (init_machine JUndefined)))))
    = [] /\
  paused (snd (pause polling_client
                 (snd (refresh polling_client (init_machine JUndefined)))))
    = true /\
  live_timers
    (snd (resume polling_client
            (snd (pause polling_client
                    (snd (refresh polling_client (init_machine JUndefined)))))))
    = [(next_timer (snd (refresh polling_client (init_machine JUndefined))),
        (5 * 1000)%Z)] /\
  timeoutId
    (snd (resume polling_client
            (snd (pause polling_client
                    (snd (refresh polling_client (init_machine JUndefined)))))))
    = Some (next_timer (snd (refresh polling_client (init_machine JUndefined)))) /\
  paused
    (snd (resume polling_client
            (snd (pause polling_client
                    (snd (refresh polling_client (init_machine JUndefined)))))))
    = false /\
  world
    (snd (resume polling_client
            (snd (pause polling_client
                    (snd (refresh polling_client (init_machine JUndefined)))))))
    = world (snd (refresh polling_client (init_machine JUndefined))) /\
  exists t,
    trace
      (snd (resume polling_client
              (snd (pause polling_client
                      (snd (refresh polling_client (init_machine JUndefined)))))))
      = trace (snd (refresh polling_client (init_machine JUndefined))) ++ t /\
    forallb is_timer_call t = true /\
    filter is_setTimeout t =
      [EvSetTimeout
         (next_timer (snd (refresh polling_client (init_machine JUndefined))))
         (5 * 1000)%Z].
Proof.
  apply (pause_then_resume polling_client
           (snd (refresh polling_client (init_machine JUndefined))) 5%Z).
  - reflexivity.
  - lia.
  - right. exists 1%positive, 5000%Z. split; vm_compute; reflexivity.
Defined.

(** ** Invariants of histories *)

Section HistoryInvariants.
Context {W : Type}.
Variable c : ConfigClient W.

(** An invariant of the operations allowed by [ok] is an invariant of the
    histories made of them. *)
Lemma run_preserves (ok : Op -> bool) (I : Machine W -> Prop) :
  (forall o s, ok o = true -> I s -> I (snd (step c o s))) ->
  forall ops s, forallb ok ops = true -> I s -> I (snd (run c ops s)).
Proof.
  intros Hstep. induction ops as [ | o ops IH ]; intros s Hops HI; [ exact HI | ].
  cbn in Hops. apply andb_true_iff in Hops. destruct Hops as [Ho Hops].
  cbn [run]. specialize (Hstep o s Ho HI).
  destruct (step c o s) as [r s1]. cbn [snd] in Hstep.
  specialize (IH s1 Hops Hstep).
  destruct (run c ops s1) as [rs s2]. exact IH.
Qed.

(** What [getOverride] does to the machine. *)
Lemma getOverride_frame (s : Machine W) :
  exists ro,
    trace (snd (getOverride c s)) = trace s ++ [EvCallback (override_event c) ro] /\
    live_timers (snd (getOverride c s)) = live_timers s /\
    timeoutId (snd (getOverride c s)) = timeoutId s /\
    fst (getOverride c s) =
      match ro with
      | Returned r =>
          Returned (with_configuration (override_event c) (js_or r (override c)))
      | Raised e => Raised e
      end.
Proof.
  unfold getOverride, bind, call_callback, override_event.
  destruct (callback c _ (world s)) as [[r | e] w].
  - exists (Returned r). cbn. repeat split.
  - exists (Raised e). cbn. repeat split.
Qed.

(** Without a positive interval no operation starts a timer. *)
Lemma step_never_polls (o : Op) (s : Machine W) :
  polls c = false ->
  live_timers s = [] /\ filter is_setTimeout (trace s) = [] ->
  live_timers (snd (step c o s)) = [] /\
  filter is_setTimeout (trace (snd (step c o s))) = [].
Proof.
  intros Hpolls [Hlive Hset].
  assert (Hrefresh : forall s1 : Machine W,
             live_timers s1 = [] -> filter is_setTimeout (trace s1) = [] ->
             live_timers (snd (refresh c s1)) = [] /\
             filter is_setTimeout (trace (snd (refresh c s1))) = []).
  { intros s1 Hl1 Hs1.
    destruct (truthy (override c)) eqn:Hov.
    - unfold refresh. rewrite Hov.
      destruct (getOverride_frame s1) as (ro & Htr & Hl & _).
      rewrite Htr, Hl, filter_app, Hs1. split; [ exact Hl1 | reflexivity ].
    - destruct (refresh_schedule c s1 Hov) as (t & Htr & Hs & Hl).
      rewrite Hpolls, andb_false_r in Hs, Hl.
      split; [ apply Hl; left; exact Hl1 | ].
      rewrite Htr, filter_app, Hs1, Hs. reflexivity. }
  destruct o; cbn [step].
  - destruct (truthy (override c)) eqn:Hov.
    + unfold getConfiguration. rewrite Hov.
      destruct (getOverride_frame s) as (ro & Htr & Hl & _).
      destruct (getOverride c s) as [r s1]. cbn [snd] in *.
      rewrite Htr, Hl, filter_app, Hset. split; [ exact Hlive | reflexivity ].
    + rewrite (getConfiguration_unfold c s Hov).
      destruct (read (cache c) (world s)) as [source w]. cbv zeta.
      destruct (truthy source).
      * cbn. rewrite filter_app, Hset. split; [ exact Hlive | reflexivity ].
      * specialize (Hrefresh (log_event (EvCacheRead source) (set_world w s))).
        destruct (refresh c _) as [r s1]. cbn [snd] in *.
        apply Hrefresh; [ exact Hlive | ].
        cbn. rewrite filter_app, Hset. reflexivity.
  - specialize (Hrefresh s Hlive Hset).
    destruct (refresh c s) as [r s1]. exact Hrefresh.
  - cbn [snd]. unfold pause, bind, exec.
    rewrite (setPolling_returns c false (set_paused true s)). cbn [snd].
    rewrite setPolling_false. cbn [snd timeoutId set_paused].
    destruct (timeoutId s); cbn; rewrite ?filter_app, Hset, Hlive;
      split; reflexivity.
  - cbn [snd]. unfold resume, bind, exec.
    rewrite (setPolling_returns c true (set_paused false s)). cbn [snd].
    rewrite setPolling_true, Hpolls. cbn [timeoutId set_paused].
    destruct (timeoutId s); cbn; rewrite ?filter_app, Hset, Hlive;
      split; reflexivity.
  - unfold timer_is_live. rewrite Hlive. cbn. split; assumption.
Qed.

(** In override mode, as long as [resume] finds no positive interval, an
    operation calls the callback with the override event and does nothing
    else. *)
Lemma step_override (o : Op) (s : Machine W) :
  truthy (override c) = true ->
  polls c = false \/ is_resume o = false ->
  timeoutId s = None /\ live_timers s = [] /\
  Forall (fun e => exists ro, e = EvCallback (override_event c) ro) (trace s) ->
  timeoutId (snd (step c o s)) = None /\
  live_timers (snd (step c o s)) = [] /\
  Forall (fun e => exists ro, e = EvCallback (override_event c) ro)
    (trace (snd (step c o s))).
Proof.
  intros Hov Hok (Hid & Hlive & Htrace).
  assert (Hget : timeoutId (snd (getOverride c s)) = None /\
                 live_timers (snd (getOverride c s)) = [] /\
                 Forall (fun e => exists ro, e = EvCallback (override_event c) ro)
                   (trace (snd (getOverride c s)))).
  { destruct (getOverride_frame s) as (ro & Htr & Hl & Ht & _).
    rewrite Htr, Hl, Ht.
    split; [ exact Hid | split; [ exact Hlive | ] ].
    apply Forall_app. split; [ exact Htrace | ].
    constructor; [ exists ro; reflexivity | constructor ]. }
  destruct o; cbn [step].
  - unfold getConfiguration. rewrite Hov.
    destruct (getOverride c s) as [r s1]. exact Hget.
  - unfold refresh. rewrite Hov.
    destruct (getOverride c s) as [r s1]. exact Hget.
  - cbn [snd]. unfold pause, bind, exec.
    rewrite (setPolling_returns c false (set_paused true s)). cbn [snd].
    rewrite setPolling_false. cbn [snd timeoutId set_paused]. rewrite Hid.
    cbn. repeat split; assumption.
  - destruct Hok as [Hpolls | Hres]; [ | discriminate ].
    cbn [snd]. unfold resume, bind, exec.
    rewrite (setPolling_returns c true (set_paused false s)). cbn [snd].
    rewrite setPolling_true, Hpolls. cbn [timeoutId set_paused]. rewrite Hid.
    cbn. repeat split; assumption.
  - unfold timer_is_live. rewrite Hlive. cbn. repeat split; assumption.
Qed.

End HistoryInvariants.

(** X9: a client without a positive interval (none, [0], or a negative
    one) never has a timer: in every history from the constructor's state,
    with any operations, [resume] included, and in override mode or not,
    [setTimeout] is never called and no timer is live. *)
Theorem no_interval_no_timer {W : Type} (c : ConfigClient W) (w : W)
  (ops : list Op) :
  polls c = false ->
  live_timers (snd (run c ops (init_machine w))) = [] /\
  filter is_setTimeout (trace (snd (run c ops (init_machine w)))) = [].
Proof.
  intros Hpolls.
  apply (run_preserves c (fun _ => true)
           (fun s => live_timers s = [] /\ filter is_setTimeout (trace s) = [])).
  - intros o s _ HI. apply step_never_polls; assumption.
  - clear. induction ops; [ reflexivity | exact IHops ].
  - split; reflexivity.
Qed.

Lemma no_interval_no_timer_witness :
  live_timers
    (snd (run failing_client
            [OpResume; OpRefresh; OpResume; OpGetConfiguration; OpPause]
            (init_machine JUndefined))) = [] /\
  filter is_setTimeout
    (trace (snd (run failing_client
                   [OpResume; OpRefresh; OpResume; OpGetConfiguration; OpPause]
                   (init_machine JUndefined)))) = [].
Proof.
  apply (no_interval_no_timer failing_client JUndefined
           [OpResume; OpRefresh; OpResume; OpGetConfiguration; OpPause]).
  reflexivity.
Defined.

(** X10: in override mode, every history from the constructor's state in
    which [resume] is not called, or which belongs to a client without a
    positive interval, consists of callback calls with the override event
    [{configuration: override, status: 'cached'}] and of nothing else: no
    fetch, no report, no validation, no cache read or write, no timer
    call; no timer is live and the client holds no handle. *)
Theorem override_history_only_calls_back {W : Type} (c : ConfigClient W)
  (w : W) (ops : list Op) :
  truthy (override c) = true ->
  polls c = false \/ forallb (fun o => negb (is_resume o)) ops = true ->
  timeoutId (snd (run c ops (init_machine w))) = None /\
  live_timers (snd (run c ops (init_machine w))) = [] /\
  Forall (fun e => exists ro, e = EvCallback (override_event c) ro)
    (trace (snd (run c ops (init_machine w)))).
Proof.
  intros Hov Hok.
  apply (run_preserves c
           (fun o => negb (polls c) || negb (is_resume o))
           (fun s => timeoutId s = None /\ live_timers s = [] /\
                     Forall (fun e => exists ro, e = EvCallback (override_event c) ro)
                       (trace s))).
  - intros o s Ho HI. apply step_override; [ exact Hov | | exact HI ].
    apply orb_true_iff in Ho. destruct Ho as [Ho | Ho].
    + left. apply negb_true_iff. exact Ho.
    + right. apply negb_true_iff. exact Ho.
  - destruct Hok as [Hpolls | Hops].
    + rewrite Hpolls. cbn. clear. induction ops; [ reflexivity | exact IHops ].
    + rewrite forallb_forall in Hops |- *. intros o Ho.
      rewrite (Hops o Ho). apply orb_true_r.
  - repeat split. constructor.
Qed.

Lemma override_history_only_calls_back_witness :
  timeoutId
    (snd (run override_client [OpGetConfiguration; OpRefresh; OpPause; OpRefresh]
            (init_machine JUndefined))) = None /\
  live_timers
    (snd (run override_client [OpGetConfiguration; OpRefresh; OpPause; OpRefresh]
            (init_machine JUndefined))) = [] /\
  Forall (fun e => exists ro, e = EvCallback (override_event override_client) ro)
    (trace
       (snd (run override_client
               [OpGetConfiguration; OpRefresh; OpPause; OpRefresh]
               (init_machine JUndefined)))).
Proof.
  apply (override_history_only_calls_back override_client JUndefined
           [OpGetConfiguration; OpRefresh; OpPause; OpRefresh]).
  - reflexivity.
  - right. reflexivity.
Defined.

(** ** The [loaded] status in a history *)

Section LoadedOnce.
Context {W : Type}.
Variable c : ConfigClient W.

Lemma getOverride_loaded (s : Machine W) :
  reports_loaded (Some (fst (getOverride c s))) = false /\
  (loaded s = true -> loaded (snd (getOverride c s)) = true).
Proof.
  unfold getOverride, bind, call_callback.
  destruct (callback c _ (world s)) as [[r | e] w]; cbn; split; auto.
Qed.

Lemma refresh_reports_loaded (s : Machine W) :
  (loaded s = true -> reports_loaded (Some (fst (refresh c s))) = false) /\
  (loaded s = true -> loaded (snd (refresh c s)) = true) /\
  (reports_loaded (Some (fst (refresh c s))) = true ->
   loaded (snd (refresh c s)) = true).
Proof.
  destruct (truthy (override c)) eqn:Hov.
  - unfold refresh. rewrite Hov.
    destruct (getOverride_loaded s) as [H1 H2].
    split; [ intros _; exact H1 | split; [ exact H2 | ] ].
    rewrite H1. discriminate.
  - pose proof (refresh_loaded c s Hov) as Hl.
    destruct (refresh_cases c s Hov)
      as (ct & tf & s1 & ft & _ & _ & _ & _ & _ & _ & _ & Hcase).
    cbv zeta in Hcase.
    split; [ | split ].
    + intros Hs.
      destruct (truthy (tf_configuration tf)).
      * destruct Hcase as (_ & vt & source & ro & pt & _ & Hfst & _).
        rewrite Hfst, Hs. destruct ro as [r | e]; cbn; [ | reflexivity ].
        destruct (equality c source (transformer c (tf_configuration tf)));
          reflexivity.
      * rewrite Hcase. reflexivity.
    + intros Hs. rewrite Hl, Hs. reflexivity.
    + intros Hr. rewrite Hl.
      destruct (fst (refresh c s)) as [ev | e]; cbn in Hr |- *; [ | discriminate ].
      destruct (status ev); try discriminate; apply orb_true_r.
Qed.

Lemma step_reports_loaded (o : Op) (s : Machine W) :
  (loaded s = true -> reports_loaded (fst (step c o s)) = false) /\
  (loaded s = true -> loaded (snd (step c o s)) = true) /\
  (reports_loaded (fst (step c o s)) = true ->
   loaded (snd (step c o s)) = true).
Proof.
  destruct o; cbn [step].
  - destruct (truthy (override c)) eqn:Hov.
    + unfold getConfiguration. rewrite Hov.
      destruct (getOverride_loaded s) as [H1 H2].
      destruct (getOverride c s) as [r s1]. cbn [fst snd] in *.
      split; [ intros _; exact H1 | split; [ exact H2 | ] ].
      rewrite H1. discriminate.
    + rewrite (getConfiguration_unfold c s Hov).
      destruct (read (cache c) (world s)) as [source w]. cbv zeta.
      destruct (truthy source).
      * cbn. repeat split; auto. discriminate.
      * pose proof (refresh_reports_loaded
                      (log_event (EvCacheRead source) (set_world w s))) as H.
        destruct (refresh c _) as [r s1]. exact H.
  - pose proof (refresh_reports_loaded s) as H.
    destruct (refresh c s) as [r s1]. exact H.
  - cbn [fst snd reports_loaded]. unfold pause, bind, exec.
    rewrite (setPolling_returns c false (set_paused true s)). cbn [snd].
    destruct (setPolling_frame c false (set_paused true s))
      as (pt & _ & _ & _ & _ & Hl & _).
    rewrite Hl. cbn. repeat split; auto. discriminate.
  - cbn [fst snd reports_loaded]. unfold resume, bind, exec.
    rewrite (setPolling_returns c true (set_paused false s)). cbn [snd].
    destruct (setPolling_frame c true (set_paused false s))
      as (pt & _ & _ & _ & _ & Hl & _).
    rewrite Hl. cbn. repeat split; auto. discriminate.
  - destruct (timer_is_live id s).
    + pose proof (refresh_reports_loaded (expire id s)) as H.
      destruct (refresh c (expire id s)) as [r s1]. exact H.
    + cbn. repeat split; auto. discriminate.
Qed.

Lemma run_reports_loaded (ops : list Op) :
  forall s : Machine W,
  length (filter reports_loaded (fst (run c ops s)))
    <= (if loaded s then 0 else 1).
Proof.
  induction ops as [ | o ops IH ]; intros s.
  - cbn. destruct (loaded s); lia.
  - cbn [run].
    destruct (step_reports_loaded o s) as (Ha & Hb & Hc).
    destruct (step c o s) as [r s1]. cbn [fst snd] in Ha, Hb, Hc.
    specialize (IH s1).
    destruct (run c ops s1) as [rs s2]. cbn [fst filter] in *.
    destruct (loaded s) eqn:Hs.
    + rewrite (Ha eq_refl). rewrite (Hb eq_refl) in IH. exact IH.
    + destruct (reports_loaded r) eqn:Hr.
      * rewrite (Hc eq_refl) in IH. cbn [length]. lia.
      * destruct (loaded s1); lia.
Qed.

End LoadedOnce.

(** X11: in every history of a client whose operations run one at a
    time (each call awaited before the next call or timer firing, the
    refresh launched by [initialize] included as first operation), at most
    one operation resolves with an event of status [loaded]: once a
    pipeline run has completed, every later one reports [updated] or
    [equal], and override mode reports [cached] only.  Calls that overlap
    are outside this statement: the status is computed before the callback
    is awaited and [loaded] is set after it. *)
Theorem loaded_reported_at_most_once {W : Type} (c : ConfigClient W) (w : W)
  (ops : list Op) :
  length (filter reports_loaded (fst (run c ops (init_machine w)))) <= 1.
Proof. exact (run_reports_loaded c ops (init_machine w)). Qed.

(** ** The cache between runs *)

Section CacheBetweenRuns.
Context {W : Type}.
Variable c : ConfigClient W.

(** A completed run of [refresh], with the worlds the providers saw. *)
Lemma refresh_completed_world (s : Machine W) (ev : ConfigurationEvent)
  (s' : Machine W) :
  truthy (override c) = false ->
  refresh c s = (Returned ev, s') ->
  status ev <> status_error ->
  exists tf s1 source w3 r w4,
    tryFetch c (snd (setPolling c false s)) = (Returned tf, s1) /\
    world (snd (setPolling c false s)) = world s /\
    read (cache c) (validated_world c (tf_configuration tf) (world s1))
      = (source, w3) /\
    callback c
      (pipeline_event (loaded s)
         (negb (equality c source (transformer c (tf_configuration tf))))
         (tf_endpoint tf) (transformer c (tf_configuration tf))) w3
      = (Returned r, w4) /\
    ev = with_configuration
           (pipeline_event (loaded s)
              (negb (equality c source (transformer c (tf_configuration tf))))
              (tf_endpoint tf) (transformer c (tf_configuration tf)))
           (js_or r (transformer c (tf_configuration tf))) /\
    world s' = write (cache c) (configuration ev) w4 /\
    loaded s' = true.
Proof.
  intros Hov Hrun Hstatus.
  destruct (setPolling_frame c false s) as (ct & _ & _ & _ & Hw0 & Hl0 & _).
  destruct (tryFetch_returns c (snd (setPolling c false s)))
    as (tf & s1 & ft & Htf & (_ & Hl1 & _) & _).
  rewrite (refresh_unfold c s Hov) in Hrun. cbv zeta in Hrun.
  rewrite Htf in Hrun.
  destruct (tf_error tf) as [err | ].
  { injection Hrun as <- _. exfalso. apply Hstatus. reflexivity. }
  exists tf, s1.
  assert (Hl : loaded s1 = loaded s) by congruence.
  unfold validated_world.
  destruct (validator c (tf_configuration tf) (world s1)) as [[u | e] w];
    cbn [world log_event set_world] in Hrun;
    destruct (read (cache c) _) as [source w3];
    cbn [loaded log_event set_world] in Hrun; rewrite Hl in Hrun;
    destruct (callback c _ w3) as [[r | e'] w4] eqn:Hcb; try discriminate;
    injection Hrun as <- <-;
    exists source, w3, r, w4;
    (split; [ exact Htf | ]); (split; [ exact Hw0 | ]);
    (split; [ reflexivity | ]); (split; [ exact Hcb | ]);
    (split; [ reflexivity | ]);
    cbn [paused set_loaded log_event set_world];
    (destruct (negb (paused s1));
     [ match goal with
       | |- context [setPolling c true ?m] =>
           destruct (setPolling_frame c true m) as (pt & _ & _ & _ & Hw & Hl5 & _)
       end;
       rewrite Hw, Hl5; split; reflexivity
     | split; reflexivity ]).
Qed.

(** The endpoint walk leaves the cache content alone when the fetch
    provider and the reporting callbacks do. *)
Lemma tryFetch_loop_cache_view (eps : list string) :
  cache_stable c ->
  forall (data : JsValue) (s : Machine W),
  cache_view c (world (snd (tryFetch_loop c eps data s))) = cache_view c (world s).
Proof.
  intros (Hf & Hfe & Hue & _ & _).
  induction eps as [ | ep eps IH ]; intros data s; [ reflexivity | ].
  rewrite tryFetch_loop_cons.
  destruct (truthy_string ep); [ | reflexivity ].
  pose proof (Hf ep (world s)) as Hfetch.
  destruct (fetch c ep (world s)) as [[d | x] w]; cbn [snd] in Hfetch; cbn zeta.
  - destruct (truthy d); [ exact Hfetch | ].
    rewrite IH. cbn [world log_event set_world]. rewrite Hue. exact Hfetch.
  - rewrite IH. cbn [world log_event set_world]. rewrite Hfe. exact Hfetch.
Qed.

Lemma validated_world_cache_view (data : JsValue) (w : W) :
  cache_stable c ->
  cache_view c (validated_world c data w) = cache_view c w.
Proof.
  intros (_ & _ & _ & Hv & Hve). unfold validated_world.
  pose proof (Hv data w) as H.
  destruct (validator c data w) as [[u | e] w']; cbn [snd] in H; [ exact H | ].
  rewrite Hve. exact H.
Qed.

End CacheBetweenRuns.

(** X12: after a run of [refresh] that completed the pipeline with a
    truthy final configuration, on a cache that gives back what was
    written last, the next [getConfiguration] resolves with status
    [cached] and that same configuration, after one cache read and nothing
    else: no fetch, no callback, no cache write, and the timers are as
    they were. *)
Theorem getConfiguration_after_refresh_is_cached {W : Type}
  (c : ConfigClient W) (s : Machine W) (ev : ConfigurationEvent)
  (s' : Machine W) :
  truthy (override c) = false ->
  cache_keeps_writes c ->
  refresh c s = (Returned ev, s') ->
  status ev <> status_error ->
  truthy (configuration ev) = true ->
  exists s'',
    getConfiguration c s' =
      (Returned {| status := status_cached; endpoint := None;
                   configuration := configuration ev; error := None |}, s'') /\
    trace s'' = trace s' ++ [EvCacheRead (configuration ev)] /\
    live_timers s'' = live_timers s' /\
    timeoutId s'' = timeoutId s' /\
    loaded s'' = true.
Proof.
  intros Hov Hlaw Hrun Hstatus Hcfg.
  destruct (refresh_completed_world c s ev s' Hov Hrun Hstatus)
    as (tf & s1 & source & w3 & r & w4 & _ & _ & _ & _ & _ & Hw & Hl).
  rewrite (getConfiguration_unfold c s' Hov).
  pose proof (Hlaw (configuration ev) w4) as Hread.
  unfold cache_view in Hread. rewrite <- Hw in Hread.
  destruct (read (cache c) (world s')) as [v w]. cbn [fst] in Hread. subst v.
  cbv zeta. rewrite Hcfg.
  eexists. split; [ reflexivity | ]. cbn. repeat split. exact Hl.
Qed.

Lemma getConfiguration_after_refresh_is_cached_witness :
  exists s'',
    getConfiguration polling_client
      (snd (refresh polling_client (init_machine JUndefined))) =
      (Returned {| status := status_cached; endpoint := None;
                   configuration := testConfig; error := None |}, s'') /\
    trace s'' =
      trace (snd (refresh polling_client (init_machine JUndefined)))
      ++ [EvCacheRead testConfig] /\
    live_timers s'' =
      live_timers (snd (refresh polling_client (init_machine JUndefined))) /\
    timeoutId s'' =
      timeoutId (snd (refresh polling_client (init_machine JUndefined))) /\
    loaded s'' = true.
Proof.
  apply (getConfiguration_after_refresh_is_cached polling_client
           (init_machine JUndefined)
           {| status := status_loaded;
              endpoint := Some "https://endpoint.com/default.json";
              configuration := testConfig; error := None |}
           (snd (refresh polling_client (init_machine JUndefined)))).
  - reflexivity.
  - intros v w. reflexivity.
  - vm_compute. reflexivity.
  - discriminate.
  - reflexivity.
Defined.

(** X13: two runs of [refresh] in a row that both complete the pipeline,
    on a cache that gives back what was written last and that the fetch
    provider, the reporting callbacks and the validator leave alone: the
    status of the second event is [equal] when the Equality provider
    accepts the configuration of the first event (the value that run wrote)
    against the transformed winning value of the second run, and [updated]
    otherwise; it is never [loaded]. *)
Theorem second_refresh_compares_with_written {W : Type} (c : ConfigClient W)
  (s : Machine W) (ev1 : ConfigurationEvent) (s1 : Machine W)
  (ev2 : ConfigurationEvent) (s2 : Machine W) :
  truthy (override c) = false ->
  cache_keeps_writes c ->
  cache_stable c ->
  refresh c s = (Returned ev1, s1) ->
  status ev1 <> status_error ->
  refresh c s1 = (Returned ev2, s2) ->
  status ev2 <> status_error ->
  exists tf2 s1',
    tryFetch c (snd (setPolling c false s1)) = (Returned tf2, s1') /\
    status ev2 =
      (if equality c (configuration ev1) (transformer c (tf_configuration tf2))
       then status_equal else status_updated).
Proof.
  intros Hov Hlaw Hstable Hrun1 Hst1 Hrun2 Hst2.
  destruct (refresh_completed_world c s ev1 s1 Hov Hrun1 Hst1)
    as (tf1 & s0 & source1 & w3 & r1 & w4 & _ & _ & _ & _ & _ & Hw1 & Hl1).
  destruct (refresh_completed_world c s1 ev2 s2 Hov Hrun2 Hst2)
    as (tf2 & s1' & source2 & w3' & r2 & w4' & Htf2 & Hw0 & Hread & _ & Hev2 & _ & _).
  exists tf2, s1'. split; [ exact Htf2 | ].
  assert (Hsrc : source2 = configuration ev1).
  { assert (H : cache_view c (validated_world c (tf_configuration tf2) (world s1'))
                = source2).
    { unfold cache_view. rewrite Hread. reflexivity. }
    rewrite <- H, (validated_world_cache_view c _ _ Hstable).
    assert (Hs1' : s1' = snd (tryFetch c (snd (setPolling c false s1)))).
    { rewrite Htf2. reflexivity. }
    rewrite Hs1'. unfold tryFetch, bind.
    pose proof (tryFetch_loop_cache_view c (endpoints c) Hstable JUndefined
                  (snd (setPolling c false s1))) as Hloop.
    destruct (tryFetch_loop c (endpoints c) JUndefined _) as [[p | x] sx];
      cbn [snd ret] in Hloop |- *; rewrite Hloop, Hw0, Hw1; apply Hlaw. }
  subst source2. rewrite Hev2, Hl1. cbn.
  destruct (equality c (configuration ev1) (transformer c (tf_configuration tf2)));
    reflexivity.
Qed.

Lemma second_refresh_compares_with_written_witness :
  exists tf2 s1',
    tryFetch polling_client
      (snd (setPolling polling_client false
              (snd (refresh polling_client (init_machine JUndefined)))))
      = (Returned tf2, s1') /\
    status_equal =
      (if equality polling_client testConfig
            (transformer polling_client (tf_configuration tf2))
       then status_equal else status_updated).
Proof.
  apply (second_refresh_compares_with_written polling_client
           (init_machine JUndefined)
           {| status := status_loaded;
              endpoint := Some "https://endpoint.com/default.json";
              configuration := testConfig; error := None |}
           (snd (refresh polling_client (init_machine JUndefined)))
           {| status := status_equal;
              endpoint := Some "https://endpoint.com/default.json";
              configuration := testConfig; error := None |}
           (snd (refresh polling_client
                   (snd (refresh polling_client (init_machine JUndefined)))))).
  - reflexivity.
  - intros v w. reflexivity.
  - repeat split; intros; try reflexivity.
    cbn. unfold third_fetch.
    destruct (ep =? _); [ reflexivity | ].
    destruct (ep =? _); reflexivity.
  - vm_compute. reflexivity.
  - discriminate.
  - vm_compute. reflexivity.
  - discriminate.
Defined.

(** ** Firing timers, the default transformer, the constructor *)

(** X14: when the runtime fires the live timer the client holds, the
    callback [() => this.refresh()] runs; if that run completes the
    pipeline on a client that is not paused and has a positive interval,
    exactly one timer is live afterwards, a new one for
    [interval * 1000] ms, and the client holds its handle: polling goes
    on, one timer at a time. *)
Theorem timer_firing_reschedules {W : Type} (c : ConfigClient W)
  (s : Machine W) (id : TimerId) (ev : ConfigurationEvent) (s' : Machine W)
  (n : Z) :
  truthy (override c) = false ->
  interval c = Some n ->
  (0 < n)%Z ->
  paused s = false ->
  one_timer_at_most s ->
  timer_is_live id s = true ->
  step c (OpTimer id) s = (Some (Returned ev), s') ->
  status ev <> status_error ->
  live_timers s' = [(next_timer s, (n * 1000)%Z)] /\
  timeoutId s' = Some (next_timer s) /\
  exists t,
    trace s' = trace s ++ t /\
    filter is_setTimeout t = [EvSetTimeout (next_timer s) (n * 1000)%Z].
Proof.
  intros Hov Hint Hpos Hpaused Hone Hlive Hstep Hstatus.
  cbn [step] in Hstep. rewrite Hlive in Hstep.
  destruct (refresh c (expire id s)) as [r s1] eqn:Hrun.
  injection Hstep as -> ->.
  destruct (refresh_completed_timer c (expire id s) ev s' n
              Hov Hint Hpos Hpaused (expire_one_timer id s Hone) Hrun Hstatus)
    as (t & Htr & Hset & Hl & Hid).
  cbn [next_timer expire trace] in Htr, Hset, Hl, Hid.
  split; [ exact Hl | split; [ exact Hid | ] ].
  exists t. split; assumption.
Qed.

Lemma timer_firing_reschedules_witness :
  live_timers
    (snd (step polling_client (OpTimer 1%positive)
            (snd (refresh polling_client (init_machine JUndefined)))))
    = [(next_timer (snd (refresh polling_client (init_machine JUndefined))),
        (5 * 1000)%Z)] /\
  timeoutId
    (snd (step polling_client (OpTimer 1%positive)
            (snd (refresh polling_client (init_machine JUndefined)))))
    = Some (next_timer (snd (refresh polling_client (init_machine JUndefined)))) /\
  exists t,
    trace
      (snd (step polling_client (OpTimer 1%positive)
              (snd (refresh polling_client (init_machine JUndefined)))))
      = trace (snd (refresh polling_client (init_machine JUndefined))) ++ t /\
    filter is_setTimeout t =
      [EvSetTimeout
         (next_timer (snd (refresh polling_client (init_machine JUndefined))))
         (5 * 1000)%Z].
Proof.
  apply (timer_firing_reschedules polling_client
           (snd (refresh polling_client (init_machine JUndefined)))
           1%positive
           {| status := status_equal;
              endpoint := Some "https://endpoint.com/default.json";
              configuration := testConfig; error := None |}
           (snd (step polling_client (OpTimer 1%positive)
                   (snd (refresh polling_client (init_machine JUndefined)))))
           5%Z).
  - reflexivity.
  - reflexivity.
  - lia.
  - reflexivity.
  - right. exists 1%positive, 5000%Z. split; vm_compute; reflexivity.
  - vm_compute. reflexivity.
  - vm_compute. reflexivity.
  - discriminate.
Defined.

(** X15: with the default Transform provider, the configuration of every
    event of a completed pipeline run is truthy: the winning raw value is
    truthy, the default transformer returns it as it is, and a falsy
    return of the callback leaves it in place.  Only the error event has
    no configuration. *)
Theorem default_transformer_keeps_configuration {W : Type}
  (c : ConfigClient W) (s : Machine W) (ev : ConfigurationEvent)
  (s' : Machine W) :
  truthy (override c) = false ->
  transformer c = defaultTransformer ->
  refresh c s = (Returned ev, s') ->
  (status ev = status_error -> configuration ev = JUndefined) /\
  (status ev <> status_error -> truthy (configuration ev) = true).
Proof.
  intros Hov Hdef Hrun. split.
  - intros Hst. destruct (refresh_event c s ev s' Hov Hrun) as [Hwf _].
    unfold well_formed_event in Hwf. rewrite Hst in Hwf. apply Hwf.
  - intros Hst.
    destruct (refresh_completed_inv c s ev s' Hov Hrun Hst)
      as (ct & ft & vt & data & source & r & pt & _ & _ & _ & _ & _ & Hdata & _
          & _ & Hev & _).
    cbv zeta in Hev. rewrite Hev. cbn.
    apply js_or_truthy. rewrite Hdef. unfold defaultTransformer.
    rewrite Hdata. exact Hdata.
Qed.

Lemma default_transformer_keeps_configuration_witness :
  (status_loaded = status_error -> testConfig = JUndefined) /\
  (status_loaded <> status_error -> truthy testConfig = true).
Proof.
  apply (default_transformer_keeps_configuration
           (example_client JUndefined None test_endpoints good_fetch
              defaultTransformer defaultValidator silent_callback)
           (init_machine JUndefined)
           {| status := status_loaded;
              endpoint := Some "https://endpoint.com/abcd/1.0.0-beta.json";
              configuration := testConfig; error := None |}
           (snd (refresh
                   (example_client JUndefined None test_endpoints good_fetch
                      defaultTransformer defaultValidator silent_callback)
                   (init_machine JUndefined)))).
  - reflexivity.
  - reflexivity.
  - vm_compute. reflexivity.
Defined.

Section ConstructorValidation.
Context {W : Type}.
Variable isEqual : JsValue -> JsValue -> bool.
Variable runtime_get_json : string -> W -> Outcome JsValue * W.
Variable new_DefaultCacheProvider : CacheProvider W.

(** X16: a client the constructor returns never walks an empty endpoint
    list.  Its endpoint list is the list of the options, which has a first
    endpoint, and every [tryFetch] of it begins by fetching that endpoint,
    with the fetch provider of the options or the default one; unless the
    first endpoint is the empty string, in which case [tryFetch] calls
    nothing and returns the error of an exhausted list. *)
Theorem constructed_client_fetches_first
  (options : ConfigurationClientOptions W) (w : W) (c : ConfigClient W)
  (s0 : Machine W) (launched : list Op) :
  constructor isEqual runtime_get_json new_DefaultCacheProvider options w
    = inr (c, s0, launched) ->
  exists ep rest,
    opt_endpoints options = Some (ep :: rest) /\
    endpoints c = ep :: rest /\
    fetch c = or_default (opt_fetch options)
                (defaultFetchProvider runtime_get_json) /\
    forall s : Machine W,
      (ep = "" /\
       tryFetch c s =
         (Returned {| tf_endpoint := Some "";
                      tf_configuration := JUndefined;
                      tf_error := Some {| cfe_endpoints := ep :: rest |} |}, s)) \/
      (ep <> "" /\
       exists t',
         trace (snd (tryFetch c s)) =
           trace s ++ EvFetch ep (fst (fetch c ep (world s))) :: t').
Proof.
  intros Hnew.
  destruct (constructor_built isEqual runtime_get_json new_DefaultCacheProvider
              options w c s0 launched Hnew) as (_ & Hopt & Hne & _).
  assert (Hfetch : fetch c = or_default (opt_fetch options)
                               (defaultFetchProvider runtime_get_json)).
  { unfold constructor in Hnew.
    destruct (or_default (opt_endpoints options) []); [ discriminate | ].
    destruct (opt_callback options); [ | discriminate ].
    injection Hnew as <- _ _. reflexivity. }
  destruct (endpoints c) as [ | ep rest ] eqn:Heps; [ contradiction | ].
  exists ep, rest.
  split; [ exact Hopt | ]. split; [ reflexivity | ]. split; [ exact Hfetch | ].
  intros s. unfold tryFetch, bind. rewrite Heps, tryFetch_loop_cons.
  destruct (truthy_string ep) eqn:Hep.
  - right. split; [ apply truthy_string_nonempty; exact Hep | ].
    destruct (fetch c ep (world s)) as [[d | x] w1]; cbn zeta; cbn [fst].
    + destruct (truthy d).
      * exists []. reflexivity.
      * match goal with
        | |- context [tryFetch_loop c rest d ?m] =>
            destruct (tryFetch_loop_returns c rest d m)
              as (r & s' & t & Hrun & _ & Htr & _)
        end.
        rewrite Hrun. cbn [ret snd]. eexists. rewrite Htr. cbn.
        rewrite <- !app_assoc. reflexivity.
    + match goal with
      | |- context [tryFetch_loop c rest JUndefined ?m] =>
          destruct (tryFetch_loop_returns c rest JUndefined m)
            as (r & s' & t & Hrun & _ & Htr & _)
      end.
      rewrite Hrun. cbn [ret snd]. eexists. rewrite Htr. cbn.
      rewrite <- !app_assoc. reflexivity.
  - left. apply truthy_string_empty in Hep. subst ep.
    split; reflexivity.
Qed.

End ConstructorValidation.

Lemma constructed_client_fetches_first_witness :
  exists ep rest,
    opt_endpoints test_options = Some (ep :: rest) /\
    endpoints
      (example_client JUndefined (Some 5%Z) test_endpoints third_fetch
         defaultTransformer defaultValidator echo_callback) = ep :: rest /\
    fetch
      (example_client JUndefined (Some 5%Z) test_endpoints third_fetch
         defaultTransformer defaultValidator echo_callback)
      = or_default (opt_fetch test_options) (defaultFetchProvider good_fetch) /\
    forall s : Machine JsValue,
      (ep = "" /\
       tryFetch
         (example_client JUndefined (Some 5%Z) test_endpoints third_fetch
            defaultTransformer defaultValidator echo_callback) s =
         (Returned {| tf_endpoint := Some "";
                      tf_configuration := JUndefined;
                      tf_error := Some {| cfe_endpoints := ep :: rest |} |}, s)) \/
      (ep <> "" /\
       exists t',
         trace
           (snd (tryFetch
                   (example_client JUndefined (Some 5%Z) test_endpoints
                      third_fetch defaultTransformer defaultValidator
                      echo_callback) s)) =
           trace s
           ++ EvFetch ep
                (fst (fetch
                        (example_client JUndefined (Some 5%Z) test_endpoints
                           third_fetch defaultTransformer defaultValidator
                           echo_callback) ep (world s))) :: t').
Proof.
  apply (constructed_client_fetches_first structural_equality good_fetch
           DefaultCacheProvider test_options JUndefined
           (example_client JUndefined (Some 5%Z) test_endpoints third_fetch
              defaultTransformer defaultValidator echo_callback)
           (init_machine JUndefined) [OpRefresh]).
  reflexivity.
Defined.
